(** * A type-aware query-filtering engine: shallow embedding and properties

    The development follows [app/type_cast.py] (the [Cast] helper and the
    [UnsupportedFilterType] error) and [app/filtering.py] (the
    [AbstractFilter] class family, the [Filter] dispatcher and its
    [filter_multiple] pipeline).

    Python objects are modelled as follows.
    - Values that can travel in a filter descriptor are a small universe
      [PyVal] (None, bool, int, str, list, tuple, datetime); floats are left
      out.
    - Exceptions are an error monad [result].
    - A Django [QuerySet] is the lazily evaluated plan the code builds: the
      sequence of [filter] / [exclude] / [annotate] calls, with the keyword
      strings exactly as the code formats them.  A separate denotation
      ([run]) reads such a plan over in-memory rows.
    - Classes are namespaces looked up along the method resolution order, so
      that [hasattr] / [getattr] and inheritance behave as in the source. *)

From stdpp Require Import gmap strings list fin_maps pretty.
From Stdlib Require Import ZArith Ascii.

Open Scope string_scope.
Open Scope Z_scope.

(** ** Exceptions *)

(** The exceptions the modelled code can meet.  [UnsupportedFilterType] is the
    typed API error of [type_cast.py] (status 422) with its detail message;
    the others are Python's or Django's own; [ReError] is [re.error], which
    is no [ValueError].  [NotAFilter] stands for a call on a member inherited
    from [object]: some of these fail inside the runtime, others return an
    object that is not the filter ([__setattr__] returns [None],
    [__subclasshook__] returns [NotImplemented]).  In both cases the call
    yields no filter, and the model does not tell the two apart: [Ok] is a
    call that returned the filter, and nothing is claimed below about a call
    that ends in [NotAFilter] beyond that. *)
Inductive exn : Type :=
| UnsupportedFilterType (detail : string)
| TypeError
| ValueError
| AttributeError
| KeyError
| FieldDoesNotExist
| ReError
| NotAFilter.

Inductive result (A : Type) : Type :=
| Ok (a : A)
| Raise (e : exn).
Arguments Ok {A} a.
Arguments Raise {A} e.

#[global] Instance result_ret : MRet result := fun _ a => Ok a.
#[global] Instance result_bind : MBind result := fun _ _ f m =>
  match m with
  | Ok a => f a
  | Raise e => Raise e
  end.
#[global] Instance result_fmap : FMap result := fun _ _ f m =>
  match m with
  | Ok a => Ok (f a)
  | Raise e => Raise e
  end.

(** [try: m except e => h]: run [m]; when it raises exactly [e], run [h]. *)
Definition exn_eqb (a b : exn) : bool :=
  match a, b with
  | UnsupportedFilterType x, UnsupportedFilterType y => String.eqb x y
  | TypeError, TypeError | ValueError, ValueError
  | AttributeError, AttributeError | KeyError, KeyError
  | FieldDoesNotExist, FieldDoesNotExist | ReError, ReError
  | NotAFilter, NotAFilter => true
  | _, _ => false
  end.

Definition try_except {A} (m : result A) (e : exn) (h : result A) : result A :=
  match m with
  | Ok a => Ok a
  | Raise e' => if exn_eqb e' e then h else Raise e'
  end.

(** Sequencing over a list, left to right, stopping at the first failure
    (a list comprehension whose element expression can raise). *)
Fixpoint mapM {A B} (f : A → result B) (l : list A) : result (list B) :=
  match l with
  | [] => Ok []
  | x :: l' => y ← f x; ys ← mapM f l'; Ok (y :: ys)
  end.

Definition is_ok {A} (m : result A) : bool :=
  match m with Ok _ => true | Raise _ => false end.

(** ** Python values *)

Record datetime : Type := mk_datetime {
  year : Z; month : Z; day : Z;
  hour : Z; minute : Z; second : Z; microsecond : Z
}.

#[warnings="-register-all"]
Inductive PyVal : Type :=
| VNone
| VBool (b : bool)
| VInt (z : Z)
| VStr (s : string)
| VList (l : list PyVal)
| VTuple (l : list PyVal)
| VDateTime (d : datetime).

(** [isinstance(v, bool)], [isinstance(v, (bool, int, str))] and
    [isinstance(v, (list, tuple))]. *)
Definition is_bool (v : PyVal) : bool :=
  match v with VBool _ => true | _ => false end.

Definition is_bool_int_str (v : PyVal) : bool :=
  match v with VBool _ | VInt _ | VStr _ => true | _ => false end.

Definition is_list_or_tuple (v : PyVal) : bool :=
  match v with VList _ | VTuple _ => true | _ => false end.

(** The elements of a sequence value. *)
Definition elements_of (v : PyVal) : list PyVal :=
  match v with VList l | VTuple l => l | _ => [] end.

Definition datetime_eqb (a b : datetime) : bool :=
  (year a =? year b) && (month a =? month b) && (day a =? day b)
  && (hour a =? hour b) && (minute a =? minute b) && (second a =? second b)
  && (microsecond a =? microsecond b).

Fixpoint val_eqb (a b : PyVal) {struct a} : bool :=
  let fix all2 (l1 l2 : list PyVal) {struct l1} : bool :=
    match l1, l2 with
    | [], [] => true
    | x :: l1', y :: l2' => val_eqb x y && all2 l1' l2'
    | _, _ => false
    end in
  match a, b with
  | VNone, VNone => true
  | VBool x, VBool y => Bool.eqb x y
  | VInt x, VInt y => (x =? y)
  | VStr x, VStr y => String.eqb x y
  | VList x, VList y => all2 x y
  | VTuple x, VTuple y => all2 x y
  | VDateTime x, VDateTime y => datetime_eqb x y
  | _, _ => false
  end.

(** Keyword arguments ([**kwargs]) and other dictionaries keyed by strings. *)
Abbreviation kwargs := (gmap string PyVal).

(** ** The Python and database built-ins the code calls

    These are not part of the repository; the development is parametric in
    them and every property below holds for any implementation.
    - [str_lower], [str_strip]: [str.lower], [str.strip];
    - [int_of_str s]: [int(s)] on a string, [None] when it raises
      [ValueError];
    - [str_of_object v]: [str(v)] for the values whose text form is a [repr]
      (lists, tuples, datetimes);
    - [strptime s fmt]: [datetime.strptime] on two strings, see [parse];
    - [db_cast]: the database's [CAST] behind [django.db.models.functions.Cast]. *)
Inductive OutputField : Type := DateField | DateTimeField.

(** What [datetime.strptime] does with a text and a format: it returns a
    date ([Parsed]); or it raises [ValueError] ([Mismatch]: the text does not
    match the format, or the format holds a directive it does not know); or
    the regular expression it builds from the format does not compile and
    [re.error] escapes ([PatternError]: a format that repeats a directive,
    such as [%Y-%Y]). *)
Inductive parse : Type :=
| Parsed (d : datetime)
| Mismatch
| PatternError.

Class PyBuiltins : Type := {
  str_lower : string → string;
  str_strip : string → string;
  int_of_str : string → option Z;
  str_of_object : PyVal → string;
  strptime : string → string → parse;
  db_cast : OutputField → PyVal → PyVal
}.

Section TypeCast.
Context {builtins : PyBuiltins}.

(** [str(v)]. *)
Definition py_str (v : PyVal) : string :=
  match v with
  | VNone => "None"
  | VBool true => "True"
  | VBool false => "False"
  | VInt z => pretty z
  | VStr s => s
  | VList _ | VTuple _ | VDateTime _ => str_of_object v
  end.

(** [int(v)]: a [ValueError] for a string that is no integer literal, a
    [TypeError] for an argument that is neither a number nor a string. *)
Definition py_int (v : PyVal) : result Z :=
  match v with
  | VInt z => Ok z
  | VBool b => Ok (if b then 1 else 0)
  | VStr s => match int_of_str s with Some z => Ok z | None => Raise ValueError end
  | VNone | VList _ | VTuple _ | VDateTime _ => Raise TypeError
  end.

(** [datetime.strptime(v, fmt)]: both arguments must be [str]; the three
    outcomes on strings are those of [parse]. *)
Definition py_strptime (v fmt : PyVal) : result datetime :=
  match v, fmt with
  | VStr s, VStr f =>
      match strptime s f with
      | Parsed d => Ok d
      | Mismatch => Raise ValueError
      | PatternError => Raise ReError
      end
  | _, _ => Raise TypeError
  end.

(** *** [type_cast.Cast] *)

Definition value_ranges : list string := ["true"; "false"; "1"; "0"].

Definition str_in (s : string) (l : list string) : bool :=
  existsb (String.eqb s) l.

Definition Cast_to_bool (_value : PyVal) : result PyVal :=
  if is_bool _value then Ok _value
  else
    let value := str_lower (py_str _value) in
    if negb (str_in value value_ranges)
    then Raise (UnsupportedFilterType "Value is not boolean")
    else Ok (VBool (str_in value ["true"; "1"])).

Definition Cast_to_date_time (_value : PyVal) (date_format : PyVal) : result PyVal :=
  try_except (VDateTime <$> py_strptime _value date_format) ValueError
    (Raise (UnsupportedFilterType
              "Value is not a valid date or has not appropriate format.")).

Definition Cast_to_int (_value : PyVal) : result PyVal :=
  try_except (VInt <$> py_int _value) ValueError
    (Raise (UnsupportedFilterType "Value is not a valid integer")).

End TypeCast.

(** ** The queryable collection

    A [QuerySet] is lazy: [filter], [exclude] and [annotate] return a new
    plan and touch no data.  The plan keeps the keyword strings as the code
    builds them (the field name followed by [__gt] and the like).  The checks
    Django makes on a keyword or on a value when it builds a lookup are not
    modelled: every call returns a plan. *)

Inductive Expr : Type :=
| DjangoCast (field : string) (output_field : OutputField)
| Lower (field : string).

(** [Q(key=value)] and [q1 | q2]. *)
Inductive Q : Type :=
| QLookup (key : string) (value : PyVal)
| QOr (a b : Q).

Inductive QOp : Type :=
| OpFilter (q : Q)
| OpExclude (q : Q)
| OpAnnotate (name : string) (e : Expr).

(** What the schema knows about a field: [field.name] and
    [field.get_internal_type()]. *)
Record Field : Type := mk_field {
  field_name : string;
  internal_type : string
}.

(** [queryset.model._meta.get_field] is the lookup in [get_field]; [None]
    is [FieldDoesNotExist]. *)
Record QuerySet : Type := mk_queryset {
  get_field : gmap string Field;
  ops : list QOp
}.

Definition push (o : QOp) (qs : QuerySet) : QuerySet :=
  {| get_field := get_field qs; ops := ops qs ++ [o] |}.

(** [qs.filter(key=value)], [qs.filter(q)], [qs.exclude(key=value)],
    [qs.annotate(name=e)], [qs.all()]. *)
Definition qs_filter (key : string) (value : PyVal) (qs : QuerySet) : QuerySet :=
  push (OpFilter (QLookup key value)) qs.
Definition qs_filter_q (q : Q) (qs : QuerySet) : QuerySet :=
  push (OpFilter q) qs.
Definition qs_exclude (key : string) (value : PyVal) (qs : QuerySet) : QuerySet :=
  push (OpExclude (QLookup key value)) qs.
Definition qs_annotate (name : string) (e : Expr) (qs : QuerySet) : QuerySet :=
  push (OpAnnotate name e) qs.
Definition qs_all (qs : QuerySet) : QuerySet := qs.

(** *** Reading a plan over rows

    The lookups the handlers use, with the meaning Django documents for
    them.  Django splits a keyword at [__] and resolves the parts against
    the schema.  For the keywords built here (a field name, which Django
    does not allow to contain [__] or to end with an underscore, followed by
    at most one lookup) that is the split at the last [__]: when the part
    after it names a lookup the part before it is the field, otherwise the
    whole keyword is a field compared with [exact]. *)

Inductive lookup : Type :=
| LExact | LIExact | LIn | LGt | LGte | LLt | LLte | LIsNull
| LIContains | LIStartsWith | LIEndsWith.

Definition lookup_of_name (s : string) : option lookup :=
  if String.eqb s "exact" then Some LExact
  else if String.eqb s "iexact" then Some LIExact
  else if String.eqb s "in" then Some LIn
  else if String.eqb s "gt" then Some LGt
  else if String.eqb s "gte" then Some LGte
  else if String.eqb s "lt" then Some LLt
  else if String.eqb s "lte" then Some LLte
  else if String.eqb s "isnull" then Some LIsNull
  else if String.eqb s "icontains" then Some LIContains
  else if String.eqb s "istartswith" then Some LIStartsWith
  else if String.eqb s "iendswith" then Some LIEndsWith
  else None.

(** [s.rpartition("__")], [None] when [s] has no [__]. *)
Fixpoint rpartition (s : string) : option (string * string) :=
  match s with
  | EmptyString => None
  | String a s' =>
      match rpartition s' with
      | Some (before, after) => Some (String a before, after)
      | None =>
          match s' with
          | String b after =>
              if (Ascii.eqb a "_" && Ascii.eqb b "_")%bool
              then Some (EmptyString, after) else None
          | EmptyString => None
          end
      end
  end.

(** [s.split(c)] for a one-character separator. *)
Fixpoint split1 (c : ascii) (s : string) (cur : string) : list string :=
  match s with
  | EmptyString => [cur]
  | String a rest =>
      if Ascii.eqb a c then cur :: split1 c rest EmptyString
      else split1 c rest (cur +:+ String a EmptyString)
  end.

Definition parse_key (key : string) : string * lookup :=
  match rpartition key with
  | Some (field, name) =>
      match lookup_of_name name with
      | Some l => (field, l)
      | None => (key, LExact)
      end
  | None => (key, LExact)
  end.

Fixpoint is_prefix (p s : string) : bool :=
  match p, s with
  | EmptyString, _ => true
  | String a p', String b s' => Ascii.eqb a b && is_prefix p' s'
  | String _ _, EmptyString => false
  end.

Fixpoint is_infix (p s : string) : bool :=
  is_prefix p s ||
  match s with
  | EmptyString => false
  | String _ s' => is_infix p s'
  end.

Definition is_suffix (p s : string) : bool :=
  is_prefix (String.rev p) (String.rev s).

Definition datetime_key (d : datetime) : list Z :=
  [year d; month d; day d; hour d; minute d; second d; microsecond d].

Fixpoint lex_compare (a b : list Z) : comparison :=
  match a, b with
  | [], [] => Eq
  | [], _ :: _ => Lt
  | _ :: _, [] => Gt
  | x :: a', y :: b' =>
      match x ?= y with
      | Eq => lex_compare a' b'
      | c => c
      end
  end.

(** Ordering of a stored value against an argument: integers among
    themselves, dates among themselves. *)
Definition val_compare (a b : PyVal) : option comparison :=
  match a, b with
  | VInt x, VInt y => Some (x ?= y)
  | VDateTime x, VDateTime y => Some (lex_compare (datetime_key x) (datetime_key y))
  | _, _ => None
  end.

Abbreviation row := (gmap string PyVal).

Section Run.
Context {builtins : PyBuiltins}.

Definition stored_in (r : row) (field : string) : PyVal :=
  default VNone (r !! field).

Definition text_test (test : string → string → bool) (stored arg : PyVal) : bool :=
  match stored, arg with
  | VStr s, VStr a => test (str_lower a) (str_lower s)
  | _, _ => false
  end.

Definition ordered (test : comparison → bool) (stored arg : PyVal) : bool :=
  match val_compare stored arg with
  | Some c => test c
  | None => false
  end.

Definition holds (l : lookup) (stored arg : PyVal) : bool :=
  match l with
  | LExact => val_eqb stored arg
  | LIExact => text_test String.eqb stored arg
  | LIn => existsb (val_eqb stored) (elements_of arg)
  | LGt => ordered (λ c, match c with Gt => true | _ => false end) stored arg
  | LGte => ordered (λ c, match c with Lt => false | _ => true end) stored arg
  | LLt => ordered (λ c, match c with Lt => true | _ => false end) stored arg
  | LLte => ordered (λ c, match c with Gt => false | _ => true end) stored arg
  | LIsNull => Bool.eqb (val_eqb stored VNone) (val_eqb arg (VBool true))
  | LIContains => text_test is_infix stored arg
  | LIStartsWith => text_test is_prefix stored arg
  | LIEndsWith => text_test is_suffix stored arg
  end.

Fixpoint sat (q : Q) (r : row) : bool :=
  match q with
  | QLookup key value =>
      let '(field, l) := parse_key key in holds l (stored_in r field) value
  | QOr a b => sat a r || sat b r
  end.

Definition eval_expr (e : Expr) (r : row) : PyVal :=
  match e with
  | DjangoCast field output_field => db_cast output_field (stored_in r field)
  | Lower field =>
      match stored_in r field with
      | VStr s => VStr (str_lower s)
      | v => v
      end
  end.

(** The name an operation annotates, and the names a plan has annotated. *)
Definition annotation_of (o : QOp) : list string :=
  match o with
  | OpAnnotate name _ => [name]
  | _ => []
  end.

Definition annotated (l : list QOp) : list string := l ≫= annotation_of.

(** A lookup that asks whether the value is NULL: [isnull], and [exact]
    with [None], which Django turns into [IS NULL]. *)
Definition is_null_test (l : lookup) (arg : PyVal) : bool :=
  match l with
  | LIsNull => true
  | LExact => val_eqb arg VNone
  | _ => false
  end.

(** SQL's third truth value.  A comparison with NULL is neither true nor
    false, so the row passes neither the condition nor its negation.  For a
    column of the model Django puts [IS NOT NULL] under the negation, which
    makes [exclude] the complement of [filter] there; for an annotation
    (a name in [ann]) it does not, and a row whose annotation is NULL is
    dropped by [filter] and by [exclude] alike. *)
Fixpoint undecided (ann : list string) (q : Q) (r : row) : bool :=
  match q with
  | QLookup key value =>
      let '(field, l) := parse_key key in
      str_in field ann && val_eqb (stored_in r field) VNone
      && negb (is_null_test l value)
  | QOr a b => undecided ann a r || undecided ann b r
  end.

(** One operation of a plan on the rows so far, [ann] being the names the
    plan has annotated before it. *)
Definition step (ann : list string) (rows : list row) (o : QOp) : list row :=
  match o with
  | OpFilter q => filter (λ r, sat q r = true) rows
  | OpExclude q => filter (λ r, sat q r || undecided ann q r = false) rows
  | OpAnnotate name e => (λ r, <[name := eval_expr e r]> r) <$> rows
  end.

Fixpoint run_from (ann : list string) (rows : list row) (l : list QOp) : list row :=
  match l with
  | [] => rows
  | o :: l' => run_from (ann ++ annotation_of o) (step ann rows o) l'
  end.

(** The rows a plan selects from a table. *)
Definition run (qs : QuerySet) (table : list row) : list row :=
  run_from [] table (ops qs).

End Run.

(** ** The field-filter classes of [filtering.py] *)

Inductive cls : Type :=
| AbstractFilter
| FilterBooleanField
| FilterCharField
| FilterDateField
| FilterDateTimeField
| FilterIntegerField
| FilterTextField.

(** The base class named in each [class] statement ([AbstractFilter] derives
    from [ABC]). *)
Definition base (c : cls) : option cls :=
  match c with
  | AbstractFilter => None
  | FilterBooleanField => Some AbstractFilter
  | FilterCharField => Some AbstractFilter
  | FilterDateField => Some AbstractFilter
  | FilterDateTimeField => Some FilterDateField
  | FilterIntegerField => Some AbstractFilter
  | FilterTextField => Some FilterCharField
  end.

Fixpoint linearize (fuel : nat) (c : cls) : list cls :=
  match fuel with
  | O => []
  | S n => c :: match base c with Some b => linearize n b | None => [] end
  end.

(** The method resolution order (single inheritance, depth at most 3). *)
Definition mro (c : cls) : list cls := linearize 3 c.

(** An operator handler: [def _op(self, field, value, **kwargs) -> Self].
    The only state of a filter object is [self._queryset], so a handler is a
    function of the plan that returns the new plan. *)
Definition handler : Type := QuerySet → string → PyVal → kwargs → result QuerySet.

Inductive query_filter_impl : Type := QF_AbstractFilter | QF_FilterDateField.

(** What a name is bound to in a class body. *)
Inductive member : Type :=
| Data (v : PyVal)
| Dict (d : gmap string string)
| Handler (h : handler)
| CastMethod (takes_kwargs : bool) (f : PyVal → kwargs → result PyVal)
| Annotator (f : (string → option PyVal) → string → result (string * Expr))
| QueryFilter (impl : query_filter_impl)
| Method
| Property
| InstanceAttr
| Inherited.

(** Names every instance inherits from [object] and [ABC] (CPython 3.11 and
    3.12; the source needs 3.11 for [typing.Self]). *)
Definition object_attrs : list string :=
  [ "__abstractmethods__"; "__class__"; "__delattr__"; "__dict__"; "__dir__";
    "__doc__"; "__eq__"; "__format__"; "__ge__"; "__getattribute__";
    "__getstate__"; "__gt__"; "__hash__"; "__init__"; "__init_subclass__";
    "__le__"; "__lt__"; "__module__"; "__ne__"; "__new__"; "__reduce__";
    "__reduce_ex__"; "__repr__"; "__setattr__"; "__sizeof__"; "__slots__";
    "__str__"; "__subclasshook__"; "__weakref__"; "_abc_impl" ].

Fixpoint assoc {A} (name : string) (l : list (string * A)) : option A :=
  match l with
  | [] => None
  | (k, v) :: l' => if String.eqb name k then Some v else assoc name l'
  end.

Section Filtering.
Context {builtins : PyBuiltins}.

(** *** [AbstractFilter] *)

(** The class is abstract and has no instances of its own; the body of its
    [_cast] is [pass], which a subclass reaches only through [super]. *)
Definition AbstractFilter__cast : PyVal → kwargs → result PyVal :=
  λ value _, Ok VNone.

Definition AbstractFilter__normalize_value (value : PyVal) : PyVal := value.

(** The handlers build the plan and hand it to the ORM.  The checks the ORM
    makes when [filter] or [exclude] is called (that the key names a field
    and a lookup, that the value can be prepared for the column) are not part
    of the model: [Ok] is the plan the handler asks for. *)
Definition AbstractFilter__eq : handler := λ qs field value _,
  Ok (qs_filter field value qs).

Definition AbstractFilter__not : handler := λ qs field value _,
  Ok (qs_exclude field value qs).

Definition AbstractFilter__in : handler := λ qs field value _,
  let value := if negb (is_list_or_tuple value) then VTuple [value] else value in
  Ok (qs_filter (field +:+ "__in") value qs).

Definition AbstractFilter__is_grater_than : handler := λ qs field value _,
  Ok (qs_filter (field +:+ "__gt") value qs).

Definition AbstractFilter__is_grater_than_or_equal : handler := λ qs field value _,
  Ok (qs_filter (field +:+ "__gte") value qs).

Definition AbstractFilter__is_less_than : handler := λ qs field value _,
  Ok (qs_filter (field +:+ "__lt") value qs).

Definition AbstractFilter__is_less_than_or_equal : handler := λ qs field value _,
  Ok (qs_filter (field +:+ "__lte") value qs).

Definition AbstractFilter__is_empty : handler := λ qs field value _,
  Ok (qs_filter_q (QLookup (field +:+ "__isnull") (VBool true)) qs).

Definition AbstractFilter__is_not_empty : handler := λ qs field value _,
  Ok (qs_exclude (field +:+ "__isnull") (VBool true) qs).

(** *** [FilterBooleanField] *)

Definition FilterBooleanField__cast : PyVal → kwargs → result PyVal :=
  λ value _,
  if negb (is_bool_int_str value)
  then Raise (UnsupportedFilterType "Value must be a boolean")
  else Cast_to_bool value.

(** *** [FilterCharField] *)

Definition FilterCharField_OPERATORS_MAP : gmap string string :=
  list_to_map
    [ ("contains", "contains");
      ("startsWith", "starts_with");
      ("endsWith", "ends_with");
      ("in", "in");
      ("isAnyOf", "in");
      ("not", "not");
      ("isEmpty", "is_empty");
      ("isNotEmpty", "is_not_empty");
      ("doesNotEqual", "not");
      ("doesNotContain", "does_not_contain") ].

Definition FilterCharField__cast : PyVal → kwargs → result PyVal :=
  λ value _,
  if is_list_or_tuple value
  then Ok (VList ((λ v, VStr (py_str v)) <$> elements_of value))
  else Ok (VStr (py_str value)).

Definition FilterCharField__eq : handler := λ qs field value _,
  Ok (qs_filter (field +:+ "__iexact") value qs).

Definition FilterCharField__not : handler := λ qs field value _,
  Ok (qs_exclude (field +:+ "__iexact") value qs).

(** [v.lower()]: only a [str] has the method. *)
Definition py_lower (v : PyVal) : result PyVal :=
  match v with
  | VStr s => Ok (VStr (str_lower s))
  | _ => Raise AttributeError
  end.

Definition FilterCharField__in : handler := λ qs field value _,
  let value := if negb (is_list_or_tuple value) then VTuple [value] else value in
  value ← mapM py_lower (elements_of value);
  Ok (qs_filter "lower__in" (VList value) (qs_annotate "lower" (Lower field) qs)).

Definition FilterCharField__contains : handler := λ qs field value _,
  Ok (qs_filter (field +:+ "__icontains") value qs).

Definition FilterCharField__does_not_contain : handler := λ qs field value _,
  Ok (qs_exclude (field +:+ "__icontains") value qs).

Definition FilterCharField__starts_with : handler := λ qs field value _,
  Ok (qs_filter (field +:+ "__istartswith") value qs).

Definition FilterCharField__ends_with : handler := λ qs field value _,
  Ok (qs_filter (field +:+ "__iendswith") value qs).

Definition FilterCharField__is_empty : handler := λ qs field value _,
  Ok (qs_filter_q (QOr (QLookup (field +:+ "__isnull") (VBool true))
                       (QLookup (field +:+ "__exact") (VStr EmptyString))) qs).

Definition FilterCharField__is_not_empty : handler := λ qs field value _,
  Ok (qs_exclude (field +:+ "__exact") (VStr EmptyString)
        (qs_exclude (field +:+ "__isnull") (VBool true) qs)).

(** *** [FilterDateField] and [FilterDateTimeField] *)

Definition FilterDateField_FORMAT : string := "%Y-%m-%dT%H:%M:%S.%fZ".
Definition FilterDateTimeField_FORMAT : string := "%Y-%m-%dT%H:%M:%S.%fZ".

Definition FilterDateField_OPERATORS_MAP : gmap string string :=
  list_to_map
    [ ("not", "not");
      ("in", "in");
      ("after", "is_grater_than");
      ("onOrAfter", "is_grater_than_or_equal");
      ("before", "is_less_than");
      ("onOrBefore", "is_less_than_or_equal");
      ("isEmpty", "is_empty");
      ("isNotEmpty", "is_not_empty") ].

(** [kwargs.get(key)]: Python's [None] when the key is missing. *)
Definition kwargs_get (kw : kwargs) (key : string) : PyVal :=
  default VNone (kw !! key).

Definition FilterDateField__cast : PyVal → kwargs → result PyVal :=
  λ value kw,
  if is_list_or_tuple value
  then VList <$> mapM (λ v, Cast_to_date_time v (kwargs_get kw "format"))
                      (elements_of value)
  else Cast_to_date_time value (kwargs_get kw "format").

(** The dictionary returned has one entry; its key must be a string to be
    passed on as a keyword. *)
Definition FilterDateField__cast_field_and_annotate
    (self_attr : string → option PyVal) (field : string) : result (string * Expr) :=
  match self_attr "ANNOTATION_NAME" with
  | Some (VStr name) => Ok (name, DjangoCast field DateField)
  | Some _ => Raise TypeError
  | None => Raise AttributeError
  end.

Definition FilterDateTimeField__cast_field_and_annotate
    (self_attr : string → option PyVal) (field : string) : result (string * Expr) :=
  Ok ("df", DjangoCast field DateTimeField).

(** *** [FilterIntegerField] *)

Definition FilterIntegerField_OPERATORS_MAP : gmap string string :=
  list_to_map
    [ ("!=", "not");
      ("in", "in");
      (">", "is_grater_than");
      (">=", "_is_grater_than_or_equal");
      ("<", "is_less_than");
      ("<=", "is_less_than_or_equal");
      ("isEmpty", "is_empty");
      ("isNotEmpty", "is_not_empty");
      ("isAnyOf", "in") ].

Definition FilterIntegerField__cast : PyVal → kwargs → result PyVal :=
  λ value _,
  if is_list_or_tuple value
  then VList <$> mapM Cast_to_int (elements_of value)
  else Cast_to_int value.

(** *** The class bodies *)

Definition namespace (c : cls) : list (string * member) :=
  match c with
  | AbstractFilter =>
      [ ("ANNOTATION_NAME", Data (VStr EmptyString));
        ("OPERATORS_MAP", Dict ∅);
        ("__init__", Method);
        ("_cast", CastMethod false AbstractFilter__cast);
        ("queryset", Property);
        ("_normalize_value", Method);
        ("_map_operator", Method);
        ("_resolve_field_name", Method);
        ("query_filter", QueryFilter QF_AbstractFilter);
        ("_eq", Handler AbstractFilter__eq);
        ("_not", Handler AbstractFilter__not);
        ("_in", Handler AbstractFilter__in);
        ("_is_grater_than", Handler AbstractFilter__is_grater_than);
        ("_is_grater_than_or_equal", Handler AbstractFilter__is_grater_than_or_equal);
        ("_is_less_than", Handler AbstractFilter__is_less_than);
        ("_is_less_than_or_equal", Handler AbstractFilter__is_less_than_or_equal);
        ("_is_empty", Handler AbstractFilter__is_empty);
        ("_is_not_empty", Handler AbstractFilter__is_not_empty) ]
  | FilterBooleanField =>
      [ ("_cast", CastMethod false FilterBooleanField__cast) ]
  | FilterCharField =>
      [ ("OPERATORS_MAP", Dict FilterCharField_OPERATORS_MAP);
        ("_cast", CastMethod false FilterCharField__cast);
        ("_eq", Handler FilterCharField__eq);
        ("_not", Handler FilterCharField__not);
        ("_in", Handler FilterCharField__in);
        ("_contains", Handler FilterCharField__contains);
        ("_does_not_contain", Handler FilterCharField__does_not_contain);
        ("_starts_with", Handler FilterCharField__starts_with);
        ("_ends_with", Handler FilterCharField__ends_with);
        ("_is_empty", Handler FilterCharField__is_empty);
        ("_is_not_empty", Handler FilterCharField__is_not_empty) ]
  | FilterDateField =>
      [ ("ANNOTATION_NAME", Data (VStr "df"));
        ("FORMAT", Data (VStr FilterDateField_FORMAT));
        ("OPERATORS_MAP", Dict FilterDateField_OPERATORS_MAP);
        ("_cast", CastMethod true FilterDateField__cast);
        ("_cast_field_and_annotate", Annotator FilterDateField__cast_field_and_annotate);
        ("query_filter", QueryFilter QF_FilterDateField) ]
  | FilterDateTimeField =>
      [ ("FORMAT", Data (VStr FilterDateTimeField_FORMAT));
        ("_cast_field_and_annotate",
           Annotator FilterDateTimeField__cast_field_and_annotate) ]
  | FilterIntegerField =>
      [ ("OPERATORS_MAP", Dict FilterIntegerField_OPERATORS_MAP);
        ("_cast", CastMethod false FilterIntegerField__cast) ]
  | FilterTextField => []
  end.

(** *** Attribute access on an instance *)

Fixpoint lookup_mro (name : string) (l : list cls) : option member :=
  match l with
  | [] => None
  | c :: l' =>
      match assoc name (namespace c) with
      | Some m => Some m
      | None => lookup_mro name l'
      end
  end.

(** [getattr(self, name)], [None] for [AttributeError]: the instance
    dictionary holds [_queryset] (set by [__init__]), then the classes in
    resolution order, then [object]. *)
Definition getattr (self : cls) (name : string) : option member :=
  if String.eqb name "_queryset" then Some InstanceAttr
  else match lookup_mro name (mro self) with
       | Some m => Some m
       | None => if str_in name object_attrs then Some Inherited else None
       end.

Definition hasattr (self : cls) (name : string) : bool :=
  match getattr self name with Some _ => true | None => false end.

(** [self.NAME] for a data attribute. *)
Definition self_attr (self : cls) (name : string) : option PyVal :=
  match getattr self name with
  | Some (Data v) => Some v
  | _ => None
  end.

Definition OPERATORS_MAP (self : cls) : gmap string string :=
  match getattr self "OPERATORS_MAP" with
  | Some (Dict d) => d
  | _ => ∅
  end.

Definition ANNOTATION_NAME (self : cls) : string :=
  match self_attr self "ANNOTATION_NAME" with
  | Some (VStr s) => s
  | _ => EmptyString
  end.

(** [self._cast(value, **kw)]: a keyword passed to a method that declares
    none is a [TypeError]. *)
Definition call_cast (self : cls) (value : PyVal) (kw : kwargs) : result PyVal :=
  match getattr self "_cast" with
  | Some (CastMethod takes_kwargs f) =>
      if negb takes_kwargs && negb (bool_decide (kw = ∅))
      then Raise TypeError
      else f value kw
  | _ => Raise AttributeError
  end.

(** [getattr(self, name)(field, value, **kwargs)].  The other methods of
    the class take one positional argument, and a data attribute is not
    callable: both are a [TypeError].  A member inherited from [object] is
    no operator handler either: the call fails or returns something that is
    not the filter, which is [NotAFilter] here. *)
Definition call_handler (self : cls) (name : string) : handler :=
  λ qs field value kw,
  match getattr self name with
  | None => Raise AttributeError
  | Some (Handler h) => h qs field value kw
  | Some Inherited => Raise NotAFilter
  | Some _ => Raise TypeError
  end.

Definition AbstractFilter__map_operator (self : cls) (operator : string) : string :=
  if hasattr self ("_" +:+ operator) then operator
  else default "eq" (OPERATORS_MAP self !! operator).

Definition AbstractFilter__resolve_field_name (self : cls) (field : string) : string :=
  let field := if String.eqb (ANNOTATION_NAME self) EmptyString then field
               else ANNOTATION_NAME self in
  field.

Definition is_empty_check (operator : string) : bool :=
  str_in operator ["isEmpty"; "isNotEmpty"].

Definition AbstractFilter_query_filter (self : cls) (qs : QuerySet)
    (field : string) (value : PyVal) (operator : string) (kw : kwargs)
  : result QuerySet :=
  value ← (if negb (is_empty_check operator) then call_cast self value ∅
           else Ok value);
  let value := AbstractFilter__normalize_value value in
  let operator := AbstractFilter__map_operator self operator in
  call_handler self ("_" +:+ operator) qs
    (AbstractFilter__resolve_field_name self field) value kw.

Definition call_cast_field_and_annotate (self : cls) (field : string)
  : result (string * Expr) :=
  match getattr self "_cast_field_and_annotate" with
  | Some (Annotator f) => f (self_attr self) field
  | _ => Raise AttributeError
  end.

Definition FilterDateField_query_filter (self : cls) (qs : QuerySet)
    (field : string) (value : PyVal) (operator : string) (kw : kwargs)
  : result QuerySet :=
  annotation ← call_cast_field_and_annotate self field;
  value ← (if negb (is_empty_check operator)
           then FORMAT ← from_option Ok (Raise AttributeError) (self_attr self "FORMAT");
                call_cast self value {[ "format" := default FORMAT (kw !! "format") ]}
           else Ok value);
  let operator := AbstractFilter__map_operator self operator in
  let qs := qs_annotate annotation.1 annotation.2 qs in
  call_handler self ("_" +:+ operator) qs
    (AbstractFilter__resolve_field_name self field) value kw.

(** [self.query_filter(field, value, operator, **kwargs)], resolved along the
    class hierarchy. *)
Definition query_filter (self : cls) (qs : QuerySet)
    (field : string) (value : PyVal) (operator : string) (kw : kwargs)
  : result QuerySet :=
  match getattr self "query_filter" with
  | Some (QueryFilter QF_AbstractFilter) =>
      AbstractFilter_query_filter self qs field value operator kw
  | Some (QueryFilter QF_FilterDateField) =>
      FilterDateField_query_filter self qs field value operator kw
  | _ => Raise AttributeError
  end.


(** *** The dispatcher [Filter] and the pipeline [filter_multiple]

    [Filter] is abstract: a concrete dispatcher is a subclass that sets the
    class-level table [CUSTOM_FIELDS] and implements [query_filter].  Both
    are not in [filtering.py] and are taken as given ([FilterSubclass]). *)

Definition FILTERS_MAP : gmap string cls :=
  list_to_map
    [ ("integerfield", FilterIntegerField);
      ("datetimefield", FilterDateTimeField);
      ("datefield", FilterDateField);
      ("booleanfield", FilterBooleanField);
      ("charfield", FilterCharField);
      ("textfield", FilterTextField) ].

(** The attributes [__init__] sets on a dispatcher. *)
Record Filter : Type := mk_Filter {
  _queryset : QuerySet;
  _value : PyVal;
  _operator : string;
  _field : string;
  _type : string;
  _field_name : string
}.

Record FilterSubclass : Type := mk_FilterSubclass {
  CUSTOM_FIELDS : gmap string string;
  subclass_query_filter : Filter → kwargs → result QuerySet
}.

(** Truth value of [d.get(key)] for a dictionary of strings: a missing key
    gives [None], an empty string is false as well. *)
Definition truthy (o : option string) : bool :=
  match o with
  | Some s => negb (String.eqb s EmptyString)
  | None => false
  end.

(** [queryset.model._meta.get_field(field)]. *)
Definition meta_get_field (qs : QuerySet) (field : string) : result Field :=
  match get_field qs !! field with
  | Some f => Ok f
  | None => Raise FieldDoesNotExist
  end.

(** [_map_fields] first replaces a name that is a key of [FILTERS_MAP] by the
    class stored there.  A class is no key of [CUSTOM_FIELDS] and no field
    of the schema, so the lookup [get_field] then fails. *)
Definition Filter__map_fields (cfg : FilterSubclass) (qs : QuerySet)
    (field : string) : result string :=
  match FILTERS_MAP !! field with
  | Some _ => Raise FieldDoesNotExist
  | None =>
      if truthy (CUSTOM_FIELDS cfg !! field) then Ok field
      else f ← meta_get_field qs field; Ok (field_name f)
  end.

Definition Filter__map_type (cfg : FilterSubclass) (qs : QuerySet)
    (field : string) : result string :=
  if truthy (CUSTOM_FIELDS cfg !! field)
  then Ok (default EmptyString (CUSTOM_FIELDS cfg !! field))
  else f ← meta_get_field qs field; Ok (internal_type f).

Definition Filter___init__ (cfg : FilterSubclass) (queryset : QuerySet)
    (field : string) (value : PyVal) (operator : string) : result Filter :=
  try_except
    (_field ← Filter__map_fields cfg queryset field;
     _type ← Filter__map_type cfg queryset field;
     let _field_name := str_lower (String.concat EmptyString (split1 "_"%char field EmptyString)) in
     Ok (mk_Filter queryset value operator _field _type _field_name))
    FieldDoesNotExist
    (Raise (UnsupportedFilterType "Field does not exist")).

(** A filter descriptor (a [dict]): the three keys the pipeline pops, each
    possibly missing, and whatever else the dictionary holds. *)
Record descriptor : Type := mk_descriptor {
  d_field : option string;
  d_value : option PyVal;
  d_operator : option string;
  d_options : kwargs
}.

(** [d.pop(key)] without a default. *)
Definition pop {A} (o : option A) : result A :=
  match o with
  | Some a => Ok a
  | None => Raise KeyError
  end.

Fixpoint filter_loop (cfg : FilterSubclass) (queryset : QuerySet)
    (filters : list descriptor) : result QuerySet :=
  match filters with
  | [] => Ok queryset
  | query_filter :: rest =>
      field ← pop (d_field query_filter);
      value ← pop (d_value query_filter);
      let operator := default EmptyString (d_operator query_filter) in
      let value := match value with
                   | VStr s => VStr (str_strip s)
                   | v => v
                   end in
      self ← Filter___init__ cfg queryset field value operator;
      queryset ← subclass_query_filter cfg self (d_options query_filter);
      filter_loop cfg queryset rest
  end.

Definition Filter_filter_multiple (cfg : FilterSubclass) (queryset : QuerySet)
    (filters : list descriptor) : result QuerySet :=
  filter_loop cfg (qs_all queryset) filters.

End Filtering.

(** ** A reference implementation of the built-ins on ASCII text

    Used to run the model on concrete inputs.  It covers plain ASCII input:
    [int] literals are an optional sign and decimal digits, and [strptime]
    knows the directives of the default format of the date filters. *)

Definition lower_ascii (c : ascii) : ascii :=
  let n := nat_of_ascii c in
  if ((65 <=? n)%nat && (n <=? 90)%nat)%bool then ascii_of_nat (n + 32) else c.

Fixpoint lower_string (s : string) : string :=
  match s with
  | EmptyString => EmptyString
  | String c s' => String (lower_ascii c) (lower_string s')
  end.

Definition is_space (c : ascii) : bool :=
  let n := nat_of_ascii c in
  ((n =? 32)%nat || ((9 <=? n)%nat && (n <=? 13)%nat))%bool.

Fixpoint lstrip (s : string) : string :=
  match s with
  | String c s' => if is_space c then lstrip s' else s
  | EmptyString => EmptyString
  end.

Definition strip_string (s : string) : string :=
  String.rev (lstrip (String.rev (lstrip s))).

Definition digit_of (c : ascii) : option Z :=
  let n := nat_of_ascii c in
  if ((48 <=? n)%nat && (n <=? 57)%nat)%bool then Some (Z.of_nat (n - 48)) else None.

Fixpoint digits_value (s : string) (acc : Z) : option Z :=
  match s with
  | EmptyString => Some acc
  | String c s' =>
      match digit_of c with
      | Some d => digits_value s' (10 * acc + d)
      | None => None
      end
  end.

Definition unsigned_literal (s : string) : option Z :=
  match s with
  | EmptyString => None
  | _ => digits_value s 0
  end.

Definition int_literal (s : string) : option Z :=
  match strip_string s with
  | String "-" s' => Z.opp <$> unsigned_literal s'
  | String "+" s' => unsigned_literal s'
  | s' => unsigned_literal s'
  end.

(** Read between [lo] and [hi] digits, as many as there are. *)
Fixpoint read_digits (hi : nat) (s : string) (acc : Z) (n : nat) : Z * nat * string :=
  match hi, s with
  | S hi', String c s' =>
      match digit_of c with
      | Some d => read_digits hi' s' (10 * acc + d) (S n)
      | None => (acc, n, s)
      end
  | _, _ => (acc, n, s)
  end.

Definition set_part (c : ascii) (v : Z) (d : datetime) : option datetime :=
  let in_range lo hi := ((lo <=? v) && (v <=? hi))%bool in
  if Ascii.eqb c "Y" then
    if in_range 1 9999 then Some (mk_datetime v (month d) (day d) (hour d) (minute d) (second d) (microsecond d)) else None
  else if Ascii.eqb c "m" then
    if in_range 1 12 then Some (mk_datetime (year d) v (day d) (hour d) (minute d) (second d) (microsecond d)) else None
  else if Ascii.eqb c "d" then
    if in_range 1 31 then Some (mk_datetime (year d) (month d) v (hour d) (minute d) (second d) (microsecond d)) else None
  else if Ascii.eqb c "H" then
    if in_range 0 23 then Some (mk_datetime (year d) (month d) (day d) v (minute d) (second d) (microsecond d)) else None
  else if Ascii.eqb c "M" then
    if in_range 0 59 then Some (mk_datetime (year d) (month d) (day d) (hour d) v (second d) (microsecond d)) else None
  else if Ascii.eqb c "S" then
    if in_range 0 61 then Some (mk_datetime (year d) (month d) (day d) (hour d) (minute d) v (microsecond d)) else None
  else None.

Definition width_of (c : ascii) : nat :=
  if Ascii.eqb c "Y" then 4%nat else if Ascii.eqb c "f" then 6%nat else 2%nat.

Fixpoint strptime_from (fmt s : string) (d : datetime) : option datetime :=
  match fmt with
  | EmptyString => match s with EmptyString => Some d | _ => None end
  | String "%" (String c fmt') =>
      let '(v, n, rest) := read_digits (width_of c) s 0 0 in
      if (n =? 0)%nat then None
      else if (Ascii.eqb c "Y" && negb (n =? 4)%nat)%bool then None
      else if Ascii.eqb c "f" then
        strptime_from fmt' rest
          (mk_datetime (year d) (month d) (day d) (hour d) (minute d) (second d)
                       (v * 10 ^ Z.of_nat (6 - n)))
      else d' ← set_part c v d; strptime_from fmt' rest d'
  | String a fmt' =>
      match s with
      | String b s' => if Ascii.eqb a b then strptime_from fmt' s' d else None
      | EmptyString => None
      end
  end.

Definition strptime_ascii (s fmt : string) : option datetime :=
  strptime_from fmt s (mk_datetime 1900 1 1 0 0 0 0).

(** The directives of a format, in order. *)
Fixpoint directives (fmt : string) : list ascii :=
  match fmt with
  | String "%" (String c fmt') => c :: directives fmt'
  | String _ fmt' => directives fmt'
  | EmptyString => []
  end.

(** Each directive becomes a named group of the regular expression, and a
    name used twice does not compile. *)
Fixpoint repeats (l : list ascii) : bool :=
  match l with
  | [] => false
  | c :: l' => existsb (Ascii.eqb c) l' || repeats l'
  end.

Definition strptime_reference (s fmt : string) : parse :=
  if repeats (directives fmt) then PatternError
  else match strptime_ascii s fmt with
       | Some d => Parsed d
       | None => Mismatch
       end.

Definition cast_ascii (o : OutputField) (v : PyVal) : PyVal :=
  match o, v with
  | DateField, VDateTime d => VDateTime (mk_datetime (year d) (month d) (day d) 0 0 0 0)
  | _, _ => v
  end.

(** The text form of compound values is not needed to run the filters; the
    reference implementation only tells the kinds apart. *)
Definition object_text (v : PyVal) : string :=
  match v with
  | VList _ => "[...]"
  | VTuple _ => "(...)"
  | _ => "<object>"
  end.

Definition ascii_builtins : PyBuiltins :=
  {| str_lower := lower_string;
     str_strip := strip_string;
     int_of_str := int_literal;
     str_of_object := object_text;
     strptime := strptime_reference;
     db_cast := cast_ascii |}.

(** A runtime whose parsers reject every string. *)
Definition rejecting_builtins : PyBuiltins :=
  {| str_lower := lower_string;
     str_strip := strip_string;
     int_of_str := λ _, None;
     str_of_object := object_text;
     strptime := λ _ _, Mismatch;
     db_cast := cast_ascii |}.


(** ** Notifications and run history

    [service.py] (the notification services), [api_views.py] (the view that
    uses them) and the callbacks of [tasks.py].  These modules raise and
    catch exceptions of their own, kept apart from those of the filters. *)

Module Py.

(** Exceptions of the notification and task code, each with what [str(e)]
    gives.  A [KeyError] carries the [repr] of the missing key.  [External]
    stands for whatever a collaborator (the messaging client, a serializer,
    the database, the task queue) raises, with its text. *)
Inductive exception : Type :=
| ValidationError (detail : string)
| KeyError (key_repr : string)
| NameError (name : string)
| TypeError (text : string)
| AttributeError (text : string)
| ValueError (text : string)
| OverflowError (text : string)
| DoesNotExist (text : string)
| External (text : string).

Definition str (e : exception) : string :=
  match e with
  | ValidationError detail => detail
  | KeyError key_repr => key_repr
  | NameError name => "name '" +:+ name +:+ "' is not defined"
  | TypeError text | AttributeError text | ValueError text | OverflowError text
  | DoesNotExist text | External text => text
  end.

(** [repr(s)] for a string without quotes or characters to escape. *)
Definition repr (s : string) : string := "'" +:+ s +:+ "'".

Inductive outcome (A : Type) : Type :=
| Done (a : A)
| Fail (e : exception).
Arguments Done {A} a.
Arguments Fail {A} e.

Definition bind {A B} (m : outcome A) (f : A → outcome B) : outcome B :=
  match m with
  | Done a => f a
  | Fail e => Fail e
  end.

(** Evaluating a name that no scope binds. *)
Definition unbound {A} (name : string) : outcome A := Fail (NameError name).

End Py.


#[global] Instance outcome_ret : MRet Py.outcome := @Py.Done.
#[global] Instance outcome_bind : MBind Py.outcome := λ A B f m, Py.bind m f.

(** *** [service.py] and the view [SmsView] of [api_views.py] *)

Module Notifications.

Inductive NotificationStatus : Type := Sent | Failed.

(** What the notification code reads of a lead: [lead.phone], a string or
    [None]. *)
Record Lead : Type := mk_Lead {
  lead_id : Z;
  phone : option string
}.

(** The values of a notification dictionary. *)
Inductive NVal : Type :=
| NNone
| NStr (s : string)
| NInt (z : Z)
| NStatus (s : NotificationStatus)
| NLead (l : Lead)
| NTime (d : datetime)
| NMessage (sid : string).

Abbreviation ndict := (gmap string NVal).

Definition HTTP_200_OK : Z := 200.
Definition HTTP_500_INTERNAL_SERVER_ERROR : Z := 500.

Record MetaData : Type := mk_MetaData {
  meta_message : NVal;
  meta_code : Z;
  meta_status : NotificationStatus
}.

Record NotificationDataClass : Type := mk_NotificationDataClass {
  meta_data : MetaData;
  notification : ndict
}.

(** What the notification code takes from outside: the Django settings,
    the clock, the Twilio library (building a client from the account
    settings, which the library may refuse, and the client's
    [messages.create], which returns the message's [sid]) and the
    notification serializer ([is_valid] with [raise_exception] followed by
    [.data]). *)
Record Services : Type := mk_Services {
  TWILIO_PHONE_NUMBER : string;
  now : datetime;
  Twilio : Py.outcome unit;
  messages_create : NVal → string → NVal → Py.outcome string;
  serialize : ndict → Py.outcome ndict
}.

Inductive service_cls : Type :=
| NotificationService
| SmsNotification
| EmailNotification.

Definition service_base (c : service_cls) : option service_cls :=
  match c with
  | NotificationService => None
  | SmsNotification | EmailNotification => Some NotificationService
  end.

(** What a name is bound to in the body of a service class:
    a string constant, a method, or a method marked [abstractmethod]. *)
Inductive service_member : Type :=
| Constant (s : string)
| ConcreteMethod
| AbstractMethod.

Definition service_namespace (c : service_cls) : list (string * service_member) :=
  match c with
  | NotificationService =>
      [ ("NOTIFICATION_TYPE", Constant EmptyString);
        ("send", AbstractMethod);
        ("_build_notification", ConcreteMethod) ]
  | SmsNotification =>
      [ ("NOTIFICATION_TYPE", Constant "sms");
        ("__init__", ConcreteMethod);
        ("send", ConcreteMethod) ]
  | EmailNotification => []
  end.

Definition service_mro (c : service_cls) : list service_cls :=
  c :: match service_base c with Some b => [b] | None => [] end.

Fixpoint service_lookup (name : string) (l : list service_cls) : option service_member :=
  match l with
  | [] => None
  | c :: l' =>
      match assoc name (service_namespace c) with
      | Some m => Some m
      | None => service_lookup name l'
      end
  end.

(** [cls.__abstractmethods__]: the names whose definition found first along
    the resolution order is abstract. *)
Definition abstract_methods (c : service_cls) : list string :=
  List.filter
    (λ name, match service_lookup name (service_mro c) with
             | Some AbstractMethod => true
             | _ => false
             end)
    (remove_dups (service_mro c ≫= λ k, (service_namespace k).*1)).

Definition NOTIFICATION_TYPE (self : service_cls) : string :=
  match service_lookup "NOTIFICATION_TYPE" (service_mro self) with
  | Some (Constant s) => s
  | _ => EmptyString
  end.

Section Service.
Context (env : Services).

Definition SmsNotification___init__ : Py.outcome unit := Twilio env.

(** [cls()]: a class with abstract methods left cannot be instantiated (the
    text of the error names the class and the methods in a way that depends
    on the version of Python; its common beginning is kept); otherwise the
    initializer found along the resolution order runs, and only
    [SmsNotification] defines one. *)
Definition instantiate (c : service_cls) : Py.outcome service_cls :=
  match abstract_methods c with
  | [] =>
      match service_lookup "__init__" (service_mro c) with
      | Some _ => _ ← SmsNotification___init__; mret c
      | None => mret c
      end
  | _ => Py.Fail (Py.TypeError "Can't instantiate abstract class")
  end.

Definition NotificationService__build_notification (self : service_cls)
    (notification_data : ndict) : Py.outcome ndict :=
  if String.eqb (NOTIFICATION_TYPE self) EmptyString
  then Py.Fail (Py.ValidationError "Notification type is required.")
  else
    let notification_data :=
      <[ "notification_type" := NStr (NOTIFICATION_TYPE self) ]> notification_data in
    let notification_data := <[ "send_date" := NTime (now env) ]> notification_data in
    serialize env notification_data.

(** [not lead.phone]. *)
Definition no_phone (lead : Lead) : bool :=
  match phone lead with
  | Some s => String.eqb s EmptyString
  | None => true
  end.

Definition phone_value (lead : Lead) : NVal :=
  match phone lead with
  | Some s => NStr s
  | None => NNone
  end.

(** [data["message"]]. *)
Definition subscript (data : ndict) (key : string) : Py.outcome NVal :=
  match data !! key with
  | Some v => Py.Done v
  | None => Py.Fail (Py.KeyError (Py.repr key))
  end.

(** The [try] block of [send]: the arguments of [messages.create] are
    evaluated first, and the last of them is the name [to], which is bound
    neither in [send], nor in the module, nor among the built-ins. *)
Definition SmsNotification_send_attempt (message : NVal) : Py.outcome string :=
  to ← Py.unbound "to";
  messages_create env message (TWILIO_PHONE_NUMBER env) to.

Definition SmsNotification_send (self : service_cls) (lead : Lead) (data : ndict)
  : Py.outcome NotificationDataClass :=
  if no_phone lead
  then Py.Fail (Py.ValidationError "Invalid phone number format.")
  else
    body ← subscript data "message";
    let status := Sent in
    let message := NStr "SMS sent successfully." in
    let code := HTTP_200_OK in
    let message_sid := NNone in
    let notification : ndict :=
      list_to_map
        [ ("phone_number", phone_value lead);
          ("from_number", NStr (TWILIO_PHONE_NUMBER env));
          ("sender", NStr "Twilio");
          ("lead", NLead lead);
          ("notification_text", body);
          ("status", NStatus status);
          ("message_sid", message_sid) ] in
    let '(status, message, code, notification) :=
      match SmsNotification_send_attempt message with
      | Py.Done sid =>
          (status, NMessage sid, code, <[ "message_sid" := NStr sid ]> notification)
      | Py.Fail e =>
          let status := Failed in
          let message := NStr (Py.str e) in
          let code := HTTP_500_INTERNAL_SERVER_ERROR in
          (status, message, code,
           <[ "error_code" := NInt code ]>
             (<[ "error_message" := message ]>
                (<[ "status" := NStatus status ]> notification)))
      end in
    notification ← NotificationService__build_notification self notification;
    mret (mk_NotificationDataClass (mk_MetaData message code status) notification).

End Service.

(** *** The view [SmsView] *)

Inductive serializer_class : Type :=
| SmsNotificationSerializer
| EmailNotificationSerializer.

(** [path.split("/")[-1]]. *)
Definition last_segment (path : string) : string :=
  List.last (split1 "/"%char path EmptyString) EmptyString.

(** The attribute [_provider] after [__init__]. *)
Definition SmsView___init__ : string := "sms".

(** [setup] (after the framework's own [setup], which stores the request):
    the new value of [_provider]. *)
Definition SmsView_setup (path : string) (_provider : string) : string :=
  if String.eqb (last_segment path) "email" then "email" else _provider.

Definition SmsView_get_provider (env : Services) (_provider : string)
  : Py.outcome service_cls :=
  if String.eqb _provider "email" then instantiate env EmailNotification
  else instantiate env SmsNotification.

Definition SmsView_get_serializer_class (_provider : string) : serializer_class :=
  if String.eqb _provider "email" then EmailNotificationSerializer
  else SmsNotificationSerializer.

Record Response : Type := mk_Response {
  response_message : NVal;
  response_notification : ndict;
  response_status : Z
}.

Record ListResponse : Type := mk_ListResponse {
  list_data : list ndict;
  list_status : Z
}.

(** What the view takes from the framework for one request:
    [get_object] (the lead of the URL, or a failure), the validation of the
    request data by the serializer class chosen, and the rendering of a
    notification by [NotificationSerializer]. *)
Record Request : Type := mk_Request {
  request_path : string;
  get_object : Py.outcome Lead;
  validated_data : serializer_class → Py.outcome ndict;
  render : ndict → ndict
}.

Section View.
Context (env : Services).

(** [provider.send(lead, data)], by the class of the provider.  The body of
    the abstract [send] is [pass]: it returns [None]. *)
Definition call_send (provider : service_cls) (lead : Lead) (data : ndict)
  : Py.outcome (option NotificationDataClass) :=
  match service_lookup "send" (service_mro provider) with
  | Some ConcreteMethod =>
      r ← SmsNotification_send env provider lead data; mret (Some r)
  | _ => mret None
  end.

(** [data.notification] and [data.meta_data] on what [send] returned. *)
Definition data_class (data : option NotificationDataClass)
  : Py.outcome NotificationDataClass :=
  match data with
  | Some d => Py.Done d
  | None => Py.Fail (Py.AttributeError "'NoneType' object has no attribute 'notification'")
  end.

(** [post], on the notifications saved so far: the notifications saved
    afterwards and the response.  A request is served by a view of its own:
    [__init__], then [setup], then [post]. *)
Definition SmsView_post (request : Request) (saved : list ndict)
  : Py.outcome (list ndict * Response) :=
  let _provider := SmsView_setup (request_path request) SmsView___init__ in
  lead ← get_object request;
  validated ← validated_data request (SmsView_get_serializer_class _provider);
  provider ← SmsView_get_provider env _provider;
  data ← call_send provider lead validated;
  data ← data_class data;
  let notification := notification data in
  let saved := (saved ++ [notification])%list in
  let rendered := render request notification in
  let metadata := meta_data data in
  mret (saved, mk_Response (meta_message metadata) rendered (meta_code metadata)).

(** [get]: the names [Notification] and [status] are bound neither in the
    module (which imports [Notifications] and [Response], not these) nor
    among the built-ins. *)
Definition SmsView_get (request : Request) : Py.outcome ListResponse :=
  let _provider := SmsView_setup (request_path request) SmsView___init__ in
  lead ← get_object request;
  Notification ← Py.unbound (A := Lead → string → list ndict) "Notification";
  let notifications := Notification lead _provider in
  let data := render request <$> notifications in
  status ← Py.unbound (A := Z) "status";
  mret (mk_ListResponse data status).

End View.

(** The services with another messaging client. *)
Definition with_client (create : NVal → string → NVal → Py.outcome string)
    (env : Services) : Services :=
  mk_Services (TWILIO_PHONE_NUMBER env) (now env) (Twilio env) create (serialize env).

End Notifications.

(** *** The completion callbacks of [tasks.py] *)

Module Tasks.

Inductive RunStatus : Type := SUCCESS | FAILED.

Record ScheduleRunHistory (Schedule : Type) : Type := mk_ScheduleRunHistory {
  schedule : Schedule;
  breaches_count : nat;
  status : RunStatus;
  fail_reason : option string
}.
Arguments mk_ScheduleRunHistory {Schedule}.
Arguments schedule {Schedule}.
Arguments breaches_count {Schedule}.
Arguments status {Schedule}.
Arguments fail_reason {Schedule}.

(** Truth value of a Python value. *)
Definition truth (v : PyVal) : bool :=
  match v with
  | VNone => false
  | VBool b => b
  | VInt z => negb (z =? 0)
  | VStr s => negb (String.eqb s EmptyString)
  | VList l | VTuple l => match l with [] => false | _ => true end
  | VDateTime _ => true
  end.

(** [len(v)]: the number of elements of a list or tuple, the number of
    characters of a string. *)
Definition py_len (v : PyVal) : Py.outcome nat :=
  match v with
  | VStr s => Py.Done (String.length s)
  | VList l | VTuple l => Py.Done (length l)
  | VNone => Py.Fail (Py.TypeError "object of type 'NoneType' has no len()")
  | VBool _ => Py.Fail (Py.TypeError "object of type 'bool' has no len()")
  | VInt _ => Py.Fail (Py.TypeError "object of type 'int' has no len()")
  | VDateTime _ =>
      Py.Fail (Py.TypeError "object of type 'datetime.datetime' has no len()")
  end.

Section Callbacks.
Context {builtins : PyBuiltins}.
Context {Schedule : Type}.
(** [Schedule.objects.get(name=...)]. *)
Context (get_schedule : PyVal → Py.outcome Schedule).

(** The effects of the callbacks: the run-history rows created and the
    lines logged, oldest first.  Creating a row and logging a line are taken
    to succeed. *)
Record world : Type := mk_world {
  history : list (ScheduleRunHistory Schedule);
  log : list string
}.

Definition info (line : string) (w : world) : world :=
  mk_world (history w) (log w ++ [line])%list.

Definition create (r : ScheduleRunHistory Schedule) (w : world) : world :=
  mk_world (history w ++ [r])%list (log w).

Definition handler (kwargs : gmap string PyVal) (w : world) : Py.outcome world :=
  let result := kwargs_get kwargs "result" in
  name ← match kwargs !! "name" with
         | Some v => Py.Done v
         | None => Py.Fail (Py.KeyError (Py.repr "name"))
         end;
  scheduler ← get_schedule name;
  count ← (if truth result then py_len result else Py.Done 0%nat);
  let task_name := py_str (kwargs_get kwargs "task_name") in
  let run_history_data := mk_ScheduleRunHistory scheduler count SUCCESS None in
  let log_message := "Task with name " +:+ task_name +:+ " succeeded." in
  let exception_obj := kwargs_get kwargs "exception" in
  let '(run_history_data, log_message) :=
    if truth exception_obj
    then (mk_ScheduleRunHistory scheduler count FAILED (Some (py_str exception_obj)),
          "Task with name " +:+ task_name +:+ " failed with exception: "
            +:+ py_str exception_obj)
    else (run_history_data, log_message) in
  mret (info log_message (create run_history_data w)).

Definition success_callback_handler (result : PyVal) (kwargs : gmap string PyVal)
    (w : world) : Py.outcome world :=
  let w := info "Success callback handler" w in
  let kwargs := <[ "result" := result ]> kwargs in
  handler kwargs w.

Definition error_callback_handler (request exc traceback : PyVal)
    (kwargs : gmap string PyVal) (w : world) : Py.outcome world :=
  let w := info "Failure callback handler" w in
  let kwargs := <[ "exception" := traceback ]> kwargs in
  handler kwargs w.

End Callbacks.

(** The run recorded and the line logged for a schedule, given the result,
    the exception and the task name read from the keywords. *)
Definition outcome_of_run {builtins : PyBuiltins} {Schedule : Type}
    (scheduler : Schedule) (result exception_obj : PyVal) (task_name : string)
    (w : world (Schedule := Schedule)) : Py.outcome (world (Schedule := Schedule)) :=
  count ← (if truth result then py_len result else Py.Done 0%nat);
  mret (if truth exception_obj
        then info ("Task with name " +:+ task_name +:+ " failed with exception: "
                     +:+ py_str exception_obj)
               (create (mk_ScheduleRunHistory scheduler count FAILED
                          (Some (py_str exception_obj))) w)
        else info ("Task with name " +:+ task_name +:+ " succeeded.")
               (create (mk_ScheduleRunHistory scheduler count SUCCESS None) w)).

End Tasks.

(** *** The periodic task [fetch_data_task] of [tasks.py] *)

Module Beat.

(** **** Dates, as [datetime.date] and [dateutil.relativedelta] compute *)

Record date : Type := mk_date { date_year : Z; date_month : Z; date_day : Z }.

(** [now.date()]. *)
Definition date_of (now : datetime) : date :=
  mk_date (year now) (month now) (day now).

Definition is_leap (y : Z) : bool :=
  (y mod 4 =? 0) && (negb (y mod 100 =? 0) || (y mod 400 =? 0)).

Definition days_in_month (y m : Z) : Z :=
  if m =? 2 then (if is_leap y then 29 else 28)
  else if (m =? 4) || (m =? 6) || (m =? 9) || (m =? 11) then 30
  else 31.

Definition valid_date (d : date) : bool :=
  (1 <=? date_year d) && (date_year d <=? 9999)
  && (1 <=? date_month d) && (date_month d <=? 12)
  && (1 <=? date_day d) && (date_day d <=? days_in_month (date_year d) (date_month d)).

Definition days_before_year (y : Z) : Z :=
  let y := y - 1 in y * 365 + y / 4 - y / 100 + y / 400.

Definition DAYS_BEFORE_MONTH : list Z :=
  [0; 31; 59; 90; 120; 151; 181; 212; 243; 273; 304; 334].

Definition days_before_month (y m : Z) : Z :=
  default 0 (DAYS_BEFORE_MONTH !! Z.to_nat (m - 1))
  + (if (2 <? m) && is_leap y then 1 else 0).

(** [d.toordinal()]: day 1 is 1 January of year 1. *)
Definition toordinal (d : date) : Z :=
  days_before_year (date_year d) + days_before_month (date_year d) (date_month d)
  + date_day d.

(** [d.isoweekday()]: 1 for Monday to 7 for Sunday. *)
Definition isoweekday (d : date) : Z :=
  let r := toordinal d mod 7 in if r =? 0 then 7 else r.

(** The day before. *)
Definition yesterday (d : date) : date :=
  if 1 <? date_day d then mk_date (date_year d) (date_month d) (date_day d - 1)
  else if 1 <? date_month d
       then mk_date (date_year d) (date_month d - 1)
              (days_in_month (date_year d) (date_month d - 1))
       else mk_date (date_year d - 1) 12 31.

(** [d - timedelta(days=n)] for [n] not negative: the date [n] days
    before, an [OverflowError] before day 1. *)
Definition minus_days (d : date) (n : Z) : Py.outcome date :=
  if 0 <? toordinal d - n
  then Py.Done (Nat.iter (Z.to_nat n) yesterday d)
  else Py.Fail (Py.OverflowError "date value out of range").

(** The keywords given to [relativedelta]: one of [days], [weeks],
    [months]. *)
Inductive delta : Type :=
| days (n : Z)
| weeks (n : Z)
| months (n : Z).

(** The [relativedelta] built from these keywords, normalised: months and
    days. *)
Record relativedelta : Type := mk_relativedelta { rd_months : Z; rd_days : Z }.

Definition relativedelta_of (kw : delta) : relativedelta :=
  match kw with
  | days n => mk_relativedelta 0 n
  | weeks n => mk_relativedelta 0 (7 * n)
  | months n => mk_relativedelta n 0
  end.

(** [d - rd], for at most twelve months: the month moves first, the day is
    cut to the length of the month reached ([replace] refuses year 0), then
    the days are taken off. *)
Definition minus_relativedelta (d : date) (rd : relativedelta) : Py.outcome date :=
  let y := date_year d in
  let m := date_month d - rd_months rd in
  let '(y, m) := if 12 <? m then (y + 1, m - 12)
                 else if m <? 1 then (y - 1, m + 12)
                 else (y, m) in
  let day := Z.min (days_in_month y m) (date_day d) in
  if y <? 1 then Py.Fail (Py.ValueError "year 0 is out of range")
  else minus_days (mk_date y m day) (rd_days rd).

(** [(a - b).days]. *)
Definition days_between (a b : date) : Z := toordinal a - toordinal b.

(** **** Times of day and their text *)

Record time : Type := mk_time { time_hour : Z; time_minute : Z; time_second : Z }.

Definition time_of (now : datetime) : time :=
  mk_time (hour now) (minute now) (second now).

Definition valid_time (t : time) : bool :=
  (0 <=? time_hour t) && (time_hour t <? 24)
  && (0 <=? time_minute t) && (time_minute t <? 60)
  && (0 <=? time_second t) && (time_second t <? 60).

Definition digit (n : Z) : ascii := ascii_of_nat (48 + Z.to_nat n).

Definition two_digits (n : Z) : string :=
  String (digit (n / 10)) (String (digit (n mod 10)) EmptyString).

(** [t.strftime("%H:%M:%S")]. *)
Definition strftime_HMS (t : time) : string :=
  two_digits (time_hour t) +:+ ":" +:+ two_digits (time_minute t) +:+ ":"
  +:+ two_digits (time_second t).

(** [a > b] on strings: by code points, first difference first. *)
Definition str_gt (a b : string) : bool :=
  match String.compare a b with Gt => true | _ => false end.

(** **** The task *)

Section Task.
(** The values of [Schedule.FrequencyChoices], with their [repr]. *)
Context {K : Type} `{EqDecision K}.
Context (DAILY WEEKLY MONTHLY : K) (repr : K → string).

(** A row of [Schedule] as the task reads it: [start_time] is a time of
    day, [start_day] an integer or [None]. *)
Record Schedule : Type := mk_Schedule {
  name : string;
  start_time : time;
  frequency : K;
  start_day : option Z
}.

Record options : Type := mk_options { o_start_day : Z; o_delta : delta }.

(** A dictionary display: a later entry replaces an earlier one with the
    same key. *)
Fixpoint dict_get {V} (entries : list (K * V)) (key : K) : option V :=
  match entries with
  | [] => None
  | (k, v) :: rest =>
      match dict_get rest key with
      | Some v' => Some v'
      | None => if decide (k = key) then Some v else None
      end
  end.

Definition frequency_map (now : datetime) : list (K * options) :=
  [ (DAILY, mk_options 0 (days 1));
    (WEEKLY, mk_options (isoweekday (date_of now)) (weeks 1));
    (MONTHLY, mk_options (day now) (months 1)) ].

(** One call of [fetch_data.apply_async]: the keywords of the task and the
    keywords bound into the two callbacks. *)
Record Dispatch : Type := mk_Dispatch {
  kw_name : string;
  kw_days_range : Z;
  kw_from_beat : bool;
  link_error : list (string * string);
  link : list (string * string)
}.

(** What the task takes from outside: the clock, the started schedules
    ([Schedule.objects.filter(is_started=True)], read when the loop starts),
    the task queue and the name of the task [fetch_data]. *)
Record Services : Type := mk_Services {
  now : datetime;
  started : Py.outcome (list Schedule);
  apply_async : Dispatch → Py.outcome unit;
  fetch_data_name : string
}.

Inductive log_record : Type :=
| INFO (message : string)
| EXCEPTION (message : string).

(** The effects of the task: the calls of [apply_async] that returned and
    the records logged, oldest first.  Logging is taken to succeed. *)
Record world : Type := mk_world {
  dispatched : list Dispatch;
  log : list log_record
}.

Definition info (message : string) (w : world) : world :=
  mk_world (dispatched w) (log w ++ [INFO message])%list.

Definition exception (message : string) (w : world) : world :=
  mk_world (dispatched w) (log w ++ [EXCEPTION message])%list.

Context (env : Services).

Definition callback_kwargs (scheduler : Schedule) : list (string * string) :=
  [ ("name", name scheduler); ("task_name", fetch_data_name env) ].

(** The body of the inner [try], for one schedule: the outcome and the
    effects so far. *)
Definition try_schedule (now : datetime) (scheduler : Schedule) (w : world)
  : Py.outcome unit * world :=
  let now_date := date_of now in
  let schedule_time := start_time scheduler in
  let scheduler_frequency := frequency scheduler in
  match dict_get (frequency_map now) scheduler_frequency with
  | None => (Py.Fail (Py.KeyError (repr scheduler_frequency)), w)
  | Some options =>
      if negb (bool_decide (Some (o_start_day options) = start_day scheduler))
      then (Py.Done tt,
            info ("Skipping " +:+ name scheduler
                    +:+ " as it is not scheduled for today.") w)
      else
        match minus_relativedelta now_date (relativedelta_of (o_delta options)) with
        | Py.Fail e => (Py.Fail e, w)
        | Py.Done before =>
            let days_range := days_between now_date before in
            if str_gt (strftime_HMS schedule_time) (strftime_HMS (time_of now))
            then (Py.Done tt, w)
            else
              let call := mk_Dispatch (name scheduler) days_range true
                            (callback_kwargs scheduler) (callback_kwargs scheduler) in
              match apply_async env call with
              | Py.Fail e => (Py.Fail e, w)
              | Py.Done _ => (Py.Done tt, mk_world (dispatched w ++ [call])%list (log w))
              end
        end
  end.

(** [except Exception as e]: log and raise again. *)
Definition log_and_raise (r : Py.outcome unit * world) : Py.outcome unit * world :=
  match r with
  | (Py.Fail e, w) =>
      (Py.Fail e, exception ("An error occurred while fetching data: " +:+ Py.str e) w)
  | _ => r
  end.

Fixpoint for_each (now : datetime) (schedulers : list Schedule) (w : world)
  : Py.outcome unit * world :=
  match schedulers with
  | [] => (Py.Done tt, w)
  | scheduler :: rest =>
      match log_and_raise (try_schedule now scheduler w) with
      | (Py.Done _, w') => for_each now rest w'
      | failed => failed
      end
  end.

Definition fetch_data_task (w : world) : Py.outcome unit * world :=
  let w := info "Starting scrapping task" w in
  log_and_raise
    (let now := now env in
     match started env with
     | Py.Fail e => (Py.Fail e, w)
     | Py.Done schedulers => for_each now schedulers w
     end).

End Task.

End Beat.

(** * Properties *)

(** ** Vocabulary *)

(** The rows an outcome selects: a raised exception selects nothing and is
    kept as it is. *)
Definition narrow {builtins : PyBuiltins} (r : result QuerySet) (table : list row)
  : result (list row) :=
  (λ qs, run qs table) <$> r.

(** Membership of a name among the operator handlers of a class. *)
Definition is_handler {builtins : PyBuiltins} (self : cls) (name : string) : bool :=
  match getattr self name with
  | Some (Handler _) => true
  | _ => false
  end.

(** Operator resolution as the specification words it: the first tier asks
    for an operator handler named after the raw operator, the second tier is
    the operator map, anything else is [eq]. *)
Definition spec_map_operator {builtins : PyBuiltins} (self : cls) (operator : string)
  : string :=
  if is_handler self ("_" +:+ operator) then operator
  else default "eq" (OPERATORS_MAP self !! operator).

(** The names [x] for which [_x] is an attribute of the instance that is not
    an operator handler: the instance attribute, the other methods of the
    class family, and what [object] provides. *)
Definition other_names (self : cls) : list string :=
  [ "queryset"; "cast"; "normalize_value"; "map_operator"; "resolve_field_name" ]
  ++ match self with
     | FilterDateField | FilterDateTimeField => [ "cast_field_and_annotate" ]
     | _ => []
     end
  ++ [ "_abstractmethods__"; "_class__"; "_delattr__"; "_dict__"; "_dir__";
       "_doc__"; "_eq__"; "_format__"; "_ge__"; "_getattribute__";
       "_getstate__"; "_gt__"; "_hash__"; "_init__"; "_init_subclass__";
       "_le__"; "_lt__"; "_module__"; "_ne__"; "_new__"; "_reduce__";
       "_reduce_ex__"; "_repr__"; "_setattr__"; "_sizeof__"; "_slots__";
       "_str__"; "_subclasshook__"; "_weakref__"; "abc_impl" ].

(** Every name [getattr] finds on an instance. *)
Definition attr_names {builtins : PyBuiltins} (self : cls) : list string :=
  "_queryset" :: (mro self ≫= λ c, (namespace c).*1) ++ object_attrs.

Definition strip_underscore (s : string) : option string :=
  match s with
  | String "_" s' => Some s'
  | _ => None
  end.

(** The keywords of a predicate. *)
Fixpoint keys_of (q : Q) : list string :=
  match q with
  | QLookup key _ => [key]
  | QOr a b => keys_of a ++ keys_of b
  end.

(** [o] narrows (it is a filter or an exclusion) and every keyword in it
    addresses the field [name]. *)
Definition targets (name : string) (o : QOp) : bool :=
  match o with
  | OpFilter q | OpExclude q =>
      forallb (λ key, String.eqb (parse_key key).1 name) (keys_of q)
  | OpAnnotate _ _ => false
  end.

Definition is_annotation (o : QOp) : bool :=
  match o with OpAnnotate _ _ => true | _ => false end.

(** The annotations a plan carries, in order. *)
Definition annotations (qs : QuerySet) : list QOp :=
  List.filter is_annotation (ops qs).

Definition output_field_of (self : cls) : OutputField :=
  match self with
  | FilterDateTimeField => DateTimeField
  | _ => DateField
  end.

(** The handlers of the character filter that compare text. *)
Definition text_handlers : list string :=
  [ "_eq"; "_not"; "_in"; "_contains"; "_does_not_contain"; "_starts_with";
    "_ends_with" ].

(** The raw operators that reach them ([eq] and the empty operator fall
    back to [_eq]). *)
Definition text_operators : list string :=
  [ EmptyString; "eq"; "not"; "doesNotEqual"; "in"; "isAnyOf"; "contains";
    "doesNotContain"; "startsWith"; "endsWith" ].

(** A stored value matches a text, letter case set aside, when it is a
    string whose lower-case form stands in the relation to the lower-case
    form of the text. *)
Definition ignoring_case {builtins : PyBuiltins} (rel : string → string → bool)
    (text : string) (stored : PyVal) : bool :=
  match stored with
  | VStr s => rel (str_lower text) (str_lower s)
  | _ => false
  end.

(** The relation a raw text operator asks for (the text as a whole, as a
    part, as the beginning, as the end), whether it keeps the rows that
    match or drops them, and whether it is a set membership. *)
Definition text_relation (operator : string) : string → string → bool :=
  if str_in operator ["contains"; "doesNotContain"] then is_infix
  else if String.eqb operator "startsWith" then is_prefix
  else if String.eqb operator "endsWith" then is_suffix
  else String.eqb.

Definition drops_matches (operator : string) : bool :=
  str_in operator ["not"; "doesNotEqual"; "doesNotContain"].

Definition is_membership (operator : string) : bool :=
  str_in operator ["in"; "isAnyOf"].

(** The field is an annotation of the plan and NULL in the row. *)
Definition null_annotation {builtins : PyBuiltins} (ann : list string) (field : string)
    (r : row) : bool :=
  str_in field ann && val_eqb (stored_in r field) VNone.

(** The row with the lower-case form of the field attached as [lower]. *)
Definition with_lower {builtins : PyBuiltins} (field : string) (r : row) : row :=
  <[ "lower" := eval_expr (Lower field) r ]> r.

(** The rows of [base] a raw text operator is to select for one text: those
    whose stored text matches it, letter case set aside, or, for a negated
    operator, those that do not (a row where the field is a NULL annotation
    is dropped either way); a set membership returns the rows with their
    lower-case text attached. *)
Definition text_rows {builtins : PyBuiltins} (operator text field : string)
    (ann : list string) (base : list row) : list row :=
  let hit r := ignoring_case (text_relation operator) text (stored_in r field) in
  if is_membership operator
  then with_lower field <$> filter (λ r, hit r = true) base
  else if drops_matches operator
       then filter (λ r, hit r || null_annotation ann field r = false) base
       else filter (λ r, hit r = true) base.

(** The same for a set of texts: the rows that match one of them. *)
Definition text_rows_among {builtins : PyBuiltins} (texts : list string) (field : string)
    (base : list row) : list row :=
  with_lower field
    <$> filter (λ r, existsb (λ text, ignoring_case String.eqb text (stored_in r field))
                       texts = true) base.

(** The raw operators of the date filters: the keys of their operator map,
    and the two spellings that fall back to [eq]. *)
Definition date_operators : list string :=
  [ EmptyString; "eq"; "not"; "in"; "after"; "onOrAfter"; "before";
    "onOrBefore"; "isEmpty"; "isNotEmpty" ].

(** A schema and a table to run the filters on. *)
Definition people_schema : gmap string Field :=
  list_to_map
    [ ("name", mk_field "name" "CharField");
      ("age", mk_field "age" "IntegerField");
      ("created", mk_field "created" "DateTimeField") ].

Definition people : QuerySet := mk_queryset people_schema [].

Definition people_table : list row :=
  [ {[ "name" := VStr "BOB"; "age" := VInt 20 ]};
    {[ "name" := VStr "alice"; "age" := VInt 40 ]} ].

(** A dispatcher without custom fields whose [query_filter] does nothing. *)
Definition plain_dispatcher : FilterSubclass :=
  mk_FilterSubclass ∅ (λ self _, Ok (_queryset self)).

(** The plan [qs] with the operations [new] appended. *)
Definition extend (new : list QOp) (qs : QuerySet) : QuerySet :=
  {| get_field := get_field qs; ops := ops qs ++ new |}.

(** What one call may append: one or two operations, the last of which
    narrows. *)
Definition one_narrowing (new : list QOp) : bool :=
  match new with
  | [o] => negb (is_annotation o)
  | [_; o] => negb (is_annotation o)
  | _ => false
  end.

(** The keywords [_cast] receives from [query_filter]: the date filters pass
    the format, the others nothing. *)
Definition cast_kwargs (self : cls) (kw : kwargs) : kwargs :=
  match self with
  | FilterDateField | FilterDateTimeField =>
      {[ "format" := default (VStr FilterDateField_FORMAT) (kw !! "format") ]}
  | _ => ∅
  end.

(** The plan the handler starts from, and the field it is given. *)
Definition prepared (self : cls) (qs : QuerySet) (field : string) : QuerySet :=
  match self with
  | FilterDateField | FilterDateTimeField =>
      qs_annotate "df" (DjangoCast field (output_field_of self)) qs
  | _ => qs
  end.

Definition target_field (self : cls) (field : string) : string :=
  match self with
  | FilterDateField | FilterDateTimeField => "df"
  | _ => field
  end.

(** Two outcomes that split the rows [base] by one test: the first keeps
    the rows that pass, the second the rows that fail, and the rows in [lost]
    are in neither.  Two failures split nothing and must be the same
    failure. *)
Definition splits (base : list row) (lost : row → bool) (a b : result (list row))
  : Prop :=
  match a, b with
  | Ok kept, Ok dropped =>
      ∃ test : row → bool,
        kept = filter (λ r, test r = true) base
        ∧ dropped = filter (λ r, test r || lost r = false) base
        ∧ ∀ r, lost r = true → test r = false
  | Raise e1, Raise e2 => e1 = e2
  | _, _ => False
  end.

(** Pairs of raw operators, a positive one and its negation. *)
Definition opposite_operators (self : cls) : list (string * string) :=
  match self with
  | FilterCharField | FilterTextField =>
      [ ("eq", "not"); ("eq", "doesNotEqual"); ("contains", "doesNotContain");
        ("isEmpty", "isNotEmpty") ]
  | FilterIntegerField =>
      [ ("eq", "not"); ("eq", "!="); ("isEmpty", "isNotEmpty") ]
  | FilterDateField | FilterDateTimeField =>
      [ ("eq", "not"); ("isEmpty", "isNotEmpty") ]
  | FilterBooleanField => [ ("eq", "not") ]
  | AbstractFilter => []
  end.

(** What counts as empty for a filter class: a missing value, and for the
    character and text filters also the empty string. *)
Definition is_blank (self : cls) (stored : PyVal) : bool :=
  val_eqb stored VNone
  || match self with
     | FilterCharField | FilterTextField => val_eqb stored (VStr EmptyString)
     | _ => false
     end.

(** [s] without the character [c]. *)
Fixpoint without_char (c : ascii) (s : string) : string :=
  match s with
  | EmptyString => EmptyString
  | String a s' =>
      if Ascii.eqb a c then without_char c s' else String a (without_char c s')
  end.

Fixpoint has_char (c : ascii) (s : string) : bool :=
  match s with
  | EmptyString => false
  | String a s' => Ascii.eqb a c || has_char c s'
  end.

Definition is_done {A} (m : Py.outcome A) : bool :=
  match m with Py.Done _ => true | Py.Fail _ => false end.

(** Services, a request and a schedule table to run the notification code
    and the callbacks on. *)
Definition echo_services : Notifications.Services :=
  Notifications.mk_Services "+15550100" (mk_datetime 2024 3 5 12 0 0 0)
    (Py.Done tt) (λ _ _ _, Py.Done "SM123") (λ d, Py.Done d).

Definition lead_with_phone : Notifications.Lead :=
  Notifications.mk_Lead 7 (Some "+15550111").

Definition sms_request : Notifications.Request :=
  Notifications.mk_Request "/api/leads/7/notifications/sms"
    (Py.Done lead_with_phone)
    (λ _, Py.Done {[ "message" := Notifications.NStr "hello" ]})
    (λ d, d).

Definition email_request : Notifications.Request :=
  Notifications.mk_Request "/api/leads/7/notifications/email"
    (Py.Done lead_with_phone)
    (λ _, Py.Done {[ "message" := Notifications.NStr "hello" ]})
    (λ d, d).

(** A schedule table with one schedule, named [nightly]. *)
Definition one_schedule (name : PyVal) : Py.outcome string :=
  match name with
  | VStr "nightly" => Py.Done "nightly"
  | _ => Py.Fail (Py.DoesNotExist "Schedule matching query does not exist.")
  end.

Definition callback_kwargs : gmap string PyVal :=
  {[ "name" := VStr "nightly"; "task_name" := VStr "fetch_data" ]}.

Definition empty_world : Tasks.world (Schedule := string) := Tasks.mk_world [] [].

(** The length of the month before that of [d]. *)
Definition previous_month_length (d : Beat.date) : Z :=
  if Beat.date_month d =? 1 then 31
  else Beat.days_in_month (Beat.date_year d) (Beat.date_month d - 1).

(** Times of day compared as numbers: hours, then minutes, then seconds. *)
Definition time_compare (a b : Beat.time) : comparison :=
  match Beat.time_hour a ?= Beat.time_hour b with
  | Eq =>
      match Beat.time_minute a ?= Beat.time_minute b with
      | Eq => Beat.time_second a ?= Beat.time_second b
      | c => c
      end
  | c => c
  end.

Definition later (a b : Beat.time) : bool :=
  match time_compare a b with Gt => true | _ => false end.

Section BeatVocabulary.
Import Beat.
Context {K : Type} `{EqDecision K}.
Context (DAILY WEEKLY MONTHLY : K).

(** Whether today is the day of a schedule: day 0 for a daily one, the ISO
    weekday for a weekly one, the day of the month for a monthly one. *)
Definition due_day (now : datetime) (s : Schedule (K := K)) : bool :=
  if decide (frequency s = DAILY) then bool_decide (start_day s = Some 0)
  else if decide (frequency s = WEEKLY)
       then bool_decide (start_day s = Some (isoweekday (date_of now)))
       else bool_decide (start_day s = Some (day now)).

(** A schedule is due on its day once its start time has come. *)
Definition due (now : datetime) (s : Schedule (K := K)) : bool :=
  due_day now s && negb (later (start_time s) (time_of now)).

Definition days_range_for (now : datetime) (s : Schedule (K := K)) : Z :=
  if decide (frequency s = DAILY) then 1
  else if decide (frequency s = WEEKLY) then 7
  else Z.max (day now) (previous_month_length (date_of now)).

Definition call_for (env : Services (K := K)) (s : Schedule (K := K)) : Dispatch :=
  mk_Dispatch (name s) (days_range_for (now env) s) true
    (callback_kwargs env s) (callback_kwargs env s).

Definition skip_record (s : Schedule (K := K)) : log_record :=
  INFO ("Skipping " +:+ name s +:+ " as it is not scheduled for today.").

Definition known (k : K) : bool := bool_decide (k ∈ [DAILY; WEEKLY; MONTHLY]).

End BeatVocabulary.

(** A clock, a schedule table and a queue to run the periodic task on:
    Tuesday 5 March 2024 at noon. *)
Definition nightly : Beat.Schedule (K := string) :=
  Beat.mk_Schedule "nightly" (Beat.mk_time 2 30 0) "daily" (Some 0).

Definition weekly_report : Beat.Schedule (K := string) :=
  Beat.mk_Schedule "weekly-report" (Beat.mk_time 9 0 0) "weekly" (Some 2).

Definition monthly_report : Beat.Schedule (K := string) :=
  Beat.mk_Schedule "monthly-report" (Beat.mk_time 11 59 59) "monthly" (Some 5).

Definition evening : Beat.Schedule (K := string) :=
  Beat.mk_Schedule "evening" (Beat.mk_time 18 0 0) "daily" (Some 0).

Definition sunday : Beat.Schedule (K := string) :=
  Beat.mk_Schedule "sunday" (Beat.mk_time 8 0 0) "weekly" (Some 7).

Definition hourly : Beat.Schedule (K := string) :=
  Beat.mk_Schedule "hourly" (Beat.mk_time 0 0 0) "hourly" (Some 0).

Definition beat_services (schedulers : list (Beat.Schedule (K := string)))
  : Beat.Services (K := string) :=
  Beat.mk_Services (mk_datetime 2024 3 5 12 0 0 0) (Py.Done schedulers)
    (λ _, Py.Done tt) "fetch_data".

Definition quiet : Beat.world := Beat.mk_world [] [].

Section Properties.
Context {builtins : PyBuiltins}.

(** ** Auxiliary facts *)

Lemma run_from_app (ann : list string) (rows : list row) (l1 l2 : list QOp) :
  run_from ann rows (l1 ++ l2)
  = run_from (ann ++ annotated l1) (run_from ann rows l1) l2.
Proof.
  revert ann rows. induction l1 as [|o l1 IH]; intros ann rows.
  - cbn. rewrite app_nil_r. reflexivity.
  - cbn [app run_from]. rewrite IH. unfold annotated. cbn [mbind list_bind].
    rewrite <- app_assoc. reflexivity.
Qed.

Lemma run_push (o : QOp) (qs : QuerySet) (table : list row) :
  run (push o qs) table = step (annotated (ops qs)) (run qs table) o.
Proof. unfold run, push; simpl. rewrite run_from_app. reflexivity. Qed.

Lemma rpartition_app (field after : string) :
  rpartition ("__" +:+ after) = Some (EmptyString, after) →
  rpartition (field +:+ "__" +:+ after) = Some (field, after).
Proof.
  intros Hbase. induction field as [|a field IH].
  - exact Hbase.
  - change (String a field +:+ "__" +:+ after)
      with (String a (field +:+ "__" +:+ after)).
    cbn [rpartition]. rewrite IH. reflexivity.
Qed.

Lemma parse_key_lookup (field name : string) (l : lookup) :
  rpartition ("__" +:+ name) = Some (EmptyString, name) →
  lookup_of_name name = Some l →
  parse_key (field +:+ "__" +:+ name) = (field, l).
Proof.
  intros Hbase Hname. unfold parse_key.
  rewrite (rpartition_app field name Hbase), Hname. reflexivity.
Qed.

Lemma parse_key_in field : parse_key (field +:+ "__in") = (field, LIn).
Proof. apply (parse_key_lookup field "in"); reflexivity. Qed.

Lemma parse_key_iexact field : parse_key (field +:+ "__iexact") = (field, LIExact).
Proof. apply (parse_key_lookup field "iexact"); reflexivity. Qed.

Lemma parse_key_icontains field :
  parse_key (field +:+ "__icontains") = (field, LIContains).
Proof. apply (parse_key_lookup field "icontains"); reflexivity. Qed.

Lemma parse_key_istartswith field :
  parse_key (field +:+ "__istartswith") = (field, LIStartsWith).
Proof. apply (parse_key_lookup field "istartswith"); reflexivity. Qed.

Lemma parse_key_iendswith field :
  parse_key (field +:+ "__iendswith") = (field, LIEndsWith).
Proof. apply (parse_key_lookup field "iendswith"); reflexivity. Qed.

Lemma parse_key_gt field : parse_key (field +:+ "__gt") = (field, LGt).
Proof. apply (parse_key_lookup field "gt"); reflexivity. Qed.

Lemma parse_key_lt field : parse_key (field +:+ "__lt") = (field, LLt).
Proof. apply (parse_key_lookup field "lt"); reflexivity. Qed.

Lemma parse_key_lte field : parse_key (field +:+ "__lte") = (field, LLte).
Proof. apply (parse_key_lookup field "lte"); reflexivity. Qed.

(** The text class adds nothing to the character class: every attribute
    resolves to the same member. *)
Lemma getattr_text (name : string) :
  getattr FilterTextField name = getattr FilterCharField name.
Proof. reflexivity. Qed.


Lemma step_filter_ext (ann : list string) (q1 q2 : Q) (rows : list row) :
  (∀ r, sat q1 r = sat q2 r) →
  (∀ r, undecided ann q1 r = undecided ann q2 r) →
  step ann rows (OpFilter q1) = step ann rows (OpFilter q2)
  ∧ step ann rows (OpExclude q1) = step ann rows (OpExclude q2).
Proof.
  intros Hsat Hund. cbn [step].
  split; apply list_filter_iff; intros r; rewrite Hsat, ?Hund; reflexivity.
Qed.

(** Two predicates that agree on every row narrow alike. *)
Lemma narrow_filter_ext (q1 q2 : Q) (qs : QuerySet) (table : list row) :
  (∀ r, sat q1 r = sat q2 r) →
  narrow (Ok (push (OpFilter q1) qs)) table = narrow (Ok (push (OpFilter q2) qs)) table.
Proof.
  intros Hsat. unfold narrow; cbn [fmap result_fmap]. rewrite !run_push.
  cbn [step]. f_equal. apply list_filter_iff. intros r. rewrite Hsat. reflexivity.
Qed.

Lemma narrow_exclude_ext (q1 q2 : Q) (qs : QuerySet) (table : list row) :
  (∀ r, sat q1 r = sat q2 r) →
  (∀ ann r, undecided ann q1 r = undecided ann q2 r) →
  narrow (Ok (push (OpExclude q1) qs)) table
  = narrow (Ok (push (OpExclude q2) qs)) table.
Proof.
  intros Hsat Hund. unfold narrow; cbn [fmap result_fmap]. rewrite !run_push.
  destruct (step_filter_ext (annotated (ops qs)) q1 q2 (run qs table) Hsat (Hund _))
    as [_ ->]. done.
Qed.

Lemma text_test_same_case (test : string → string → bool) (stored : PyVal)
    (s1 s2 : string) :
  str_lower s1 = str_lower s2 →
  text_test test stored (VStr s1) = text_test test stored (VStr s2).
Proof. intros Hcase. destruct stored; cbn; rewrite ?Hcase; reflexivity. Qed.

Lemma mapM_py_lower (l : list string) :
  mapM py_lower (VStr <$> l) = Ok (VStr <$> (str_lower <$> l)).
Proof.
  induction l as [|s l IH]; [reflexivity|].
  cbn [fmap list_fmap mapM py_lower mbind result_bind] in *. rewrite IH. reflexivity.
Qed.

(** *** Names and attributes *)

Lemma str_in_In (s : string) (l : list string) : str_in s l = true ↔ In s l.
Proof.
  unfold str_in. rewrite existsb_exists. split.
  - intros (x & Hx & Heq). apply String.eqb_eq in Heq. subst. exact Hx.
  - intros Hin. exists s. split; [exact Hin | apply String.eqb_refl].
Qed.

Lemma str_in_app (s : string) (a b : list string) :
  str_in s (a ++ b) = str_in s a || str_in s b.
Proof. apply existsb_app. Qed.

Lemma str_in_same_elements (a b : list string) :
  forallb (λ x, str_in x b) a && forallb (λ x, str_in x a) b = true →
  ∀ s, str_in s a = str_in s b.
Proof.
  intros Hab s. apply andb_true_iff in Hab as [Ha Hb].
  rewrite forallb_forall in Ha. rewrite forallb_forall in Hb.
  apply eq_true_iff_eq. rewrite !str_in_In. split; intros Hin.
  - apply str_in_In, Ha, Hin.
  - apply str_in_In, Hb, Hin.
Qed.

Lemma str_in_cons (s x : string) (l : list string) :
  str_in s (x :: l) = String.eqb s x || str_in s l.
Proof. reflexivity. Qed.

Lemma str_in_strip (s : string) (l : list string) :
  str_in (String "_" s) l = str_in s (omap strip_underscore l).
Proof.
  induction l as [|x l IH]; [reflexivity|].
  rewrite str_in_cons, IH. cbn [omap list_omap].
  destruct x as [|a x]; [reflexivity|].
  cbn [String.eqb].
  destruct (Ascii.eqb_spec "_" a) as [<-|Hne].
  - reflexivity.
  - assert (strip_underscore (String a x) = None) as ->; [|reflexivity].
    destruct a as [[] [] [] [] [] [] [] []]; try reflexivity. congruence.
Qed.

Lemma assoc_None {A} (name : string) (l : list (string * A)) :
  assoc name l = None ↔ str_in name l.*1 = false.
Proof.
  induction l as [|[k v] l IH]; [done|].
  cbn [assoc fmap list_fmap str_in existsb fst].
  destruct (String.eqb name k); [done|exact IH].
Qed.

Lemma lookup_mro_None (name : string) (cs : list cls) :
  lookup_mro name cs = None ↔ str_in name (cs ≫= λ c, (namespace c).*1) = false.
Proof.
  induction cs as [|c cs IH]; [done|].
  cbn [lookup_mro mbind list_bind].
  rewrite str_in_app, orb_false_iff, <- IH, <- assoc_None.
  destruct (assoc name (namespace c)).
  - split; [discriminate | intros [Hc _]; discriminate].
  - split; [intros Hl; split; [reflexivity | exact Hl] | intros [_ Hl]; exact Hl].
Qed.

Lemma hasattr_names (self : cls) (name : string) :
  hasattr self name = str_in name (attr_names self).
Proof.
  unfold hasattr, getattr, attr_names.
  cbn [str_in existsb]. destruct (String.eqb name "_queryset"); [reflexivity|].
  cbn [orb]. fold (str_in name ((mro self ≫= λ c, (namespace c).*1) ++ object_attrs)).
  rewrite str_in_app.
  destruct (lookup_mro name (mro self)) eqn:Hl.
  - destruct (str_in name (mro self ≫= _)) eqn:Hs; [reflexivity|].
    apply lookup_mro_None in Hs. congruence.
  - apply lookup_mro_None in Hl. rewrite Hl. cbn [orb].
    destruct (str_in name object_attrs); reflexivity.
Qed.

Lemma is_handler_names (self : cls) (name : string) :
  is_handler self name = str_in name (filter (λ n, is_handler self n = true) (attr_names self)).
Proof.
  destruct (is_handler self name) eqn:Hh; symmetry.
  - apply str_in_In, list_elem_of_In, list_elem_of_filter. split; [exact Hh|].
    apply list_elem_of_In, str_in_In. rewrite <- hasattr_names.
    unfold is_handler in Hh. unfold hasattr. destruct (getattr self name); done.
  - apply not_true_iff_false. rewrite str_in_In, <- list_elem_of_In, list_elem_of_filter.
    intros [Hn _]. congruence.
Qed.

(** [hasattr(self, "_" + operator)] holds for the operator handlers and for
    the names listed in [other_names], and for nothing else. *)
Lemma hasattr_underscore (self : cls) (operator : string) :
  hasattr self ("_" +:+ operator)
  = is_handler self ("_" +:+ operator) || str_in operator (other_names self).
Proof.
  rewrite hasattr_names, is_handler_names.
  change ("_" +:+ operator) with (String "_" operator).
  rewrite !str_in_strip, <- str_in_app.
  apply str_in_same_elements.
  destruct self; vm_compute; reflexivity.
Qed.

Lemma assoc_In {A} (name : string) (l : list (string * A)) (m : A) :
  assoc name l = Some m → In (name, m) l.
Proof.
  induction l as [|[k v] l IH]; [discriminate|].
  cbn [assoc]. destruct (String.eqb_spec name k) as [->|Hne].
  - intros [= ->]. left. reflexivity.
  - intros Hl. right. apply IH, Hl.
Qed.

Lemma lookup_mro_In (name : string) (cs : list cls) (m : member) :
  lookup_mro name cs = Some m → In (name, m) (cs ≫= namespace).
Proof.
  induction cs as [|c cs IH]; [discriminate|].
  cbn [lookup_mro mbind list_bind]. rewrite in_app_iff.
  destruct (assoc name (namespace c)) eqn:Ha.
  - intros [= ->]. left. apply assoc_In, Ha.
  - intros Hl. right. apply IH, Hl.
Qed.

Lemma getattr_handler_In (self : cls) (name : string) (h : handler) :
  getattr self name = Some (Handler h) → In (name, Handler h) (mro self ≫= namespace).
Proof.
  unfold getattr. destruct (String.eqb name "_queryset"); [discriminate|].
  destruct (lookup_mro name (mro self)) as [m|] eqn:Hl.
  - intros [= ->]. apply lookup_mro_In, Hl.
  - destruct (str_in name object_attrs); discriminate.
Qed.


(** ** Empty checks and the value cast *)

(** What the boolean filter does with an empty check: its operator map is
    the empty one of the base class, so [isEmpty] resolves to [eq] and the
    raw value goes to [_eq], uncast. *)
Lemma boolean_is_empty_falls_back (qs : QuerySet) (field : string)
    (value : PyVal) (kw : kwargs) :
  query_filter FilterBooleanField qs field value "isEmpty" kw
  = call_handler FilterBooleanField "_eq" qs field value kw.
Proof. reflexivity. Qed.

(** C1.  For every class of the filter family and every raw value,
    [query_filter] with the raw operator [isEmpty] or [isNotEmpty] does not
    call the cast: the call is the call of the handler on the raw value
    itself ([_is_empty] or [_is_not_empty]; [_eq] for the boolean filter and
    the base class, whose operator map has no entry for the two operators),
    on the plan the class prepares and the field it resolves.  So the outcome
    is that of the handler, whatever the value: it is never the typed error of
    a cast, and it is the same under any other implementation of the parsers
    the casts rely on.  (What the ORM makes of a raw value it is handed this
    way is the handler's outcome, not a cast's.) *)
Theorem empty_checks_never_cast (self : cls) (qs : QuerySet) (field : string)
    (value : PyVal) (kw : kwargs) :
  let on_raw_value name :=
    call_handler self name (prepared self qs field) (target_field self field) value kw in
  let falls_back :=
    match self with FilterBooleanField | AbstractFilter => true | _ => false end in
  query_filter self qs field value "isEmpty" kw
  = on_raw_value (if falls_back then "_eq" else "_is_empty")
  ∧ query_filter self qs field value "isNotEmpty" kw
    = on_raw_value (if falls_back then "_eq" else "_is_not_empty")
  ∧ (∀ operator detail, In operator ["isEmpty"; "isNotEmpty"] →
       query_filter self qs field value operator kw
       ≠ Raise (UnsupportedFilterType detail))
  ∧ (∀ other : PyBuiltins,
       @query_filter other self qs field value "isEmpty" kw
       = query_filter self qs field value "isEmpty" kw
       ∧ @query_filter other self qs field value "isNotEmpty" kw
         = query_filter self qs field value "isNotEmpty" kw).
Proof.
  cbv zeta. split; [|split; [|split]].
  - destruct self; reflexivity.
  - destruct self; reflexivity.
  - intros operator detail [<- | [<- | []]]; destruct self; discriminate.
  - intros other. split; destruct self; reflexivity.
Qed.

(** ** Operator resolution *)

(** C2, as amended.  For every raw operator string, [_map_operator] returns
    the raw operator itself when the filter object has any attribute named
    after it with a leading underscore: an operator handler, but also the
    instance attribute [_queryset], the methods [_cast], [_normalize_value],
    [_map_operator], [_resolve_field_name] (and [_cast_field_and_annotate] on
    the date classes) and the members inherited from [object].  Otherwise it
    returns the entry of the operator map, and [eq] when there is none.  The
    resolution itself never raises. *)
Theorem map_operator_any_attribute (self : cls) (operator : string) :
  AbstractFilter__map_operator self operator
  = if is_handler self ("_" +:+ operator) || str_in operator (other_names self)
    then operator
    else match OPERATORS_MAP self !! operator with
         | Some normalized => normalized
         | None => "eq"
         end.
Proof.
  unfold AbstractFilter__map_operator. rewrite hasattr_underscore.
  destruct (is_handler _ _ || str_in _ _); [reflexivity|].
  destruct (OPERATORS_MAP self !! operator); reflexivity.
Qed.

(** Where the code and the two-tier rule of the specification agree: on
    every operator outside [other_names]. *)
Lemma map_operator_two_tier (self : cls) (operator : string) :
  str_in operator (other_names self) = false →
  AbstractFilter__map_operator self operator = spec_map_operator self operator.
Proof.
  intros Hother. unfold AbstractFilter__map_operator, spec_map_operator.
  rewrite hasattr_underscore, Hother, orb_false_r. reflexivity.
Qed.

(** ** The ordering operators of the integer filter *)

Lemma integer_ordering_plans (qs : QuerySet) (field : string) (z : Z) (kw : kwargs) :
  query_filter FilterIntegerField qs field (VInt z) ">" kw
  = Ok (qs_filter (field +:+ "__gt") (VInt z) qs)
  ∧ query_filter FilterIntegerField qs field (VInt z) "<" kw
    = Ok (qs_filter (field +:+ "__lt") (VInt z) qs)
  ∧ query_filter FilterIntegerField qs field (VInt z) "<=" kw
    = Ok (qs_filter (field +:+ "__lte") (VInt z) qs).
Proof. repeat split. Qed.

(** The three ordering operators that resolve select the rows whose stored
    integer stands in the relation to the value. *)
Lemma integer_ordering_rows (qs : QuerySet) (field : string) (z : Z) (kw : kwargs)
    (table : list row) :
  narrow (query_filter FilterIntegerField qs field (VInt z) ">" kw) table
  = Ok (filter (λ r, ordered (λ c, match c with Gt => true | _ => false end)
                       (stored_in r field) (VInt z) = true) (run qs table))
  ∧ narrow (query_filter FilterIntegerField qs field (VInt z) "<" kw) table
    = Ok (filter (λ r, ordered (λ c, match c with Lt => true | _ => false end)
                         (stored_in r field) (VInt z) = true) (run qs table))
  ∧ narrow (query_filter FilterIntegerField qs field (VInt z) "<=" kw) table
    = Ok (filter (λ r, ordered (λ c, match c with Gt => false | _ => true end)
                         (stored_in r field) (VInt z) = true) (run qs table)).
Proof.
  destruct (integer_ordering_plans qs field z kw) as (-> & -> & ->).
  unfold narrow, qs_filter; cbn [fmap result_fmap].
  rewrite !run_push. cbn [step sat].
  rewrite parse_key_gt, parse_key_lt, parse_key_lte. repeat split.
Qed.

(** The same spelling resolves in the date filter, whose map names the
    handler without the extra underscore. *)
Lemma date_on_or_after_resolves :
  AbstractFilter__map_operator FilterDateField "onOrAfter" = "is_grater_than_or_equal"
  ∧ is_handler FilterDateField "_is_grater_than_or_equal" = true.
Proof. split; reflexivity. Qed.

(** C3.  In the integer filter the raw operator [>=] does not reach the
    greater-or-equal handler: the operator map sends it to
    [_is_grater_than_or_equal], a name that already carries the underscore
    [query_filter] prepends, so the attribute looked up is
    [__is_grater_than_or_equal], which does not exist.  Every call raises;
    with an integer value it is an [AttributeError]. *)
Theorem integer_gte_raises (qs : QuerySet) (field : string) (kw : kwargs) :
  AbstractFilter__map_operator FilterIntegerField ">=" = "_is_grater_than_or_equal"
  ∧ getattr FilterIntegerField "__is_grater_than_or_equal" = None
  ∧ (∀ z, query_filter FilterIntegerField qs field (VInt z) ">=" kw
          = Raise AttributeError)
  ∧ (∀ value, is_ok (query_filter FilterIntegerField qs field value ">=" kw) = false).
Proof.
  split; [reflexivity|]. split; [reflexivity|]. split; [reflexivity|].
  intros value.
  change (query_filter FilterIntegerField qs field value ">=" kw)
    with (FilterIntegerField__cast value ∅
          ≫= λ _ : PyVal, (Raise AttributeError : result QuerySet)).
  destruct (FilterIntegerField__cast value ∅); reflexivity.
Qed.

(** ** Casting to a boolean *)

(** C4.  [to_bool] returns a native boolean unchanged; for any other value
    it lower-cases the text form of the value and returns [True] when that
    is [true] or [1], [False] when it is [false] or [0], and raises the
    typed error with detail [Value is not boolean] for everything else. *)
Theorem to_bool_spec (v : PyVal) :
  (∀ b, v = VBool b → Cast_to_bool v = Ok (VBool b))
  ∧ (is_bool v = false →
       let text := str_lower (py_str v) in
       (text = "true" ∨ text = "1" → Cast_to_bool v = Ok (VBool true))
       ∧ (text = "false" ∨ text = "0" → Cast_to_bool v = Ok (VBool false))
       ∧ (text ≠ "true" → text ≠ "false" → text ≠ "1" → text ≠ "0" →
            Cast_to_bool v = Raise (UnsupportedFilterType "Value is not boolean"))).
Proof.
  split.
  - intros b ->. reflexivity.
  - intros Hnot text. unfold Cast_to_bool. rewrite Hnot. fold text.
    repeat split.
    + intros [-> | ->]; reflexivity.
    + intros [-> | ->]; reflexivity.
    + intros H1 H2 H3 H4.
      unfold str_in, value_ranges; cbn [existsb].
      apply String.eqb_neq in H1, H2, H3, H4.
      rewrite H1, H2, H3, H4. reflexivity.
Qed.


(** ** Case-insensitive text matching *)

(** Each text handler of the character filter selects the same rows for
    two values that differ only in letter case. *)
Lemma char_handlers_ignore_case (name : string) (s1 s2 : string) (qs : QuerySet)
    (field : string) (kw : kwargs) (table : list row) :
  In name text_handlers →
  str_lower s1 = str_lower s2 →
  narrow (call_handler FilterCharField name qs field (VStr s1) kw) table
  = narrow (call_handler FilterCharField name qs field (VStr s2) kw) table.
Proof.
  intros Hname Hcase.
  assert (∀ l f, parse_key (field +:+ "__" +:+ f) = (field, l) →
            (l = LIExact ∨ l = LIContains ∨ l = LIStartsWith ∨ l = LIEndsWith) →
            ∀ r, sat (QLookup (field +:+ "__" +:+ f) (VStr s1)) r
                 = sat (QLookup (field +:+ "__" +:+ f) (VStr s2)) r) as Hsat.
  { intros l f Hparse Hl r. cbn [sat]. rewrite Hparse.
    destruct Hl as [-> | [-> | [-> | ->]]]; cbn [holds];
      apply text_test_same_case, Hcase. }
  assert (∀ l f, parse_key (field +:+ "__" +:+ f) = (field, l) →
            (l = LIExact ∨ l = LIContains ∨ l = LIStartsWith ∨ l = LIEndsWith) →
            ∀ ann r, undecided ann (QLookup (field +:+ "__" +:+ f) (VStr s1)) r
                     = undecided ann (QLookup (field +:+ "__" +:+ f) (VStr s2)) r) as Hund.
  { intros l f Hparse Hl ann r. cbn [undecided]. rewrite Hparse.
    destruct Hl as [-> | [-> | [-> | ->]]]; reflexivity. }
  cbn in Hname.
  destruct Hname as [<- | [<- | [<- | [<- | [<- | [<- | [<- | []]]]]]]].
  - apply (narrow_filter_ext _ _ qs table), (Hsat _ "iexact" (parse_key_iexact field)); auto.
  - apply (narrow_exclude_ext _ _ qs table);
      [apply (Hsat _ "iexact" (parse_key_iexact field))
      |apply (Hund _ "iexact" (parse_key_iexact field))]; auto.
  - change (call_handler FilterCharField "_in") with FilterCharField__in.
    unfold FilterCharField__in; cbn. rewrite Hcase. reflexivity.
  - apply (narrow_filter_ext _ _ qs table), (Hsat _ "icontains" (parse_key_icontains field)); auto.
  - apply (narrow_exclude_ext _ _ qs table);
      [apply (Hsat _ "icontains" (parse_key_icontains field))
      |apply (Hund _ "icontains" (parse_key_icontains field))]; auto.
  - apply (narrow_filter_ext _ _ qs table), (Hsat _ "istartswith" (parse_key_istartswith field)); auto.
  - apply (narrow_filter_ext _ _ qs table), (Hsat _ "iendswith" (parse_key_iendswith field)); auto.
Qed.

(** Each raw text operator reaches one of the text handlers, with the
    string value unchanged by the cast. *)
Lemma text_operator_handler (operator : string) :
  In operator text_operators →
  ∃ name, In name text_handlers ∧
    ∀ qs field s kw,
      query_filter FilterCharField qs field (VStr s) operator kw
      = call_handler FilterCharField name qs field (VStr s) kw.
Proof.
  intros Hop. cbn in Hop.
  destruct Hop as [<- | [<- | [<- | [<- | [<- | [<- | [<- | [<- | [<- | [<- | []]]]]]]]]]].
  - exists "_eq". split; [cbn; tauto | reflexivity].
  - exists "_eq". split; [cbn; tauto | reflexivity].
  - exists "_not". split; [cbn; tauto | reflexivity].
  - exists "_not". split; [cbn; tauto | reflexivity].
  - exists "_in". split; [cbn; tauto | reflexivity].
  - exists "_in". split; [cbn; tauto | reflexivity].
  - exists "_contains". split; [cbn; tauto | reflexivity].
  - exists "_does_not_contain". split; [cbn; tauto | reflexivity].
  - exists "_starts_with". split; [cbn; tauto | reflexivity].
  - exists "_ends_with". split; [cbn; tauto | reflexivity].
Qed.

(** *** The rows a text operator selects *)

Lemma filter_fmap_bool {A B} (f : A → B) (test : B → bool) (l : list A) :
  filter (λ y, test y = true) (f <$> l) = f <$> filter (λ x, test (f x) = true) l.
Proof.
  induction l as [|x l IH]; [reflexivity|].
  cbn [fmap list_fmap]. rewrite !filter_cons. fold (f <$> l). rewrite IH.
  destruct (decide (test (f x) = true)); reflexivity.
Qed.

(** The four case-blind lookups on a field compare lower-case forms. *)
Lemma sat_text_lookup (field name : string) (l : lookup) (text : string) (r : row) :
  parse_key (field +:+ "__" +:+ name) = (field, l) →
  sat (QLookup (field +:+ "__" +:+ name) (VStr text)) r
  = match l with
    | LIExact => ignoring_case String.eqb text (stored_in r field)
    | LIContains => ignoring_case is_infix text (stored_in r field)
    | LIStartsWith => ignoring_case is_prefix text (stored_in r field)
    | LIEndsWith => ignoring_case is_suffix text (stored_in r field)
    | _ => sat (QLookup (field +:+ "__" +:+ name) (VStr text)) r
    end.
Proof.
  intros Hparse. destruct l; try reflexivity;
    cbn [sat]; rewrite Hparse; cbn [holds];
    unfold text_test, ignoring_case; destruct (stored_in r field); reflexivity.
Qed.

Lemma undecided_text_lookup (ann : list string) (field name : string) (l : lookup)
    (text : string) (r : row) :
  parse_key (field +:+ "__" +:+ name) = (field, l) →
  is_null_test l (VStr text) = false →
  undecided ann (QLookup (field +:+ "__" +:+ name) (VStr text)) r
  = null_annotation ann field r.
Proof.
  intros Hparse Hnull. cbn [undecided]. rewrite Hparse, Hnull.
  unfold null_annotation. rewrite andb_true_r. reflexivity.
Qed.

(** The lower-case annotation of a row, compared with lower-case texts. *)
Lemma sat_lower_in (field : string) (texts : list string) (r : row) :
  sat (QLookup "lower__in" (VList (VStr <$> (str_lower <$> texts)))) (with_lower field r)
  = existsb (λ text, ignoring_case String.eqb text (stored_in r field)) texts.
Proof.
  cbn [sat]. change (parse_key "lower__in") with ("lower", LIn).
  cbn [holds elements_of]. unfold with_lower, stored_in at 1.
  rewrite lookup_insert_eq. cbn [default from_option id eval_expr].
  induction texts as [|text texts IH]; [reflexivity|].
  cbn [fmap list_fmap existsb]. rewrite <- IH. f_equal.
  unfold ignoring_case. destruct (stored_in r field); try reflexivity.
  cbn [val_eqb]. apply String.eqb_sym.
Qed.

Lemma char_cast_strings (texts : list string) (kw : kwargs) :
  FilterCharField__cast (VList (VStr <$> texts)) kw = Ok (VList (VStr <$> texts)).
Proof.
  unfold FilterCharField__cast. cbn [is_list_or_tuple elements_of]. do 2 f_equal.
  induction texts as [|text texts IH]; [reflexivity|].
  cbn [fmap list_fmap] in *. rewrite IH. reflexivity.
Qed.

(** What the set membership of the character filter selects. *)
Lemma char_in_rows (qs : QuerySet) (field : string) (texts : list string)
    (value : PyVal) (kw : kwargs) (table : list row) :
  (if negb (is_list_or_tuple value) then [value] else elements_of value) = VStr <$> texts →
  narrow (FilterCharField__in qs field value kw) table
  = Ok (text_rows_among texts field (run qs table)).
Proof.
  intros Hvalue. unfold FilterCharField__in.
  assert (elements_of (if negb (is_list_or_tuple value) then VTuple [value] else value)
          = VStr <$> texts) as ->.
  { destruct (is_list_or_tuple value); exact Hvalue. }
  rewrite mapM_py_lower. cbn [mbind result_bind].
  unfold narrow, qs_filter, qs_annotate. cbn [fmap result_fmap]. rewrite !run_push.
  cbn [step]. fold (with_lower field). f_equal.
  rewrite (filter_fmap_bool (with_lower field)
             (sat (QLookup "lower__in" (VList (VStr <$> (str_lower <$> texts)))))).
  unfold text_rows_among. f_equal. apply list_filter_iff. intros r.
  rewrite sat_lower_in. reflexivity.
Qed.

(** A raw text operator with one text selects the rows [text_rows]
    describes. *)
Lemma char_operator_rows (operator text : string) (qs : QuerySet) (field : string)
    (kw : kwargs) (table : list row) :
  In operator text_operators →
  narrow (query_filter FilterCharField qs field (VStr text) operator kw) table
  = Ok (text_rows operator text field (annotated (ops qs)) (run qs table)).
Proof.
  intros Hop.
  assert (∀ name l (rel : string → string → bool),
            parse_key (field +:+ "__" +:+ name) = (field, l) →
            (∀ r, sat (QLookup (field +:+ "__" +:+ name) (VStr text)) r
                  = ignoring_case rel text (stored_in r field)) →
            is_null_test l (VStr text) = false →
            narrow (Ok (qs_filter (field +:+ "__" +:+ name) (VStr text) qs)) table
            = Ok (filter (λ r, ignoring_case rel text (stored_in r field) = true)
                    (run qs table))
            ∧ narrow (Ok (qs_exclude (field +:+ "__" +:+ name) (VStr text) qs)) table
              = Ok (filter (λ r, ignoring_case rel text (stored_in r field)
                                 || null_annotation (annotated (ops qs)) field r = false)
                      (run qs table))) as Hrows.
  { intros name l rel Hparse Hsat Hnull.
    unfold narrow, qs_filter, qs_exclude. cbn [fmap result_fmap]. rewrite !run_push.
    cbn [step]. split; f_equal; apply list_filter_iff; intros r;
      rewrite Hsat, ?(undecided_text_lookup _ _ _ _ _ _ Hparse Hnull); reflexivity. }
  destruct (Hrows "iexact" LIExact String.eqb (parse_key_iexact field)
              (λ r, sat_text_lookup field "iexact" LIExact text r (parse_key_iexact field))
              eq_refl) as [Heq Hnot].
  destruct (Hrows "icontains" LIContains is_infix (parse_key_icontains field)
              (λ r, sat_text_lookup field "icontains" LIContains text r
                      (parse_key_icontains field))
              eq_refl) as [Hcontains Hdoes_not].
  destruct (Hrows "istartswith" LIStartsWith is_prefix (parse_key_istartswith field)
              (λ r, sat_text_lookup field "istartswith" LIStartsWith text r
                      (parse_key_istartswith field))
              eq_refl) as [Hstarts _].
  destruct (Hrows "iendswith" LIEndsWith is_suffix (parse_key_iendswith field)
              (λ r, sat_text_lookup field "iendswith" LIEndsWith text r
                      (parse_key_iendswith field))
              eq_refl) as [Hends _].
  pose proof (char_in_rows qs field [text] (VStr text) kw table eq_refl) as Hin.
  cbn in Hop.
  destruct Hop as [<- | [<- | [<- | [<- | [<- | [<- | [<- | [<- | [<- | [<- | []]]]]]]]]]];
    first [ exact Heq | exact Hnot | exact Hcontains | exact Hdoes_not
          | exact Hstarts | exact Hends
          | etrans; [exact Hin|]; unfold text_rows_among, text_rows;
            cbn [is_membership str_in existsb String.eqb Ascii.eqb Bool.eqb orb];
            f_equal; f_equal; apply list_filter_iff; intros r;
            cbn [existsb]; rewrite orb_false_r; reflexivity ].
Qed.

(** C5.  For the character and text filters, the handlers [_eq], [_not],
    [_in], [_contains], [_does_not_contain], [_starts_with] and [_ends_with]
    exist and match without regard to letter case, of the value and of the
    stored text alike.  Through [query_filter], each raw text operator with a
    string selects exactly the rows whose stored text, in lower case, equals
    (contains, starts with, ends with) the value in lower case, and a negated
    operator exactly the other rows; the set membership with a list of
    strings selects the rows whose lower-case text is the lower-case form of
    one of them.  So two strings with the same lower-case form select the
    same rows from every table, both when the handler is called directly and
    when it is reached by its raw operator, and for [_in] two lists of
    strings that agree element by element up to case give the same plan. *)
Theorem text_matching_ignores_case (self : cls) (s1 s2 : string) (qs : QuerySet)
    (field : string) (kw : kwargs) (table : list row) :
  self = FilterCharField ∨ self = FilterTextField →
  str_lower s1 = str_lower s2 →
  (∀ name, In name text_handlers →
     is_handler self name = true
     ∧ narrow (call_handler self name qs field (VStr s1) kw) table
       = narrow (call_handler self name qs field (VStr s2) kw) table)
  ∧ (∀ operator, In operator text_operators →
       narrow (query_filter self qs field (VStr s1) operator kw) table
       = narrow (query_filter self qs field (VStr s2) operator kw) table)
  ∧ (∀ l1 l2 : list string, str_lower <$> l1 = str_lower <$> l2 →
       call_handler self "_in" qs field (VList (VStr <$> l1)) kw
       = call_handler self "_in" qs field (VList (VStr <$> l2)) kw)
  ∧ (∀ operator, In operator text_operators →
       narrow (query_filter self qs field (VStr s1) operator kw) table
       = Ok (text_rows operator s1 field (annotated (ops qs)) (run qs table)))
  ∧ (∀ operator texts, is_membership operator = true →
       narrow (query_filter self qs field (VList (VStr <$> texts)) operator kw) table
       = Ok (text_rows_among texts field (run qs table))).
Proof.
  intros Hself Hcase.
  assert (∀ name qs field v kw,
            call_handler self name qs field v kw
            = call_handler FilterCharField name qs field v kw) as Hcall
    by (destruct Hself as [-> | ->]; reflexivity).
  assert (∀ name, is_handler self name = is_handler FilterCharField name) as Hh
    by (destruct Hself as [-> | ->]; reflexivity).
  assert (∀ qs field v operator kw,
            query_filter self qs field v operator kw
            = query_filter FilterCharField qs field v operator kw) as Hqf
    by (destruct Hself as [-> | ->]; reflexivity).
  split; [|split; [|split; [|split]]].
  - intros name Hname. split.
    + rewrite Hh. cbn in Hname.
      destruct Hname as [<- | [<- | [<- | [<- | [<- | [<- | [<- | []]]]]]]]; reflexivity.
    + rewrite !Hcall. apply char_handlers_ignore_case; assumption.
  - intros operator Hop. rewrite !Hqf.
    destruct (text_operator_handler operator Hop) as (name & Hname & Heq).
    rewrite !Heq. apply char_handlers_ignore_case; assumption.
  - intros l1 l2 Hl. rewrite !Hcall.
    change (call_handler FilterCharField "_in") with FilterCharField__in.
    unfold FilterCharField__in. cbn [is_list_or_tuple negb elements_of].
    rewrite !mapM_py_lower, Hl. reflexivity.
  - intros operator Hop. rewrite Hqf. apply char_operator_rows, Hop.
  - intros operator texts Hop. rewrite Hqf.
    assert (query_filter FilterCharField qs field (VList (VStr <$> texts)) operator kw
            = FilterCharField__in qs field (VList (VStr <$> texts)) kw) as ->.
    { unfold is_membership, str_in in Hop. cbn [existsb] in Hop.
      rewrite orb_false_r in Hop. apply orb_true_iff in Hop as [Hop | Hop];
        apply String.eqb_eq in Hop; subst operator.
      - change (query_filter FilterCharField qs field (VList (VStr <$> texts)) "in" kw)
          with (FilterCharField__cast (VList (VStr <$> texts)) ∅
                ≫= λ v, FilterCharField__in qs field v kw).
        rewrite char_cast_strings. reflexivity.
      - change (query_filter FilterCharField qs field (VList (VStr <$> texts)) "isAnyOf" kw)
          with (FilterCharField__cast (VList (VStr <$> texts)) ∅
                ≫= λ v, FilterCharField__in qs field v kw).
        rewrite char_cast_strings. reflexivity. }
    apply char_in_rows. reflexivity.
Qed.


(** ** Set membership with a scalar *)

(** C6.  For every class of the filter family and every value that is
    neither a list nor a tuple, the [_in] handler exists and narrows the
    collection with the scalar exactly as it does with the one-element list
    (or one-element tuple) holding that value: the same rows are selected
    from every table, or the same exception is raised. *)
Theorem in_scalar_is_singleton (self : cls) (v : PyVal) (qs : QuerySet)
    (field : string) (kw : kwargs) (table : list row) :
  is_list_or_tuple v = false →
  is_handler self "_in" = true
  ∧ narrow (call_handler self "_in" qs field v kw) table
    = narrow (call_handler self "_in" qs field (VList [v]) kw) table
  ∧ narrow (call_handler self "_in" qs field v kw) table
    = narrow (call_handler self "_in" qs field (VTuple [v]) kw) table.
Proof.
  intros Hscalar.
  assert (∀ w, elements_of w = [v] → is_list_or_tuple w = true →
            narrow (AbstractFilter__in qs field v kw) table
            = narrow (AbstractFilter__in qs field w kw) table) as Hbase.
  { intros w Hw Hseq. unfold AbstractFilter__in. rewrite Hscalar, Hseq.
    cbn [negb]. apply narrow_filter_ext. intros r. cbn [sat].
    rewrite parse_key_in. cbn [holds]. rewrite Hw. reflexivity. }
  assert (∀ w, elements_of w = [v] → is_list_or_tuple w = true →
            FilterCharField__in qs field v kw = FilterCharField__in qs field w kw)
    as Hchar.
  { intros w Hw Hseq. unfold FilterCharField__in. rewrite Hscalar, Hseq.
    cbn [negb elements_of]. rewrite Hw. reflexivity. }
  split; [destruct self; reflexivity|].
  split; destruct self;
    first [ apply Hbase; reflexivity
          | apply (f_equal (λ r, narrow r table)), Hchar; reflexivity ].
Qed.

(** ** Unknown fields *)

Lemma filter_loop_app (cfg : FilterSubclass) (qs : QuerySet)
    (before rest : list descriptor) :
  filter_loop cfg qs (before ++ rest)
  = filter_loop cfg qs before ≫= λ qs', filter_loop cfg qs' rest.
Proof.
  revert qs. induction before as [|d before IH]; intros qs; [reflexivity|].
  cbn [app filter_loop].
  destruct (pop (d_field d)) as [field|]; [|reflexivity].
  destruct (pop (d_value d)) as [value|]; [|reflexivity].
  cbn [mbind result_bind].
  destruct (Filter___init__ _ _ _ _ _) as [self|]; [|reflexivity].
  cbn [mbind result_bind].
  destruct (subclass_query_filter _ _ _) as [qs'|]; [|reflexivity].
  apply IH.
Qed.

(** C7.  For every field name that is neither a key of the custom-field
    table nor a field of the schema, constructing the dispatcher raises the
    typed error [Field does not exist] (the schema's [FieldDoesNotExist] is
    caught), whatever the value and the operator are, so before any cast;
    a pipeline whose first descriptor names such a field raises that error
    whatever the dispatcher's [query_filter] does, so without applying any
    filter; and after descriptors that succeeded the pipeline raises the same
    error and returns no collection. *)
Theorem unknown_field_fails_at_dispatch (cfg : FilterSubclass) (qs : QuerySet)
    (field : string) :
  CUSTOM_FIELDS cfg !! field = None →
  get_field qs !! field = None →
  (∀ value operator,
     Filter___init__ cfg qs field value operator
     = Raise (UnsupportedFilterType "Field does not exist"))
  ∧ (∀ any_query_filter value operator options rest,
       Filter_filter_multiple (mk_FilterSubclass (CUSTOM_FIELDS cfg) any_query_filter) qs
         (mk_descriptor (Some field) (Some value) operator options :: rest)
       = Raise (UnsupportedFilterType "Field does not exist"))
  ∧ (∀ before qs' value operator options rest,
       Filter_filter_multiple cfg qs before = Ok qs' →
       get_field qs' !! field = None →
       Filter_filter_multiple cfg qs
         (before ++ mk_descriptor (Some field) (Some value) operator options :: rest)
       = Raise (UnsupportedFilterType "Field does not exist")).
Proof.
  intros Hcustom Hschema.
  assert (∀ cfg' qs' value operator,
            CUSTOM_FIELDS cfg' !! field = None → get_field qs' !! field = None →
            Filter___init__ cfg' qs' field value operator
            = Raise (UnsupportedFilterType "Field does not exist")) as Hinit.
  { intros cfg' qs' value operator Hc Hs.
    unfold Filter___init__, Filter__map_fields, meta_get_field.
    rewrite Hc, Hs. destruct (FILTERS_MAP !! field); reflexivity. }
  split; [|split].
  - intros value operator. apply Hinit; assumption.
  - intros qf value operator options rest.
    unfold Filter_filter_multiple, qs_all. cbn [filter_loop d_field d_value pop mbind result_bind].
    rewrite Hinit by assumption. reflexivity.
  - intros before qs' value operator options rest Hbefore Hschema'.
    unfold Filter_filter_multiple in *. rewrite filter_loop_app, Hbefore.
    cbn [filter_loop d_field d_value pop mbind result_bind].
    rewrite Hinit by assumption. reflexivity.
Qed.

(** ** Date filters compare an annotation *)

(** Every handler a date filter can reach is one of the base class: it adds
    one filter or exclusion on the field it is given and nothing else. *)
Lemma date_handlers_narrow_once (self : cls) (name : string) (h : handler) :
  self = FilterDateField ∨ self = FilterDateTimeField →
  getattr self name = Some (Handler h) →
  ∀ qs value kw, ∃ o, h qs "df" value kw = Ok (push o qs) ∧ targets "df" o = true.
Proof.
  intros Hself Hget qs value kw.
  apply getattr_handler_In in Hget.
  destruct Hself as [-> | ->]; cbn in Hget;
    repeat (destruct Hget as [Heq | Hget]; [try discriminate Heq|]);
    try contradiction;
    injection Heq as _ <-; eexists; (split; [reflexivity|]); reflexivity.
Qed.

(** C8.  For the date and the date-time filter, every call of
    [query_filter] that returns has appended to the plan exactly one
    annotation, named [df] and obtained by casting the stored field to a date
    (date filter) or to a date-time (date-time filter), followed by exactly
    one filter or exclusion whose keywords address [df] and not the stored
    field. *)
Theorem date_filters_compare_annotation (self : cls) (qs : QuerySet)
    (field : string) (value : PyVal) (operator : string) (kw : kwargs)
    (qs' : QuerySet) :
  self = FilterDateField ∨ self = FilterDateTimeField →
  query_filter self qs field value operator kw = Ok qs' →
  ∃ o, ops qs'
       = (ops qs ++ [OpAnnotate "df" (DjangoCast field (output_field_of self)); o])%list
       ∧ targets "df" o = true
       ∧ annotations qs'
         = (annotations qs
            ++ [OpAnnotate "df" (DjangoCast field (output_field_of self))])%list.
Proof.
  intros Hself Hok.
  assert (query_filter self qs field value operator kw
          = (value' ← (if negb (is_empty_check operator)
                       then call_cast self value
                              {[ "format" := default (VStr FilterDateField_FORMAT) (kw !! "format") ]}
                       else Ok value);
             call_handler self ("_" +:+ AbstractFilter__map_operator self operator)
               (qs_annotate "df" (DjangoCast field (output_field_of self)) qs)
               "df" value' kw)) as Hqf
    by (destruct Hself as [-> | ->]; reflexivity).
  rewrite Hqf in Hok. clear Hqf.
  destruct (if negb (is_empty_check operator) then _ else _) as [value'|e];
    [|discriminate].
  cbn [mbind result_bind] in Hok. unfold call_handler in Hok.
  destruct (getattr self _) as [[| |h| | | | | | |]|] eqn:Hget; try discriminate.
  destruct (date_handlers_narrow_once self _ h Hself Hget
              (qs_annotate "df" (DjangoCast field (output_field_of self)) qs) value' kw)
    as (o & Hh & Ho).
  rewrite Hh in Hok. injection Hok as <-.
  exists o. split; [|split].
  - cbn [ops push qs_annotate]. rewrite <- app_assoc. reflexivity.
  - exact Ho.
  - unfold annotations. cbn [ops push qs_annotate].
    rewrite !List.filter_app. cbn [List.filter is_annotation].
    destruct o; try discriminate; cbn [is_annotation]; rewrite app_nil_r; reflexivity.
Qed.

(** With an operator of the date filters, the call succeeds as soon as the
    value casts (and always for the empty checks). *)
Lemma date_query_filter_succeeds (self : cls) (qs : QuerySet) (field : string)
    (value : PyVal) (operator : string) (kw : kwargs) :
  self = FilterDateField ∨ self = FilterDateTimeField →
  In operator date_operators →
  is_empty_check operator = true
  ∨ is_ok (FilterDateField__cast value
             {[ "format" := default (VStr FilterDateField_FORMAT) (kw !! "format") ]}) = true →
  is_ok (query_filter self qs field value operator kw) = true.
Proof.
  intros Hself Hop Hcast. cbn in Hop.
  destruct Hself as [-> | ->];
  destruct Hop as [<- | [<- | [<- | [<- | [<- | [<- | [<- | [<- | [<- | [<- | []]]]]]]]]]];
    try reflexivity;
    (destruct Hcast as [Hc | Hc]; [discriminate Hc|]);
    match goal with
    | |- is_ok (query_filter ?s ?q ?f ?v ?o ?k) = true =>
        change (query_filter s q f v o k)
          with (FilterDateField__cast v
                  {[ "format" := default (VStr FilterDateField_FORMAT) (k !! "format") ]}
                ≫= λ v', call_handler s ("_" +:+ AbstractFilter__map_operator s o)
                           (qs_annotate "df" (DjangoCast f (output_field_of s)) q) "df" v' k)
    end;
    (destruct (FilterDateField__cast _ _); [reflexivity | discriminate Hc]).
Qed.

(** ** Casting to an integer *)

Lemma to_int_rejects_text (s : string) :
  int_of_str s = None →
  Cast_to_int (VStr s) = Raise (UnsupportedFilterType "Value is not a valid integer").
Proof. intros Hs. unfold Cast_to_int, py_int. rewrite Hs. reflexivity. Qed.

Lemma boolean_cast_guards_type :
  FilterBooleanField__cast VNone ∅
  = Raise (UnsupportedFilterType "Value must be a boolean").
Proof. reflexivity. Qed.

(** C9.  [to_int] catches [ValueError] only.  For [None] and for a list,
    [int] raises [TypeError], which escapes untyped from [to_int], from the
    cast of the integer filter (also for a list holding [None]) and from
    [query_filter]. *)
Theorem to_int_type_error_escapes (qs : QuerySet) (field : string) (kw : kwargs) :
  Cast_to_int VNone = Raise TypeError
  ∧ (∀ l, Cast_to_int (VList l) = Raise TypeError)
  ∧ FilterIntegerField__cast VNone ∅ = Raise TypeError
  ∧ FilterIntegerField__cast (VList [VNone]) ∅ = Raise TypeError
  ∧ query_filter FilterIntegerField qs field VNone "eq" kw = Raise TypeError.
Proof. repeat split. Qed.

(** ** The text filter *)

(** C10.  The text filter behaves as the character filter on every input:
    the same cast result, the same resolved operator and the same outcome of
    [query_filter]. *)
Theorem text_filter_is_char_filter (qs : QuerySet) (field : string)
    (value : PyVal) (operator : string) (kw : kwargs) :
  call_cast FilterTextField value kw = call_cast FilterCharField value kw
  ∧ AbstractFilter__map_operator FilterTextField operator
    = AbstractFilter__map_operator FilterCharField operator
  ∧ query_filter FilterTextField qs field value operator kw
    = query_filter FilterCharField qs field value operator kw.
Proof.
  split; [reflexivity|]. split.
  - unfold AbstractFilter__map_operator, hasattr, OPERATORS_MAP.
    rewrite !getattr_text. reflexivity.
  - unfold query_filter. rewrite getattr_text.
    unfold AbstractFilter_query_filter, FilterDateField_query_filter,
      call_cast, call_handler, call_cast_field_and_annotate,
      AbstractFilter__map_operator, AbstractFilter__resolve_field_name,
      hasattr, OPERATORS_MAP, ANNOTATION_NAME, self_attr.
    repeat setoid_rewrite getattr_text. reflexivity.
Qed.

End Properties.


(** * Further properties of the filters *)

Section FilterExtras.
Context {builtins : PyBuiltins}.

(** ** A call only appends to the plan *)

Lemma step_length (ann : list string) (rows : list row) (o : QOp) :
  (length (step ann rows o) ≤ length rows)%nat.
Proof.
  destruct o; cbn [step].
  - apply length_filter.
  - apply length_filter.
  - rewrite length_fmap. reflexivity.
Qed.

Lemma run_from_length (new : list QOp) (ann : list string) (rows : list row) :
  (length (run_from ann rows new) ≤ length rows)%nat.
Proof.
  revert ann rows. induction new as [|o new IH]; intros ann rows; [reflexivity|].
  cbn [run_from]. etrans; [apply IH | apply step_length].
Qed.

Lemma run_extend (new : list QOp) (qs : QuerySet) (table : list row) :
  run (extend new qs) table = run_from (annotated (ops qs)) (run qs table) new.
Proof. unfold run, extend; cbn. apply run_from_app. Qed.

Lemma extend_intro (qs' qs : QuerySet) (new : list QOp) :
  get_field qs' = get_field qs → ops qs' = (ops qs ++ new)%list → qs' = extend new qs.
Proof. destruct qs'; unfold extend; cbn. intros -> ->. reflexivity. Qed.

Ltac extends_by_ops :=
  eexists; split;
  [ apply extend_intro; [reflexivity | cbn; rewrite <- ?app_assoc; reflexivity]
  | reflexivity ].

Lemma handlers_extend (self : cls) (name : string) (h : handler) :
  getattr self name = Some (Handler h) →
  ∀ qs field value kw qs',
    h qs field value kw = Ok qs' →
    ∃ new, qs' = extend new qs ∧ one_narrowing new = true.
Proof.
  intros Hget qs field value kw qs' Hh.
  apply getattr_handler_In in Hget.
  destruct self; cbn in Hget;
    repeat (destruct Hget as [Heq | Hget]; [try discriminate Heq|]);
    try contradiction;
    injection Heq as _ <-;
    try (injection Hh as <-; extends_by_ops).
  all: unfold FilterCharField__in in Hh;
    destruct (mapM py_lower _) as [l|]; [|discriminate];
    injection Hh as <-; extends_by_ops.
Qed.

(** X1.  For every class, value and operator that resolves to an operator
    handler, a call of [query_filter] that returns leaves the schema and the
    operations already in the plan untouched and appends one or two
    operations, the last of which is a filter or an exclusion; so the rows
    selected afterwards are never more than before.  (An operator that
    resolves to another attribute of the filter, such as [_setattr__], does
    not reach a handler, and nothing is said about such a call.) *)
Theorem query_filter_extends_plan (self : cls) (qs : QuerySet) (field : string)
    (value : PyVal) (operator : string) (kw : kwargs) (qs' : QuerySet) :
  is_handler self ("_" +:+ AbstractFilter__map_operator self operator) = true →
  query_filter self qs field value operator kw = Ok qs' →
  get_field qs' = get_field qs
  ∧ (∃ new, ops qs' = (ops qs ++ new)%list
            ∧ (1 ≤ length new ≤ 2)%nat
            ∧ ∃ o, last new = Some o ∧ is_annotation o = false)
  ∧ ∀ table, (length (run qs' table) ≤ length (run qs table))%nat.
Proof.
  intros _ Hok.
  assert (∃ new, qs' = extend new qs ∧ one_narrowing new = true) as (new & -> & Hnew).
  { assert (self = FilterDateField ∨ self = FilterDateTimeField
            ∨ query_filter self qs field value operator kw
              = AbstractFilter_query_filter self qs field value operator kw)
      as [Hdate | [Hdate | Hbase]]
      by (destruct self; auto).
    1, 2: assert (query_filter self qs field value operator kw
          = (value' ← (if negb (is_empty_check operator)
                       then call_cast self value
                              {[ "format" := default (VStr FilterDateField_FORMAT)
                                               (kw !! "format") ]}
                       else Ok value);
             call_handler self ("_" +:+ AbstractFilter__map_operator self operator)
               (qs_annotate "df" (DjangoCast field (output_field_of self)) qs)
               "df" value' kw)) as Hqf by (subst self; reflexivity);
      rewrite Hqf in Hok; clear Hqf;
      (destruct (if negb (is_empty_check operator) then _ else _) as [value'|];
        [|discriminate]);
      cbn [mbind result_bind] in Hok; unfold call_handler in Hok;
      (destruct (getattr self _) as [[| |h| | | | | | |]|] eqn:Hget; try discriminate);
      (destruct (date_handlers_narrow_once self _ h ltac:(auto) Hget
                  (qs_annotate "df" (DjangoCast field (output_field_of self)) qs)
                  value' kw) as (o & Hh & Ho));
      rewrite Hh in Hok; injection Hok as <-;
      exists [OpAnnotate "df" (DjangoCast field (output_field_of self)); o];
      (split; [apply extend_intro; [reflexivity | cbn; rewrite <- ?app_assoc; reflexivity]|]);
      destruct o; try discriminate Ho; reflexivity.
    rewrite Hbase in Hok. unfold AbstractFilter_query_filter in Hok.
    destruct (if negb (is_empty_check operator) then _ else _) as [value'|];
      [|discriminate].
    cbn [mbind result_bind] in Hok. unfold call_handler in Hok.
    destruct (getattr self _) as [[| |h| | | | | | |]|] eqn:Hget; try discriminate.
    exact (handlers_extend self _ h Hget _ _ _ _ _ Hok). }
  split; [reflexivity|]. split.
  - exists new. split; [reflexivity|].
    destruct new as [|o1 [|o2 [|]]]; try discriminate; cbn in *.
    + split; [lia|]. exists o1. split; [reflexivity|]. destruct (is_annotation o1); done.
    + split; [lia|]. exists o2. split; [reflexivity|]. destruct (is_annotation o2); done.
  - intros table. rewrite run_extend. apply run_from_length.
Qed.

(** ** The stages of a call *)

(** [query_filter] in stages, for every class: cast (unless the operator is
    an empty check), resolve the operator, call the handler on the prepared
    plan. *)
Lemma query_filter_stages (self : cls) (qs : QuerySet) (field : string)
    (value : PyVal) (operator : string) (kw : kwargs) :
  query_filter self qs field value operator kw
  = (if negb (is_empty_check operator)
     then call_cast self value (cast_kwargs self kw)
     else Ok value)
    ≫= λ value', call_handler self ("_" +:+ AbstractFilter__map_operator self operator)
                   (prepared self qs field) (target_field self field) value' kw.
Proof. destruct self; reflexivity. Qed.

(** ** An operator and its negation *)

Lemma splits_stage (base : list row) (lost : row → bool) (c : result PyVal)
    (h1 h2 : PyVal → result QuerySet) (table : list row) :
  (∀ v, c = Ok v →
        ∃ qa qb, h1 v = Ok qa ∧ h2 v = Ok qb
                 ∧ splits base lost (Ok (run qa table)) (Ok (run qb table))) →
  splits base lost (narrow (c ≫= h1) table) (narrow (c ≫= h2) table).
Proof.
  intros Hh. destruct c as [v|e]; [|reflexivity].
  cbn [mbind result_bind]. destruct (Hh v eq_refl) as (qa & qb & -> & -> & Hc). exact Hc.
Qed.

(** A condition and its negation split the rows, those where the condition
    has no answer apart. *)
Lemma splits_filter_exclude (q : Q) (lost : row → bool) (qs : QuerySet)
    (table : list row) :
  (∀ r, undecided (annotated (ops qs)) q r = lost r) →
  (∀ r, lost r = true → sat q r = false) →
  splits (run qs table) lost
    (Ok (run (push (OpFilter q) qs) table))
    (Ok (run (push (OpExclude q) qs) table)).
Proof.
  intros Hund Hlost. exists (sat q). rewrite !run_push. cbn [step].
  split; [reflexivity|]. split; [|exact Hlost].
  apply list_filter_iff. intros r. rewrite Hund. reflexivity.
Qed.

Lemma val_eqb_None (v : PyVal) : val_eqb v VNone = true → v = VNone.
Proof. destruct v; cbn; congruence. Qed.

(** A comparison of a field with a value that is not [None], by a lookup
    that is no test for NULL. *)
Lemma splits_lookup (key target : string) (l : lookup) (v : PyVal) (qs : QuerySet)
    (table : list row) :
  parse_key key = (target, l) →
  is_null_test l v = false →
  holds l VNone v = false →
  splits (run qs table) (null_annotation (annotated (ops qs)) target)
    (Ok (run (push (OpFilter (QLookup key v)) qs) table))
    (Ok (run (push (OpExclude (QLookup key v)) qs) table)).
Proof.
  intros Hparse Hnull Hholds. apply splits_filter_exclude.
  - intros r. cbn [undecided]. rewrite Hparse, Hnull.
    unfold null_annotation. rewrite andb_true_r. reflexivity.
  - intros r Hlost. unfold null_annotation in Hlost.
    apply andb_true_iff in Hlost as [_ Hstored]. apply val_eqb_None in Hstored.
    cbn [sat]. rewrite Hparse, Hstored. exact Hholds.
Qed.

Lemma parse_key_isnull field : parse_key (field +:+ "__isnull") = (field, LIsNull).
Proof. apply (parse_key_lookup field "isnull"); reflexivity. Qed.

Lemma parse_key_exact field : parse_key (field +:+ "__exact") = (field, LExact).
Proof. apply (parse_key_lookup field "exact"); reflexivity. Qed.

Lemma sat_isnull (field : string) (r : row) :
  sat (QLookup (field +:+ "__isnull") (VBool true)) r = val_eqb (stored_in r field) VNone.
Proof.
  cbn [sat]. rewrite parse_key_isnull. cbn [holds val_eqb Bool.eqb].
  destruct (val_eqb (stored_in r field) VNone); reflexivity.
Qed.

Lemma sat_exact (field : string) (v : PyVal) (r : row) :
  sat (QLookup (field +:+ "__exact") v) r = val_eqb (stored_in r field) v.
Proof. cbn [sat]. rewrite parse_key_exact. reflexivity. Qed.

Lemma sat_or (a b : Q) (r : row) : sat (QOr a b) r = sat a r || sat b r.
Proof. reflexivity. Qed.

Lemma undecided_isnull (ann : list string) (field : string) (v : PyVal) (r : row) :
  undecided ann (QLookup (field +:+ "__isnull") v) r = false.
Proof.
  cbn [undecided]. rewrite parse_key_isnull. cbn [is_null_test negb].
  apply andb_false_r.
Qed.

Lemma undecided_exact (ann : list string) (field : string) (v : PyVal) (r : row) :
  val_eqb (stored_in r field) VNone = false →
  undecided ann (QLookup (field +:+ "__exact") v) r = false.
Proof.
  intros Hstored. cbn [undecided]. rewrite parse_key_exact, Hstored.
  rewrite andb_false_r. reflexivity.
Qed.

(** The test for NULL has an answer on every row. *)
Lemma splits_isnull (field : string) (qs : QuerySet) (table : list row) :
  splits (run qs table) (λ _, false)
    (Ok (run (push (OpFilter (QLookup (field +:+ "__isnull") (VBool true))) qs) table))
    (Ok (run (push (OpExclude (QLookup (field +:+ "__isnull") (VBool true))) qs) table)).
Proof.
  apply splits_filter_exclude; [|discriminate].
  intros r. apply undecided_isnull.
Qed.

(** The empty check of the character filter and its negation, which
    excludes twice. *)
Lemma splits_either (field : string) (qs : QuerySet) (table : list row) :
  let null := QLookup (field +:+ "__isnull") (VBool true) in
  let blank := QLookup (field +:+ "__exact") (VStr EmptyString) in
  splits (run qs table) (λ _, false)
    (Ok (run (push (OpFilter (QOr null blank)) qs) table))
    (Ok (run (push (OpExclude blank) (push (OpExclude null) qs)) table)).
Proof.
  intros null blank. exists (sat (QOr null blank)). rewrite !run_push. cbn [step].
  split; [reflexivity|]. split; [|discriminate].
  rewrite list_filter_filter. apply list_filter_iff. intros r.
  subst null blank. rewrite sat_or, sat_isnull, sat_exact, undecided_isnull.
  rewrite !orb_false_r.
  destruct (val_eqb (stored_in r field) VNone) eqn:Hnull.
  - cbn. intuition congruence.
  - rewrite (undecided_exact _ _ _ _ Hnull). cbn. rewrite orb_false_r. intuition congruence.
Qed.

(** The casts of the concrete classes never return [None]. *)
Lemma cast_not_none (self : cls) (value : PyVal) (kw : kwargs) (v : PyVal) :
  self ≠ AbstractFilter →
  call_cast self value kw = Ok v →
  val_eqb v VNone = false
  ∧ holds LExact VNone v = false.
Proof.
  intros Hself Hcast.
  assert (v ≠ VNone) as Hv.
  { intros ->. unfold call_cast in Hcast.
    destruct self; try congruence; cbn in Hcast;
      repeat match type of Hcast with
             | (if ?b then _ else _) = _ => destruct b; try discriminate Hcast
             end.
    - unfold FilterBooleanField__cast, Cast_to_bool in Hcast.
      repeat match type of Hcast with
             | (if ?b then _ else _) = _ => destruct b eqn:?; try discriminate Hcast
             end.
      destruct value; discriminate.
    - unfold FilterCharField__cast in Hcast.
      destruct (is_list_or_tuple value); discriminate.
    - unfold FilterDateField__cast in Hcast.
      destruct (is_list_or_tuple value).
      + destruct (mapM _ _); discriminate.
      + unfold Cast_to_date_time in Hcast.
        destruct (py_strptime _ _) as [d|e]; cbn in Hcast; [discriminate|].
        destruct (exn_eqb e ValueError); discriminate.
    - unfold FilterDateField__cast in Hcast.
      destruct (is_list_or_tuple value).
      + destruct (mapM _ _); discriminate.
      + unfold Cast_to_date_time in Hcast.
        destruct (py_strptime _ _) as [d|e]; cbn in Hcast; [discriminate|].
        destruct (exn_eqb e ValueError); discriminate.
    - unfold FilterIntegerField__cast in Hcast.
      destruct (is_list_or_tuple value).
      + destruct (mapM _ _); discriminate.
      + unfold Cast_to_int in Hcast.
        destruct (py_int _) as [z|e]; cbn in Hcast; [discriminate|].
        destruct (exn_eqb e ValueError); discriminate.
    - unfold FilterCharField__cast in Hcast.
      destruct (is_list_or_tuple value); discriminate. }
  destruct v; try congruence; split; reflexivity.
Qed.

(** X2.  For each pair of a raw operator and its negation ([eq] and [not],
    [contains] and [doesNotContain], [isEmpty] and [isNotEmpty], and their
    aliases) and a plain field name, the two calls of [query_filter] on the
    same field and value either raise the same exception or split the rows
    the handler starts from by one test: the positive operator keeps the rows
    that pass and the negative one the rows that fail.  The split is complete
    for a column of the model and for the empty checks; where the compared
    name is an annotation (as [df] always is for the date filters), a row in
    which it is NULL is in neither result of a comparison. *)
Theorem negated_operators_complement (self : cls) (positive negative : string)
    (qs : QuerySet) (field : string) (value : PyVal) (kw : kwargs)
    (table : list row) :
  In (positive, negative) (opposite_operators self) →
  parse_key field = (field, LExact) →
  let plan := prepared self qs field in
  splits (run plan table)
    (λ r, negb (is_empty_check positive)
          && null_annotation (annotated (ops plan)) (target_field self field) r)
    (narrow (query_filter self qs field value positive kw) table)
    (narrow (query_filter self qs field value negative kw) table).
Proof.
  intros Hin Hfield plan. subst plan. rewrite !query_filter_stages.
  assert (self ≠ AbstractFilter) as Hself by (intros ->; destruct Hin).
  assert (parse_key (target_field self field) = (target_field self field, LExact))
    as Htarget by (destruct self; first [exact Hfield | reflexivity]).
  destruct self; cbn in Hin;
    repeat (destruct Hin as [[= <- <-] | Hin]);
    try contradiction;
    cbn [is_empty_check str_in existsb String.eqb Ascii.eqb Bool.eqb orb negb andb];
    apply splits_stage; intros v Hv;
    try (apply cast_not_none in Hv as [Hnone Hholds]; [|exact Hself]);
    eexists _, _; (split; [reflexivity|]); (split; [reflexivity|]);
    first [ apply splits_isnull
          | apply splits_either
          | apply (splits_lookup _ _ LExact); [exact Htarget | exact Hnone | exact Hholds]
          | apply (splits_lookup _ _ LIExact);
            [apply parse_key_iexact | reflexivity | reflexivity]
          | apply (splits_lookup _ _ LIContains);
            [apply parse_key_icontains | reflexivity | reflexivity] ].
Qed.

(** ** Filters that do not annotate commute *)

(** Handlers of the classes that never annotate: the operation appended
    does not depend on the plan. *)
Lemma base_handlers_uniform (self : cls) (name : string) (h : handler) :
  self = FilterIntegerField ∨ self = FilterBooleanField →
  getattr self name = Some (Handler h) →
  ∀ field value kw, ∃ o, is_annotation o = false ∧ ∀ qs, h qs field value kw = Ok (push o qs).
Proof.
  intros Hself Hget field value kw.
  apply getattr_handler_In in Hget.
  destruct Hself as [-> | ->]; cbn in Hget;
    repeat (destruct Hget as [Heq | Hget]; [try discriminate Heq|]);
    try contradiction;
    injection Heq as _ <-; eexists; (split; [|intros qs; reflexivity]); reflexivity.
Qed.

Lemma query_filter_uniform (self : cls) (field : string) (value : PyVal)
    (operator : string) (kw : kwargs) :
  self = FilterIntegerField ∨ self = FilterBooleanField →
  (∃ o, is_annotation o = false
        ∧ ∀ qs, query_filter self qs field value operator kw = Ok (push o qs))
  ∨ (∃ e, ∀ qs, query_filter self qs field value operator kw = Raise e).
Proof.
  intros Hself.
  assert (∀ qs, prepared self qs field = qs) as Hprep
    by (destruct Hself as [-> | ->]; reflexivity).
  destruct (if negb (is_empty_check operator)
            then call_cast self value (cast_kwargs self kw) else Ok value)
    as [value'|e] eqn:Hcast.
  - destruct (getattr self ("_" +:+ AbstractFilter__map_operator self operator))
      as [m|] eqn:Hget.
    + destruct m as [| |h| | | | | | |];
        try (right; eexists; intros qs;
             rewrite query_filter_stages, Hcast; cbn [mbind result_bind];
             unfold call_handler; rewrite Hget; reflexivity).
      destruct (base_handlers_uniform self _ h Hself Hget
                  (target_field self field) value' kw) as (o & Ho & Hh).
      left. exists o. split; [exact Ho|]. intros qs.
      rewrite query_filter_stages, Hcast; cbn [mbind result_bind].
      unfold call_handler. rewrite Hget, Hprep. apply Hh.
    + right. eexists. intros qs.
      rewrite query_filter_stages, Hcast; cbn [mbind result_bind].
      unfold call_handler. rewrite Hget. reflexivity.
  - right. exists e. intros qs. rewrite query_filter_stages, Hcast. reflexivity.
Qed.

Lemma narrowing_steps_commute (ann : list string) (o1 o2 : QOp) (rows : list row) :
  is_annotation o1 = false → is_annotation o2 = false →
  step ann (step ann rows o1) o2 = step ann (step ann rows o2) o1.
Proof.
  intros H1 H2. destruct o1, o2; try discriminate; cbn [step];
    rewrite !list_filter_filter; apply list_filter_iff; intros r; tauto.
Qed.

(** A filter or an exclusion annotates nothing. *)
Lemma annotated_push (o : QOp) (qs : QuerySet) :
  is_annotation o = false → annotated (ops (push o qs)) = annotated (ops qs).
Proof.
  intros Ho. unfold push, annotated. cbn [ops]. rewrite bind_app.
  destruct o; try discriminate; cbn; apply app_nil_r.
Qed.

(** X3.  For the integer and the boolean filter, two calls of
    [query_filter] applied one after the other succeed or fail together in
    either order, and when they succeed both orders select the same rows from
    every table. *)
Theorem plain_filters_commute (self : cls) (qs : QuerySet)
    (field1 : string) (value1 : PyVal) (operator1 : string) (kw1 : kwargs)
    (field2 : string) (value2 : PyVal) (operator2 : string) (kw2 : kwargs) :
  self = FilterIntegerField ∨ self = FilterBooleanField →
  let one_then_two :=
    query_filter self qs field1 value1 operator1 kw1
    ≫= λ qs', query_filter self qs' field2 value2 operator2 kw2 in
  let two_then_one :=
    query_filter self qs field2 value2 operator2 kw2
    ≫= λ qs', query_filter self qs' field1 value1 operator1 kw1 in
  is_ok one_then_two = is_ok two_then_one
  ∧ ∀ qa qb table,
      one_then_two = Ok qa → two_then_one = Ok qb → run qa table = run qb table.
Proof.
  intros Hself one_then_two two_then_one. subst one_then_two two_then_one.
  destruct (query_filter_uniform self field1 value1 operator1 kw1 Hself)
    as [(o1 & Ho1 & H1) | (e1 & H1)];
  destruct (query_filter_uniform self field2 value2 operator2 kw2 Hself)
    as [(o2 & Ho2 & H2) | (e2 & H2)];
    rewrite (H1 qs), (H2 qs); cbn [mbind result_bind]; rewrite ?H1, ?H2;
    (split; [reflexivity|]); intros qa qb table; try discriminate.
  intros [= <-] [= <-]. rewrite !run_push, !annotated_push by assumption.
  apply narrowing_steps_commute; assumption.
Qed.

(** ** The boolean filter *)

(** X4.  The boolean filter has no operator map: every raw operator that is
    not the name of an attribute resolves to [eq], so [isEmpty],
    [isNotEmpty] and every alias of another filter go to the handler [_eq],
    with the raw value for the two empty checks and with the cast value
    otherwise.  What [_eq] then does with the value (the ORM refuses a raw
    value it cannot read as a boolean) is the same as for a direct call of
    [_eq]. *)
Theorem boolean_filter_has_no_aliases (qs : QuerySet) (field : string)
    (value : PyVal) (operator : string) (kw : kwargs) :
  hasattr FilterBooleanField ("_" +:+ operator) = false →
  AbstractFilter__map_operator FilterBooleanField operator = "eq"
  ∧ getattr FilterBooleanField "_eq" = Some (Handler AbstractFilter__eq)
  ∧ query_filter FilterBooleanField qs field value operator kw
    = (if is_empty_check operator then Ok value
       else FilterBooleanField__cast value ∅)
      ≫= λ value', call_handler FilterBooleanField "_eq" qs field value' kw.
Proof.
  intros Hattr.
  assert (AbstractFilter__map_operator FilterBooleanField operator = "eq") as Hmap.
  { unfold AbstractFilter__map_operator. rewrite Hattr. reflexivity. }
  split; [exact Hmap|]. split; [reflexivity|].
  rewrite query_filter_stages, Hmap.
  destruct (is_empty_check operator); reflexivity.
Qed.

(** X5.  The cast of the boolean filter returns a boolean or raises the
    typed error, never anything else: [Value must be a boolean] for a value
    that is no bool, int or str, [Value is not boolean] for one that is but
    has no boolean text.  So with a list or a tuple every operator but the
    empty checks raises the typed error, [in] included. *)
Theorem boolean_cast_outcomes (value : PyVal) (kw : kwargs) :
  ((∃ b, FilterBooleanField__cast value kw = Ok (VBool b))
   ∨ (is_bool_int_str value = false
      ∧ FilterBooleanField__cast value kw
        = Raise (UnsupportedFilterType "Value must be a boolean"))
   ∨ (is_bool_int_str value = true
      ∧ FilterBooleanField__cast value kw
        = Raise (UnsupportedFilterType "Value is not boolean")))
  ∧ (∀ qs field operator kw',
       is_empty_check operator = false →
       is_list_or_tuple value = true →
       query_filter FilterBooleanField qs field value operator kw'
       = Raise (UnsupportedFilterType "Value must be a boolean")).
Proof.
  split.
  - unfold FilterBooleanField__cast.
    destruct (is_bool_int_str value) eqn:Hk; cbn [negb].
    + unfold Cast_to_bool. destruct value; try discriminate; cbn [is_bool].
      * left. eauto.
      * destruct (negb _); [right; right; split; reflexivity | left; eauto].
      * destruct (negb _); [right; right; split; reflexivity | left; eauto].
    + right. left. split; reflexivity.
  - intros qs field operator kw' Hop Hseq.
    change (query_filter FilterBooleanField qs field value operator kw')
      with ((if negb (is_empty_check operator)
             then FilterBooleanField__cast value ∅ else Ok value)
            ≫= λ v, call_handler FilterBooleanField
                      ("_" +:+ AbstractFilter__map_operator FilterBooleanField operator)
                      qs field v kw').
    rewrite Hop. cbn [negb]. destruct value; try discriminate; reflexivity.
Qed.

(** ** The other casts *)

(** X6.  The cast of the character filter never fails and is idempotent: a
    scalar becomes its text, a list or tuple becomes the list of the texts of
    its elements, of the same length, and casting the result again returns
    it unchanged. *)
Theorem char_cast_total_idempotent (value : PyVal) (kw : kwargs) :
  ∃ text, FilterCharField__cast value kw = Ok text
    ∧ FilterCharField__cast text kw = Ok text
    ∧ (if is_list_or_tuple value
       then ∃ l, text = VList (VStr <$> l) ∧ length l = length (elements_of value)
       else text = VStr (py_str value)).
Proof.
  unfold FilterCharField__cast.
  destruct (is_list_or_tuple value) eqn:Hseq.
  - eexists. split; [reflexivity|]. split.
    + cbn [is_list_or_tuple elements_of]. rewrite <- list_fmap_compose.
      reflexivity.
    + exists (py_str <$> elements_of value). split.
      * rewrite <- list_fmap_compose. reflexivity.
      * rewrite length_fmap. reflexivity.
  - eexists. split; [reflexivity|]. split; reflexivity.
Qed.

Lemma mapM_is_ok {A B} (f : A → result B) (l : list A) :
  is_ok (mapM f l) = forallb (λ x, is_ok (f x)) l.
Proof.
  induction l as [|x l IH]; [reflexivity|].
  cbn [mapM forallb]. destruct (f x); cbn [mbind result_bind is_ok andb]; [|reflexivity].
  rewrite <- IH. destruct (mapM f l); reflexivity.
Qed.

Lemma mapM_first_failure {A B} (f : A → result B) (before : list A) (x : A)
    (after : list A) (e : exn) :
  forallb (λ y, is_ok (f y)) before = true →
  f x = Raise e →
  mapM f (before ++ x :: after) = Raise e.
Proof.
  intros Hbefore Hx. induction before as [|y before IH].
  - cbn [app mapM]. rewrite Hx. reflexivity.
  - cbn [forallb] in Hbefore. apply andb_true_iff in Hbefore as [Hy Hbefore].
    cbn [app mapM]. destruct (f y); [|discriminate].
    cbn [mbind result_bind]. rewrite (IH Hbefore). reflexivity.
Qed.

Lemma mapM_length {A B} (f : A → result B) (l : list A) (l' : list B) :
  mapM f l = Ok l' → length l' = length l.
Proof.
  revert l'. induction l as [|x l IH]; intros l'.
  - intros [= <-]. reflexivity.
  - cbn [mapM]. destruct (f x); [|discriminate]. cbn [mbind result_bind].
    destruct (mapM f l) as [ys|]; [|discriminate]. intros [= <-].
    cbn [length]. rewrite (IH ys eq_refl). reflexivity.
Qed.

Lemma to_int_again (v v' : PyVal) :
  Cast_to_int v = Ok v' → (∃ z, v' = VInt z) ∧ Cast_to_int v' = Ok v'.
Proof.
  unfold Cast_to_int. destruct (py_int v) as [z|e]; cbn.
  - intros [= <-]. split; [eauto | reflexivity].
  - destruct (exn_eqb e ValueError); discriminate.
Qed.

Lemma mapM_to_int_again (l l' : list PyVal) :
  mapM Cast_to_int l = Ok l' →
  (∃ zs, l' = VInt <$> zs) ∧ mapM Cast_to_int l' = Ok l'.
Proof.
  revert l'. induction l as [|v l IH]; intros l'.
  - intros [= <-]. split; [exists []; reflexivity | reflexivity].
  - cbn [mapM]. destruct (Cast_to_int v) as [w|] eqn:Hv; [|discriminate].
    cbn [mbind result_bind].
    destruct (mapM Cast_to_int l) as [ws|]; [|discriminate]. intros [= <-].
    destruct (to_int_again v w Hv) as [[z ->] Hw].
    destruct (IH ws eq_refl) as [[zs ->] Hws].
    split; [exists (z :: zs); reflexivity|].
    cbn [mapM]. rewrite Hw. cbn [mbind result_bind]. rewrite Hws. reflexivity.
Qed.

(** X7.  The cast of the integer filter is idempotent where it succeeds: the
    result is an integer for a scalar, and for a list or tuple a list of
    integers of the same length, and casting the result again returns it
    unchanged. *)
Theorem integer_cast_idempotent (value value' : PyVal) (kw : kwargs) :
  FilterIntegerField__cast value kw = Ok value' →
  FilterIntegerField__cast value' kw = Ok value'
  ∧ (if is_list_or_tuple value
     then ∃ zs, value' = VList (VInt <$> zs) ∧ length zs = length (elements_of value)
     else ∃ z, value' = VInt z).
Proof.
  unfold FilterIntegerField__cast.
  destruct (is_list_or_tuple value) eqn:Hseq.
  - destruct (mapM Cast_to_int (elements_of value)) as [l'|] eqn:Hm; [|discriminate].
    intros [= <-]. destruct (mapM_to_int_again _ _ Hm) as [[zs ->] Hagain].
    cbn [is_list_or_tuple elements_of]. rewrite Hagain. split; [reflexivity|].
    exists zs. split; [reflexivity|].
    apply mapM_length in Hm. rewrite length_fmap in Hm. exact Hm.
  - intros Hv. destruct (to_int_again _ _ Hv) as [[z ->] Hagain].
    split; [exact Hagain | eauto].
Qed.

(** X8.  On a sequence the integer and the date cast treat a tuple as a
    list, succeed exactly when every element casts, and otherwise raise the
    exception of the first element that does not. *)
Theorem sequence_casts_all_or_nothing (l : list PyVal) (kw : kwargs) :
  (FilterIntegerField__cast (VTuple l) kw = FilterIntegerField__cast (VList l) kw
   ∧ is_ok (FilterIntegerField__cast (VList l) kw)
     = forallb (λ v, is_ok (Cast_to_int v)) l
   ∧ ∀ before v after e,
       l = (before ++ v :: after)%list →
       forallb (λ x, is_ok (Cast_to_int x)) before = true →
       Cast_to_int v = Raise e →
       FilterIntegerField__cast (VList l) kw = Raise e)
  ∧ (FilterDateField__cast (VTuple l) kw = FilterDateField__cast (VList l) kw
     ∧ is_ok (FilterDateField__cast (VList l) kw)
       = forallb (λ v, is_ok (Cast_to_date_time v (kwargs_get kw "format"))) l
     ∧ ∀ before v after e,
         l = (before ++ v :: after)%list →
         forallb (λ x, is_ok (Cast_to_date_time x (kwargs_get kw "format"))) before = true →
         Cast_to_date_time v (kwargs_get kw "format") = Raise e →
         FilterDateField__cast (VList l) kw = Raise e).
Proof.
  split; (split; [reflexivity|]); split.
  - unfold FilterIntegerField__cast; cbn [is_list_or_tuple elements_of].
    rewrite <- mapM_is_ok. destruct (mapM Cast_to_int l); reflexivity.
  - intros before v after e -> Hbefore Hv.
    unfold FilterIntegerField__cast; cbn [is_list_or_tuple elements_of].
    rewrite (mapM_first_failure _ _ _ _ _ Hbefore Hv). reflexivity.
  - unfold FilterDateField__cast; cbn [is_list_or_tuple elements_of].
    rewrite <- mapM_is_ok. destruct (mapM _ l); reflexivity.
  - intros before v after e -> Hbefore Hv.
    unfold FilterDateField__cast; cbn [is_list_or_tuple elements_of].
    rewrite (mapM_first_failure _ _ _ _ _ Hbefore Hv). reflexivity.
Qed.

(** ** Date values and the format option *)

Lemma date_call_cast (self : cls) (value : PyVal) (kw : kwargs) :
  self = FilterDateField ∨ self = FilterDateTimeField →
  call_cast self value (cast_kwargs self kw)
  = FilterDateField__cast value
      {[ "format" := default (VStr "%Y-%m-%dT%H:%M:%S.%fZ") (kw !! "format") ]}
  ∧ (∀ qs field, prepared self qs field
       = qs_annotate "df" (DjangoCast field (output_field_of self)) qs)
  ∧ ∀ field, target_field self field = "df".
Proof. intros [-> | ->]; repeat split. Qed.

Lemma date_cast_text (text : string) (format : PyVal) :
  FilterDateField__cast (VStr text) {[ "format" := format ]}
  = Cast_to_date_time (VStr text) format.
Proof.
  unfold FilterDateField__cast, kwargs_get. cbn [is_list_or_tuple].
  rewrite lookup_singleton_eq. reflexivity.
Qed.

(** X9.  For a string value and an operator that is no empty check, the
    date filters parse the value with the [format] option when the caller
    gives one and with the default format otherwise.  A parsed value goes to
    the handler on the annotated plan; a text the format does not match
    raises the typed error; a format whose regular expression does not
    compile (one that repeats a directive, which only the caller's option can
    do) lets [re.error] escape, because [to_date_time] catches [ValueError]
    only; and a [format] option that is not a string raises [TypeError]. *)
Theorem date_format_option (self : cls) (qs : QuerySet) (field : string)
    (text : string) (operator : string) (kw : kwargs) :
  self = FilterDateField ∨ self = FilterDateTimeField →
  is_empty_check operator = false →
  let handle d :=
    call_handler self ("_" +:+ AbstractFilter__map_operator self operator)
      (qs_annotate "df" (DjangoCast field (output_field_of self)) qs) "df"
      (VDateTime d) kw in
  let typed := Raise (UnsupportedFilterType
                        "Value is not a valid date or has not appropriate format.") in
  let parse_with format :=
    match strptime text format with
    | Parsed d => handle d
    | Mismatch => typed
    | PatternError => Raise ReError
    end in
  query_filter self qs field (VStr text) operator kw
  = match kw !! "format" with
    | None => parse_with "%Y-%m-%dT%H:%M:%S.%fZ"
    | Some (VStr format) => parse_with format
    | Some _ => Raise TypeError
    end.
Proof.
  intros Hself Hop handle typed parse_with. subst parse_with.
  rewrite query_filter_stages, Hop. cbn [negb].
  destruct (date_call_cast self (VStr text) kw Hself) as (-> & -> & ->).
  rewrite date_cast_text.
  unfold Cast_to_date_time, py_strptime.
  destruct (kw !! "format") as [[| | |format| | |]|];
    cbn [default from_option id]; try reflexivity.
  - destruct (strptime text format); reflexivity.
  - destruct (strptime text _); reflexivity.
Qed.

(** X10.  With an operator that is no empty check, a date filter given a
    scalar value that is not a string (such as [None] or a number) raises
    [TypeError] and not the typed error. *)
Theorem date_filter_needs_text (self : cls) (qs : QuerySet) (field : string)
    (value : PyVal) (operator : string) (kw : kwargs) :
  self = FilterDateField ∨ self = FilterDateTimeField →
  is_empty_check operator = false →
  is_list_or_tuple value = false →
  (∀ text, value ≠ VStr text) →
  query_filter self qs field value operator kw = Raise TypeError.
Proof.
  intros Hself Hop Hseq Htext.
  assert (query_filter self qs field value operator kw
          = (if negb (is_empty_check operator)
             then FilterDateField__cast value
                    {[ "format" := default (VStr FilterDateField_FORMAT) (kw !! "format") ]}
             else Ok value)
            ≫= λ value', call_handler self
                           ("_" +:+ AbstractFilter__map_operator self operator)
                           (qs_annotate "df" (DjangoCast field (output_field_of self)) qs)
                           "df" value' kw) as ->
    by (destruct Hself as [-> | ->]; reflexivity).
  rewrite Hop. cbn [negb]. unfold FilterDateField__cast. rewrite Hseq.
  destruct value; try reflexivity. destruct (Htext s eq_refl).
Qed.

(** ** Rows selected *)

Lemma mapM_to_int_ints (zs : list Z) :
  mapM Cast_to_int (VInt <$> zs) = Ok (VInt <$> zs).
Proof.
  induction zs as [|z zs IH]; [reflexivity|].
  cbn [fmap list_fmap mapM] in *. cbn [Cast_to_int py_int fmap result_fmap try_except mbind result_bind].
  rewrite IH. reflexivity.
Qed.

(** X11.  For the integer filter, [in] and [isAnyOf] with a list of integers
    select exactly the rows whose stored value equals one of them. *)
Theorem integer_in_set_rows (qs : QuerySet) (field : string) (zs : list Z)
    (operator : string) (kw : kwargs) (table : list row) :
  operator = "in" ∨ operator = "isAnyOf" →
  narrow (query_filter FilterIntegerField qs field (VList (VInt <$> zs)) operator kw) table
  = Ok (filter (λ r, existsb (λ z, val_eqb (stored_in r field) (VInt z)) zs = true)
          (run qs table)).
Proof.
  intros Hop.
  assert (query_filter FilterIntegerField qs field (VList (VInt <$> zs)) operator kw
          = Ok (qs_filter (field +:+ "__in") (VList (VInt <$> zs)) qs)) as ->.
  { rewrite query_filter_stages.
    change (call_cast FilterIntegerField (VList (VInt <$> zs))
              (cast_kwargs FilterIntegerField kw))
      with (VList <$> mapM Cast_to_int (VInt <$> zs)).
    rewrite mapM_to_int_ints. destruct Hop as [-> | ->]; reflexivity. }
  unfold narrow, qs_filter. cbn [fmap result_fmap]. rewrite run_push. cbn [step].
  f_equal. apply list_filter_iff. intros r. cbn [sat].
  rewrite parse_key_in. cbn [holds elements_of].
  assert (existsb (val_eqb (stored_in r field)) (VInt <$> zs)
          = existsb (λ z, val_eqb (stored_in r field) (VInt z)) zs) as ->; [|reflexivity].
  induction zs as [|z zs IH]; [reflexivity|].
  cbn [fmap list_fmap existsb] in *. rewrite IH. reflexivity.
Qed.

Lemma empty_check_plans (self : cls) (qs : QuerySet) (field : string)
    (value : PyVal) (kw : kwargs) :
  self = FilterCharField ∨ self = FilterTextField ∨ self = FilterIntegerField →
  let null := QLookup (field +:+ "__isnull") (VBool true) in
  let blank := QLookup (field +:+ "__exact") (VStr EmptyString) in
  query_filter self qs field value "isEmpty" kw
  = Ok (push (OpFilter (match self with
                        | FilterIntegerField => null
                        | _ => QOr null blank
                        end)) qs)
  ∧ query_filter self qs field value "isNotEmpty" kw
    = Ok (match self with
          | FilterIntegerField => push (OpExclude null) qs
          | _ => push (OpExclude blank) (push (OpExclude null) qs)
          end).
Proof. intros [-> | [-> | ->]]; split; reflexivity. Qed.

(** X12.  For the character, text and integer filters the empty checks
    ignore the value: [isEmpty] selects the rows whose stored field is
    missing (for character and text also those where it is the empty
    string), and [isNotEmpty] selects all the others. *)
Theorem empty_check_rows (self : cls) (qs : QuerySet) (field : string)
    (value : PyVal) (kw : kwargs) (table : list row) :
  self = FilterCharField ∨ self = FilterTextField ∨ self = FilterIntegerField →
  narrow (query_filter self qs field value "isEmpty" kw) table
  = Ok (filter (λ r, is_blank self (stored_in r field) = true) (run qs table))
  ∧ narrow (query_filter self qs field value "isNotEmpty" kw) table
    = Ok (filter (λ r, is_blank self (stored_in r field) = false) (run qs table)).
Proof.
  intros Hself.
  destruct (empty_check_plans self qs field value kw Hself) as [-> ->].
  unfold narrow; cbn [fmap result_fmap].
  destruct Hself as [-> | [-> | ->]]; rewrite !run_push; cbn [step];
    split; f_equal; rewrite ?list_filter_filter; apply list_filter_iff; intros r;
    rewrite ?sat_or, ?sat_isnull, ?sat_exact, ?undecided_isnull; unfold is_blank;
    destruct (val_eqb (stored_in r field) VNone) eqn:Hnull;
    rewrite ?(undecided_exact _ _ _ _ Hnull);
    destruct (val_eqb (stored_in r field) (VStr EmptyString));
    cbn; intuition congruence.
Qed.

End FilterExtras.


(** * Further properties of the dispatcher and the pipeline *)

Section DispatcherExtras.
Context {builtins : PyBuiltins}.

Lemma append_empty_r (s : string) : s +:+ EmptyString = s.
Proof.
  induction s as [|a s IH]; [reflexivity|].
  change (String a s +:+ EmptyString) with (String a (s +:+ EmptyString)).
  rewrite IH. reflexivity.
Qed.

Lemma append_assoc (a b c : string) : (a +:+ b) +:+ c = a +:+ (b +:+ c).
Proof.
  induction a as [|x a IH]; [reflexivity|].
  change ((String x a +:+ b) +:+ c) with (String x ((a +:+ b) +:+ c)).
  rewrite IH. reflexivity.
Qed.

Lemma split1_nonempty (c : ascii) (s cur : string) : split1 c s cur ≠ [].
Proof.
  revert cur. induction s as [|a s IH]; intros cur; cbn; [discriminate|].
  destruct (Ascii.eqb a c); [discriminate | apply IH].
Qed.

(** Splitting at a character and joining with nothing removes exactly that
    character. *)
Lemma split1_squeeze (c : ascii) (s cur : string) :
  String.concat EmptyString (split1 c s cur) = cur +:+ without_char c s.
Proof.
  revert cur. induction s as [|a s IH]; intros cur.
  - cbn [split1 String.concat without_char]. rewrite append_empty_r. reflexivity.
  - cbn [split1 without_char]. destruct (Ascii.eqb a c).
    + cbn [String.concat]. destruct (split1 c s EmptyString) eqn:Hs.
      * destruct (split1_nonempty _ _ _ Hs).
      * rewrite <- Hs, IH. reflexivity.
    + rewrite IH, append_assoc. reflexivity.
Qed.

(** X13.  For a field name that is no key of [FILTERS_MAP], the dispatcher
    resolves the field from the custom-field table when it has a non-empty
    entry for the name (the schema is then not consulted) and from the schema
    otherwise; it keeps the collection, the value and the operator as given;
    and [_field_name] is the lower-cased field name with every underscore
    removed. *)
Theorem dispatcher_resolves_field (cfg : FilterSubclass) (qs : QuerySet)
    (field : string) (value : PyVal) (operator : string) :
  FILTERS_MAP !! field = None →
  (∀ custom_type, CUSTOM_FIELDS cfg !! field = Some custom_type →
     custom_type ≠ EmptyString →
     Filter___init__ cfg qs field value operator
     = Ok (mk_Filter qs value operator field custom_type
             (str_lower (without_char "_" field))))
  ∧ (∀ f, truthy (CUSTOM_FIELDS cfg !! field) = false →
       get_field qs !! field = Some f →
       Filter___init__ cfg qs field value operator
       = Ok (mk_Filter qs value operator (field_name f) (internal_type f)
               (str_lower (without_char "_" field)))).
Proof.
  intros Hmap.
  unfold Filter___init__, Filter__map_fields, Filter__map_type, meta_get_field.
  rewrite Hmap, split1_squeeze.
  change (EmptyString +:+ without_char "_" field) with (without_char "_" field).
  split.
  - intros custom_type Hc Hne. rewrite Hc. cbn [truthy].
    apply String.eqb_neq in Hne. rewrite Hne. reflexivity.
  - intros f Hc Hs. rewrite Hc, Hs. reflexivity.
Qed.

(** X14.  A field whose name is a key of [FILTERS_MAP] (the lower-case name
    of a field type, such as [charfield]) is always rejected with
    [Field does not exist], whatever the custom-field table and the schema
    hold: [_map_fields] replaces the name by the filter class before looking
    it up. *)
Theorem filter_type_names_are_rejected (cfg : FilterSubclass) (qs : QuerySet)
    (field : string) (value : PyVal) (operator : string) :
  In field [ "integerfield"; "datetimefield"; "datefield"; "booleanfield";
             "charfield"; "textfield" ] →
  Filter___init__ cfg qs field value operator
  = Raise (UnsupportedFilterType "Field does not exist").
Proof.
  intros Hin. unfold Filter___init__, Filter__map_fields.
  cbn in Hin.
  destruct Hin as [<- | [<- | [<- | [<- | [<- | [<- | []]]]]]]; reflexivity.
Qed.

(** X15.  A descriptor without the key [field] or without the key [value]
    makes the pipeline raise [KeyError], after the descriptors before it have
    been applied and whatever follows it; the dispatcher is not built, so a
    missing value wins over an unknown field. *)
Theorem pipeline_missing_key (cfg : FilterSubclass) (qs qs' : QuerySet)
    (before : list descriptor) (d : descriptor) (rest : list descriptor) :
  Filter_filter_multiple cfg qs before = Ok qs' →
  d_field d = None ∨ d_value d = None →
  Filter_filter_multiple cfg qs (before ++ d :: rest) = Raise KeyError.
Proof.
  intros Hbefore Hmissing. unfold Filter_filter_multiple in *.
  rewrite filter_loop_app, Hbefore. cbn [mbind result_bind filter_loop].
  destruct Hmissing as [-> | Hv]; [reflexivity|].
  rewrite Hv. destruct (d_field d); reflexivity.
Qed.

(** X16.  The pipeline over two lists of descriptors one after the other is
    the pipeline over the first followed by the pipeline over the second on
    its result: a failure in the first list is the failure of the whole, and
    the whole succeeds only through a collection the first list produced. *)
Theorem pipeline_composes (cfg : FilterSubclass) (qs : QuerySet)
    (first second : list descriptor) :
  Filter_filter_multiple cfg qs (first ++ second)
  = Filter_filter_multiple cfg qs first
    ≫= (λ qs', Filter_filter_multiple cfg qs' second)
  ∧ (∀ e, Filter_filter_multiple cfg qs first = Raise e →
          Filter_filter_multiple cfg qs (first ++ second) = Raise e)
  ∧ (∀ qs', Filter_filter_multiple cfg qs (first ++ second) = Ok qs' →
            ∃ mid, Filter_filter_multiple cfg qs first = Ok mid
                   ∧ Filter_filter_multiple cfg mid second = Ok qs').
Proof.
  unfold Filter_filter_multiple, qs_all. rewrite filter_loop_app.
  split; [reflexivity|]. split.
  - intros e ->. reflexivity.
  - intros qs'. destruct (filter_loop cfg qs first) as [mid|]; [|discriminate].
    intros Hsecond. exists mid. split; [reflexivity | exact Hsecond].
Qed.

(** X17.  The pipeline strips a string value before the dispatcher sees
    it: where stripping twice is stripping once, a descriptor gives the same
    outcome with the value and with the stripped value. *)
Theorem pipeline_strips_text (cfg : FilterSubclass) (qs : QuerySet)
    (field : option string) (text : string) (operator : option string)
    (options : kwargs) (rest : list descriptor) :
  str_strip (str_strip text) = str_strip text →
  Filter_filter_multiple cfg qs (mk_descriptor field (Some (VStr text)) operator options :: rest)
  = Filter_filter_multiple cfg qs
      (mk_descriptor field (Some (VStr (str_strip text))) operator options :: rest).
Proof.
  intros Hidem. unfold Filter_filter_multiple, qs_all.
  cbn [filter_loop d_field d_value d_operator d_options].
  destruct (pop field); [|reflexivity].
  cbn [pop mbind result_bind]. rewrite Hidem. reflexivity.
Qed.
End DispatcherExtras.

(** * Properties of the notification services and the view *)

Section NotificationProperties.
Import Notifications.
Context (env : Services).

Lemma send_attempt_fails (message : NVal) :
  SmsNotification_send_attempt env message = Py.Fail (Py.NameError "to").
Proof. reflexivity. Qed.

(** What a call of [send] that returns has computed. *)
Lemma send_meta (lead : Lead) (data : ndict) (r : NotificationDataClass) :
  SmsNotification_send env SmsNotification lead data = Py.Done r →
  meta_data r = mk_MetaData (NStr "name 'to' is not defined") 500 Failed
  ∧ ∃ d, serialize env d = Py.Done (notification r)
         ∧ d !! "status" = Some (NStatus Failed)
         ∧ d !! "error_code" = Some (NInt 500)
         ∧ d !! "error_message" = Some (NStr "name 'to' is not defined")
         ∧ d !! "message_sid" = Some NNone
         ∧ d !! "notification_text" = data !! "message"
         ∧ d !! "notification_type" = Some (NStr "sms").
Proof.
  unfold SmsNotification_send.
  destruct (no_phone lead); [discriminate|].
  unfold subscript. destruct (data !! "message") as [body|]; [|discriminate].
  cbn [mbind outcome_bind Py.bind]. rewrite send_attempt_fails.
  unfold NotificationService__build_notification.
  change (NOTIFICATION_TYPE SmsNotification) with "sms". cbn [String.eqb Ascii.eqb Bool.eqb].
  match goal with
  | |- context [serialize env ?d] => set (dict := d)
  end.
  destruct (serialize env dict) as [n|] eqn:Hser; [|discriminate].
  intros [= <-]. split; [reflexivity|].
  exists dict. split; [exact Hser|]. repeat split.
Qed.

(** X18.  [SmsNotification.send] never reaches the messaging client: the
    argument [to] of [messages.create] is an unbound name, so the outcome is
    the same with any client; every call that returns reports the status
    [Failed], the code 500 and the message [name 'to' is not defined], and
    hands the serializer a notification with that status, error code and
    error message, no message id, the text of the request and the type
    [sms].  The call does return when the lead has a phone, the data has a
    message and the serializer accepts the notification. *)
Theorem send_never_reaches_client (lead : Lead) (data : ndict) :
  (∀ create, SmsNotification_send (with_client create env) SmsNotification lead data
             = SmsNotification_send env SmsNotification lead data)
  ∧ (∀ r, SmsNotification_send env SmsNotification lead data = Py.Done r →
       meta_data r
       = mk_MetaData (NStr "name 'to' is not defined") 500 Failed
       ∧ ∃ d, serialize env d = Py.Done (notification r)
              ∧ d !! "status" = Some (NStatus Failed)
              ∧ d !! "error_code" = Some (NInt 500)
              ∧ d !! "error_message" = Some (NStr "name 'to' is not defined")
              ∧ d !! "message_sid" = Some NNone
              ∧ d !! "notification_text" = data !! "message"
              ∧ d !! "notification_type" = Some (NStr "sms"))
  ∧ (no_phone lead = false →
     is_Some (data !! "message") →
     (∀ d, is_done (serialize env d) = true) →
     is_done (SmsNotification_send env SmsNotification lead data) = true).
Proof.
  split; [reflexivity|]. split.
  - intros r Hr. exact (send_meta lead data r Hr).
  - intros Hphone [body Hbody] Hser. unfold SmsNotification_send.
    rewrite Hphone. unfold subscript. rewrite Hbody.
    cbn [mbind outcome_bind Py.bind]. rewrite send_attempt_fails.
    unfold NotificationService__build_notification.
    change (NOTIFICATION_TYPE SmsNotification) with "sms". cbn [String.eqb Ascii.eqb Bool.eqb].
    match goal with
    | |- context [serialize env ?d] => specialize (Hser d); destruct (serialize env d)
    end; [reflexivity | discriminate].
Qed.

(** X19.  [send] checks the lead first and the data second: a lead without
    a phone number (missing or empty) raises the validation error
    [Invalid phone number format.] whatever the data holds, and with a phone
    number data without the key [message] raises [KeyError]. *)
Theorem send_checks_phone_then_message (lead : Lead) (data : ndict) :
  (no_phone lead = true →
   SmsNotification_send env SmsNotification lead data
   = Py.Fail (Py.ValidationError "Invalid phone number format."))
  ∧ (no_phone lead = false → data !! "message" = None →
     SmsNotification_send env SmsNotification lead data
     = Py.Fail (Py.KeyError "'message'")).
Proof.
  split.
  - intros Hp. unfold SmsNotification_send. rewrite Hp. reflexivity.
  - intros Hp Hm. unfold SmsNotification_send, subscript. rewrite Hp, Hm. reflexivity.
Qed.

(** X20.  [_build_notification] of the SMS service hands the serializer the
    given notification with [notification_type] set to [sms] and [send_date]
    set to the current time, overwriting what the caller put there and
    leaving every other key alone; for the base service and the email
    service, whose type is empty, it raises the validation error
    [Notification type is required.] *)
Theorem build_notification_stamps (self : service_cls) (given : ndict) :
  match self with
  | SmsNotification =>
      ∃ d, NotificationService__build_notification env self given = serialize env d
           ∧ d !! "notification_type" = Some (NStr "sms")
           ∧ d !! "send_date" = Some (NTime (now env))
           ∧ ∀ key, key ≠ "notification_type" → key ≠ "send_date" →
                    d !! key = given !! key
  | NotificationService | EmailNotification =>
      NotificationService__build_notification env self given
      = Py.Fail (Py.ValidationError "Notification type is required.")
  end.
Proof.
  destruct self; try reflexivity.
  eexists. split; [reflexivity|]. split; [|split].
  - rewrite lookup_insert_ne by done. apply lookup_insert_eq.
  - apply lookup_insert_eq.
  - intros key H1 H2. rewrite !lookup_insert_ne by done. reflexivity.
Qed.

End NotificationProperties.

Section ViewProperties.
Import Notifications.

Lemma last_cons {A} (x : A) (l : list A) (d : A) :
  l ≠ [] → List.last (x :: l) d = List.last l d.
Proof. destruct l; [congruence | reflexivity]. Qed.

Lemma append_String (a : ascii) (s t : string) :
  s +:+ String a t = (s +:+ String a EmptyString) +:+ t.
Proof.
  induction s as [|b s IH]; [reflexivity|].
  change (String b s +:+ String a t) with (String b (s +:+ String a t)).
  rewrite IH. reflexivity.
Qed.

Lemma split1_without (c : ascii) (s cur : string) :
  has_char c s = false → split1 c s cur = [cur +:+ s].
Proof.
  revert cur. induction s as [|a s IH]; intros cur Hs.
  - cbn. rewrite append_empty_r. reflexivity.
  - cbn [has_char] in Hs. apply orb_false_iff in Hs as [Ha Hs].
    cbn [split1]. rewrite Ha, (IH _ Hs), <- append_String. reflexivity.
Qed.

(** The last segment of a path is what follows its last separator. *)
Lemma last_split1_app (c : ascii) (s segment cur : string) :
  has_char c segment = false →
  List.last (split1 c (s +:+ String c segment) cur) EmptyString = segment.
Proof.
  intros Hseg. revert cur. induction s as [|a s IH]; intros cur.
  - change (EmptyString +:+ String c segment) with (String c segment).
    cbn [split1]. rewrite Ascii.eqb_refl.
    rewrite last_cons by apply split1_nonempty.
    rewrite (split1_without _ _ _ Hseg). reflexivity.
  - change (String a s +:+ String c segment) with (String a (s +:+ String c segment)).
    cbn [split1]. destruct (Ascii.eqb a c).
    + rewrite last_cons by apply split1_nonempty. apply IH.
    + apply IH.
Qed.

(** X21.  After [setup] the provider is [email] exactly when the last
    segment of the request path is [email], and [sms] otherwise, and the
    serializer class follows the provider; a path that ends in [/email]
    selects [email], and any path that ends in a slash selects [sms]. *)
Theorem provider_follows_last_segment (path : string) :
  let _provider := SmsView_setup path SmsView___init__ in
  (_provider = "email" ∧ last_segment path = "email"
   ∧ SmsView_get_serializer_class _provider = EmailNotificationSerializer
   ∨ _provider = "sms" ∧ last_segment path ≠ "email"
     ∧ SmsView_get_serializer_class _provider = SmsNotificationSerializer)
  ∧ SmsView_setup (path +:+ "/email") SmsView___init__ = "email"
  ∧ SmsView_setup (path +:+ "/") SmsView___init__ = "sms".
Proof.
  cbv zeta. split; [|split].
  - unfold SmsView_setup, SmsView___init__.
    destruct (String.eqb_spec (last_segment path) "email") as [Heq | Hne].
    + left. repeat split. exact Heq.
    + right. repeat split. exact Hne.
  - unfold SmsView_setup, last_segment.
    rewrite (last_split1_app "/" path "email" EmptyString eq_refl). reflexivity.
  - unfold SmsView_setup, last_segment.
    rewrite (last_split1_app "/" path EmptyString EmptyString eq_refl). reflexivity.
Qed.

Context (env : Services).

(** X22.  On a path whose last segment is [email], [post] never returns a
    response and saves nothing: [EmailNotification] leaves the abstract
    [send] undefined, so once the lead is found and the data is valid the
    provider cannot be instantiated and [post] raises [TypeError]. *)
Theorem email_endpoint_never_answers (request : Request) (saved : list ndict) :
  last_segment (request_path request) = "email" →
  is_done (SmsView_post env request saved) = false
  ∧ (∀ lead data,
       get_object request = Py.Done lead →
       validated_data request EmailNotificationSerializer = Py.Done data →
       SmsView_post env request saved
       = Py.Fail (Py.TypeError "Can't instantiate abstract class")).
Proof.
  intros Hpath.
  assert (SmsView_setup (request_path request) SmsView___init__ = "email") as Hprov.
  { unfold SmsView_setup. rewrite Hpath. reflexivity. }
  unfold SmsView_post. rewrite Hprov.
  change (SmsView_get_serializer_class "email") with EmailNotificationSerializer.
  change (SmsView_get_provider env "email")
    with (Py.Fail (A := service_cls) (Py.TypeError "Can't instantiate abstract class")).
  split.
  - destruct (get_object request); [|reflexivity].
    cbn [mbind outcome_bind Py.bind].
    destruct (validated_data request EmailNotificationSerializer); reflexivity.
  - intros lead data -> ->. reflexivity.
Qed.

(** X23.  On any other path, every response of [post] has the status 500
    and the message [name 'to' is not defined], exactly one notification has
    been saved and it is the one rendered in the response; the outcome does
    not depend on the messaging client. *)
Theorem sms_endpoint_always_reports_failure (request : Request) (saved saved' : list ndict)
    (response : Response) :
  last_segment (request_path request) ≠ "email" →
  SmsView_post env request saved = Py.Done (saved', response) →
  response_status response = 500
  ∧ response_message response = NStr "name 'to' is not defined"
  ∧ (∃ n, saved' = (saved ++ [n])%list
          ∧ response_notification response = render request n)
  ∧ ∀ create, SmsView_post (with_client create env) request saved
              = SmsView_post env request saved.
Proof.
  intros Hpath Hpost.
  assert (SmsView_setup (request_path request) SmsView___init__ = "sms") as Hprov.
  { unfold SmsView_setup. apply String.eqb_neq in Hpath. rewrite Hpath. reflexivity. }
  unfold SmsView_post in *. rewrite Hprov in *.
  change (SmsView_get_serializer_class "sms") with SmsNotificationSerializer in *.
  change (SmsView_get_provider env "sms")
    with (_ ← Twilio env; Py.Done SmsNotification) in *.
  split; [|split; [|split]]; try reflexivity.
  all: destruct (get_object request) as [lead|]; [|discriminate];
    cbn [mbind outcome_bind Py.bind] in Hpost;
    destruct (validated_data request SmsNotificationSerializer) as [data|];
      [|discriminate];
    cbn [mbind outcome_bind Py.bind] in Hpost;
    destruct (Twilio env) as [[]|]; [|discriminate];
    cbn [mbind outcome_bind Py.bind] in Hpost;
    change (call_send env SmsNotification lead data)
      with (r ← SmsNotification_send env SmsNotification lead data; Py.Done (Some r))
      in Hpost;
    destruct (SmsNotification_send env SmsNotification lead data) as [r|] eqn:Hsend;
      [|discriminate];
    destruct (send_meta env lead data r Hsend) as [Hmeta _];
    cbn [mbind outcome_bind Py.bind mret outcome_ret data_class] in Hpost;
    injection Hpost as <- <-; cbn; rewrite ?Hmeta; eauto.
Qed.

(** X24.  [get] never returns a response, on any path: once the lead is
    found it raises [NameError], because the module never binds the name
    [Notification]; before that it fails as [get_object] does. *)
Theorem get_endpoint_never_answers (request : Request) :
  is_done (SmsView_get request) = false
  ∧ (∀ lead, get_object request = Py.Done lead →
       SmsView_get request = Py.Fail (Py.NameError "Notification"))
  ∧ (∀ e, get_object request = Py.Fail e → SmsView_get request = Py.Fail e).
Proof.
  unfold SmsView_get. destruct (get_object request) as [lead|e].
  - split; [reflexivity|]. split; [intros ? _; reflexivity | discriminate].
  - split; [reflexivity|]. split; [discriminate | intros ? [= <-]; reflexivity].
Qed.

End ViewProperties.

(** * Properties of the completion callbacks *)

Section TaskProperties.
Import Tasks.
Context {builtins : PyBuiltins}.
Context {Schedule : Type}.
Context (get_schedule : PyVal → Py.outcome Schedule).

(** X25.  A call of [handler] that returns has found the schedule named by
    the keyword [name], created exactly one run-history row for it and logged
    exactly one line; the row is [FAILED] with the text of the exception as
    reason exactly when the keyword [exception] is true, and its breach count
    is the length of the keyword [result] when that is true, and 0
    otherwise. *)
Theorem handler_records_one_run (kwargs : gmap string PyVal)
    (w w' : world (Schedule := Schedule)) :
  handler get_schedule kwargs w = Py.Done w' →
  ∃ name scheduler record line,
    kwargs !! "name" = Some name
    ∧ get_schedule name = Py.Done scheduler
    ∧ history w' = (history w ++ [record])%list
    ∧ log w' = (log w ++ [line])%list
    ∧ schedule record = scheduler
    ∧ (status record = FAILED ↔ truth (kwargs_get kwargs "exception") = true)
    ∧ (fail_reason record
       = if truth (kwargs_get kwargs "exception")
         then Some (py_str (kwargs_get kwargs "exception")) else None)
    ∧ (if truth (kwargs_get kwargs "result")
       then py_len (kwargs_get kwargs "result") = Py.Done (breaches_count record)
       else breaches_count record = 0%nat).
Proof.
  unfold handler.
  destruct (kwargs !! "name") as [name|]; [|discriminate].
  cbn [mbind outcome_bind Py.bind].
  destruct (get_schedule name) as [scheduler|] eqn:Hs; [|discriminate].
  cbn [mbind outcome_bind Py.bind].
  destruct (truth (kwargs_get kwargs "result")) eqn:Hr.
  - destruct (py_len (kwargs_get kwargs "result")) as [n|]; [|discriminate].
    cbn [mbind outcome_bind Py.bind].
    destruct (truth (kwargs_get kwargs "exception")); intros [= <-];
      eexists name, scheduler, _, _; cbn; repeat split; try reflexivity;
      try discriminate; exact Hs.
  - cbn [mbind outcome_bind Py.bind].
    destruct (truth (kwargs_get kwargs "exception")); intros [= <-];
      eexists name, scheduler, _, _; cbn; repeat split; try reflexivity;
      try discriminate; exact Hs.
Qed.

(** What [handler] does once the schedule is found, as a function of the
    three entries it reads. *)
Lemma handler_found (kwargs : gmap string PyVal) (w : world (Schedule := Schedule))
    (name : PyVal) (scheduler : Schedule) :
  kwargs !! "name" = Some name →
  get_schedule name = Py.Done scheduler →
  handler get_schedule kwargs w
  = outcome_of_run scheduler (kwargs_get kwargs "result")
      (kwargs_get kwargs "exception") (py_str (kwargs_get kwargs "task_name")) w.
Proof.
  intros Hname Hs. unfold handler, outcome_of_run. rewrite Hname.
  cbn [mbind outcome_bind Py.bind]. rewrite Hs. cbn [mbind outcome_bind Py.bind].
  destruct (if truth (kwargs_get kwargs "result") then _ else _); [|reflexivity].
  cbn [mbind outcome_bind Py.bind].
  destruct (truth (kwargs_get kwargs "exception")); reflexivity.
Qed.

Lemma kwargs_get_insert (kwargs : gmap string PyVal) (key key' : string) (v : PyVal) :
  kwargs_get (<[ key := v ]> kwargs) key'
  = if String.eqb key key' then v else kwargs_get kwargs key'.
Proof.
  unfold kwargs_get. destruct (String.eqb_spec key key') as [<- | Hne].
  - rewrite lookup_insert_eq. reflexivity.
  - rewrite lookup_insert_ne by exact Hne. reflexivity.
Qed.

(** X26.  The error callback records the text of the traceback, not of the
    exception, as the reason of a [FAILED] run with no breaches; when the
    traceback is false (missing or empty) it records a [SUCCESS] run
    instead. *)
Theorem error_callback_records_traceback (request exc traceback : PyVal)
    (kwargs : gmap string PyVal) (w : world (Schedule := Schedule))
    (name : PyVal) (scheduler : Schedule) :
  kwargs !! "name" = Some name →
  get_schedule name = Py.Done scheduler →
  kwargs !! "result" = None →
  let task_name := py_str (kwargs_get kwargs "task_name") in
  error_callback_handler get_schedule request exc traceback kwargs w
  = Py.Done
      (if truth traceback
       then mk_world
              (history w ++ [mk_ScheduleRunHistory scheduler 0 FAILED
                               (Some (py_str traceback))])%list
              (log w ++ ["Failure callback handler";
                         "Task with name " +:+ task_name
                           +:+ " failed with exception: " +:+ py_str traceback])%list
       else mk_world
              (history w ++ [mk_ScheduleRunHistory scheduler 0 SUCCESS None])%list
              (log w ++ ["Failure callback handler";
                         "Task with name " +:+ task_name +:+ " succeeded."])%list).
Proof.
  intros Hname Hs Hres task_name. subst task_name.
  unfold error_callback_handler.
  rewrite (handler_found _ _ name scheduler)
    by (rewrite ?lookup_insert_ne by discriminate; assumption).
  rewrite !kwargs_get_insert. cbn [String.eqb Ascii.eqb Bool.eqb].
  unfold kwargs_get at 1. rewrite Hres.
  unfold outcome_of_run. cbn [default from_option id truth mbind outcome_bind Py.bind].
  destruct (truth traceback); unfold info, create; cbn [history log];
    rewrite <- app_assoc; reflexivity.
Qed.

(** X27.  The success callback records a [SUCCESS] run whose breach count
    is the length of the result, 0 for a false result; for a true result
    that has no length (a number, [True], a date) it raises [TypeError] and
    records nothing. *)
Theorem success_callback_counts_breaches (result : PyVal)
    (kwargs : gmap string PyVal) (w : world (Schedule := Schedule))
    (name : PyVal) (scheduler : Schedule) :
  kwargs !! "name" = Some name →
  get_schedule name = Py.Done scheduler →
  kwargs !! "exception" = None →
  let line := "Task with name " +:+ py_str (kwargs_get kwargs "task_name")
                +:+ " succeeded." in
  let recorded n :=
    Py.Done (mk_world (history w ++ [mk_ScheduleRunHistory scheduler n SUCCESS None])%list
               (log w ++ ["Success callback handler"; line])%list) in
  success_callback_handler get_schedule result kwargs w
  = if truth result
    then match py_len result with
         | Py.Done n => recorded n
         | Py.Fail e => Py.Fail e
         end
    else recorded 0%nat.
Proof.
  intros Hname Hs Hexc line recorded. subst line recorded.
  unfold success_callback_handler.
  rewrite (handler_found _ _ name scheduler)
    by (rewrite ?lookup_insert_ne by discriminate; assumption).
  rewrite !kwargs_get_insert. cbn [String.eqb Ascii.eqb Bool.eqb].
  unfold kwargs_get at 1. rewrite Hexc.
  unfold outcome_of_run. cbn [default from_option id truth].
  destruct (truth result).
  - destruct (py_len result); [|reflexivity].
    cbn [mbind outcome_bind Py.bind mret outcome_ret]. unfold info, create; cbn [history log].
    rewrite <- app_assoc. reflexivity.
  - cbn [mbind outcome_bind Py.bind mret outcome_ret]. unfold info, create; cbn [history log].
    rewrite <- app_assoc. reflexivity.
Qed.

End TaskProperties.

(** * Properties of the periodic task *)

Section Calendar.
Import Beat.

Lemma days_before_year_succ (y : Z) :
  days_before_year (y + 1) = days_before_year y + 365 + (if is_leap y then 1 else 0).
Proof.
  unfold days_before_year, is_leap. cbv zeta.
  replace (y + 1 - 1) with y by lia.
  destruct (Z.eqb_spec (y mod 4) 0), (Z.eqb_spec (y mod 100) 0),
    (Z.eqb_spec (y mod 400) 0); cbn [negb andb orb];
    Z.div_mod_to_equations; lia.
Qed.

Lemma month_cases (m : Z) :
  1 ≤ m ≤ 12 →
  m = 1 ∨ m = 2 ∨ m = 3 ∨ m = 4 ∨ m = 5 ∨ m = 6 ∨ m = 7 ∨ m = 8 ∨ m = 9 ∨ m = 10
  ∨ m = 11 ∨ m = 12.
Proof. lia. Qed.

Lemma days_before_month_succ (y m : Z) :
  1 ≤ m ≤ 11 →
  days_before_month y (m + 1) = days_before_month y m + days_in_month y m.
Proof.
  intros Hm. unfold days_before_month, days_in_month.
  destruct (month_cases m ltac:(lia)) as [-> | H]; [|repeat destruct H as [-> | H]; try subst m];
    cbn; destruct (is_leap y); try reflexivity; lia.
Qed.

Lemma days_before_december (y : Z) :
  days_before_month y 12 + 31 = 365 + (if is_leap y then 1 else 0).
Proof. unfold days_before_month. cbn. destruct (is_leap y); reflexivity. Qed.

Lemma valid_date_bounds (d : date) :
  valid_date d = true ↔
  1 ≤ date_year d ≤ 9999 ∧ 1 ≤ date_month d ≤ 12
  ∧ 1 ≤ date_day d ≤ days_in_month (date_year d) (date_month d).
Proof. unfold valid_date. rewrite !andb_true_iff, !Z.leb_le. tauto. Qed.

Lemma days_in_month_bounds (y m : Z) : 28 ≤ days_in_month y m ≤ 31.
Proof.
  unfold days_in_month.
  destruct (m =? 2); [destruct (is_leap y); lia|].
  destruct (_ || _); lia.
Qed.

Lemma days_before_year_nonneg (y : Z) : 1 ≤ y → 365 * (y - 1) ≤ days_before_year y.
Proof.
  intros Hy. unfold days_before_year. cbv zeta.
  Z.div_mod_to_equations. lia.
Qed.

Lemma days_before_month_nonneg (y m : Z) : 0 ≤ days_before_month y m.
Proof.
  unfold days_before_month.
  assert (0 ≤ default 0 (DAYS_BEFORE_MONTH !! Z.to_nat (m - 1))).
  { unfold DAYS_BEFORE_MONTH. generalize (Z.to_nat (m - 1)). intros n.
    do 12 (destruct n as [|n]; [vm_compute; discriminate|]).
    vm_compute. discriminate. }
  destruct (_ && _); lia.
Qed.


Lemma toordinal_positive (d : date) : valid_date d = true → 1 ≤ toordinal d.
Proof.
  rewrite valid_date_bounds. intros (Hy & Hm & Hd). unfold toordinal.
  pose proof (days_before_year_nonneg (date_year d) ltac:(lia)).
  pose proof (days_before_month_nonneg (date_year d) (date_month d)). lia.
Qed.

(** Stepping back a day takes one off the ordinal. *)
Lemma toordinal_yesterday (d : date) :
  valid_date d = true → 1 < toordinal d →
  valid_date (yesterday d) = true ∧ toordinal (yesterday d) = toordinal d - 1.
Proof.
  intros Hb Hord. rewrite valid_date_bounds in Hb. destruct Hb as (Hy & Hm & Hd).
  unfold yesterday. destruct (Z.ltb_spec 1 (date_day d)) as [Hday | Hday].
  - rewrite valid_date_bounds. cbn. unfold toordinal; cbn. lia.
  - destruct (Z.ltb_spec 1 (date_month d)) as [Hmonth | Hmonth].
    + rewrite valid_date_bounds. cbn.
      pose proof (days_in_month_bounds (date_year d) (date_month d - 1)).
      pose proof (days_before_month_succ (date_year d) (date_month d - 1) ltac:(lia)) as Hs.
      replace (date_month d - 1 + 1) with (date_month d) in Hs by lia.
      unfold toordinal; cbn. lia.
    + assert (date_month d = 1) as Hm1 by lia. assert (date_day d = 1) as Hd1 by lia.
      assert (1 < date_year d) as Hy1.
      { unfold toordinal in Hord. rewrite Hm1, Hd1 in Hord.
        destruct (Z.eq_dec (date_year d) 1) as [Heq|]; [|lia].
        rewrite Heq in Hord. vm_compute in Hord. discriminate. }
      rewrite valid_date_bounds. cbn.
      pose proof (days_before_year_succ (date_year d - 1)) as Hs.
      replace (date_year d - 1 + 1) with (date_year d) in Hs by lia.
      pose proof (days_before_december (date_year d - 1)).
      unfold toordinal; cbn. rewrite Hm1, Hd1.
      change (days_before_month (date_year d) 1) with 0.
      split; [|lia]. change (days_in_month (date_year d - 1) 12) with 31. lia.
Qed.

Lemma toordinal_days_back (n : nat) (d : date) :
  valid_date d = true → Z.of_nat n < toordinal d →
  valid_date (Nat.iter n yesterday d) = true
  ∧ toordinal (Nat.iter n yesterday d) = toordinal d - Z.of_nat n.
Proof.
  intros Hd. induction n as [|n IH]; intros Hn.
  - split; [exact Hd | cbn; lia].
  - destruct IH as [Hv Ho]; [lia|].
    change (Nat.iter (S n) yesterday d) with (yesterday (Nat.iter n yesterday d)).
    destruct (toordinal_yesterday _ Hv ltac:(lia)) as [Hv' Ho'].
    split; [exact Hv' | rewrite Ho', Ho; lia].
Qed.

(** Taking days off a date takes them off the ordinal. *)
Lemma minus_days_between (d : date) (n : Z) :
  valid_date d = true → 0 ≤ n < toordinal d →
  ∃ before, minus_days d n = Py.Done before ∧ days_between d before = n.
Proof.
  intros Hd Hn. unfold minus_days.
  destruct (Z.ltb_spec 0 (toordinal d - n)); [|lia].
  eexists. split; [reflexivity|]. unfold days_between.
  destruct (toordinal_days_back (Z.to_nat n) d Hd ltac:(lia)) as [_ ->]. lia.
Qed.

Lemma year_after_first (d : date) :
  valid_date d = true → 1 < date_year d → 365 < toordinal d.
Proof.
  rewrite valid_date_bounds. intros (Hy & Hm & Hd) Hy1. unfold toordinal.
  pose proof (days_before_year_nonneg (date_year d) ltac:(lia)).
  pose proof (days_before_month_nonneg (date_year d) (date_month d)). lia.
Qed.

(** The number of days the task asks for, by the keywords of the
    frequency. *)
Lemma days_range_by_delta (d : date) :
  valid_date d = true → 1 < date_year d →
  (∃ before, minus_relativedelta d (relativedelta_of (days 1)) = Py.Done before
             ∧ days_between d before = 1)
  ∧ (∃ before, minus_relativedelta d (relativedelta_of (weeks 1)) = Py.Done before
               ∧ days_between d before = 7)
  ∧ (∃ before, minus_relativedelta d (relativedelta_of (months 1)) = Py.Done before
               ∧ days_between d before = Z.max (date_day d) (previous_month_length d)).
Proof.
  intros Hd Hy. pose proof (year_after_first d Hd Hy) as Hord.
  pose proof Hd as Hb. rewrite valid_date_bounds in Hb. destruct Hb as (Hy' & Hm & Hday).
  assert (∀ n, 0 ≤ n < 366 →
            ∃ before, minus_relativedelta d (mk_relativedelta 0 n) = Py.Done before
                      ∧ days_between d before = n) as Hdays.
  { intros n Hn. unfold minus_relativedelta. cbn [rd_months rd_days].
    replace (date_month d - 0) with (date_month d) by lia.
    destruct (Z.ltb_spec 12 (date_month d)); [lia|].
    destruct (Z.ltb_spec (date_month d) 1); [lia|].
    destruct (Z.ltb_spec (date_year d) 1); [lia|].
    rewrite Z.min_r by lia.
    destruct d as [y m day]; cbn in *.
    apply (minus_days_between (mk_date y m day) n Hd). lia. }
  split; [exact (Hdays 1 ltac:(lia))|]. split; [exact (Hdays 7 ltac:(lia))|].
  unfold minus_relativedelta, previous_month_length. cbn [relativedelta_of rd_months rd_days].
  destruct (Z.ltb_spec 12 (date_month d - 1)); [lia|].
  destruct (Z.ltb_spec (date_month d - 1) 1) as [Hjan | Hlater].
  - assert (date_month d = 1) as Hm1 by lia. rewrite Hm1. cbn [Z.eqb].
    destruct (Z.ltb_spec (date_year d - 1) 1); [lia|].
    replace (1 - 1 + 12) with 12 by lia.
    change (days_in_month (date_year d - 1) 12) with 31.
    unfold minus_days.
    assert (valid_date (mk_date (date_year d - 1) 12 (Z.min 31 (date_day d))) = true) as Hv.
    { rewrite valid_date_bounds. cbn. change (days_in_month (date_year d - 1) 12) with 31.
      lia. }
    pose proof (toordinal_positive _ Hv).
    destruct (Z.ltb_spec 0 (toordinal (mk_date (date_year d - 1) 12 (Z.min 31 (date_day d))) - 0));
      [|lia].
    eexists. split; [reflexivity|].
    change (Z.to_nat 0) with 0%nat. unfold Nat.iter. cbn [nat_rect].
    pose proof (days_in_month_bounds (date_year d) (date_month d)).
    unfold days_between, toordinal; cbn. rewrite Hm1.
    change (days_before_month (date_year d) 1) with 0.
    pose proof (days_before_year_succ (date_year d - 1)) as Hs.
    replace (date_year d - 1 + 1) with (date_year d) in Hs by lia.
    pose proof (days_before_december (date_year d - 1)). lia.
  - destruct (Z.eqb_spec (date_month d) 1); [lia|].
    destruct (Z.ltb_spec (date_year d) 1); [lia|].
    pose proof (days_in_month_bounds (date_year d) (date_month d - 1)).
    unfold minus_days.
    set (before := mk_date (date_year d) (date_month d - 1)
                     (Z.min (days_in_month (date_year d) (date_month d - 1)) (date_day d))).
    assert (valid_date before = true) as Hv.
    { rewrite valid_date_bounds. cbn. lia. }
    pose proof (toordinal_positive _ Hv).
    destruct (Z.ltb_spec 0 (toordinal before - 0)); [|lia].
    eexists. split; [reflexivity|].
    change (Z.to_nat 0) with 0%nat. unfold Nat.iter. cbn [nat_rect].
    unfold days_between, toordinal, before; cbn.
    pose proof (days_before_month_succ (date_year d) (date_month d - 1) ltac:(lia)) as Hs.
    replace (date_month d - 1 + 1) with (date_month d) in Hs by lia. lia.
Qed.

End Calendar.

Section Clock.
Import Beat.

Lemma digit_compare (x y : Z) :
  0 ≤ x < 10 → 0 ≤ y < 10 → Ascii.compare (digit x) (digit y) = (x ?= y).
Proof.
  intros Hx Hy.
  assert (x = 0 ∨ x = 1 ∨ x = 2 ∨ x = 3 ∨ x = 4 ∨ x = 5 ∨ x = 6 ∨ x = 7 ∨ x = 8 ∨ x = 9)
    as Hxs by lia.
  assert (y = 0 ∨ y = 1 ∨ y = 2 ∨ y = 3 ∨ y = 4 ∨ y = 5 ∨ y = 6 ∨ y = 7 ∨ y = 8 ∨ y = 9)
    as Hys by lia.
  repeat destruct Hxs as [-> | Hxs]; try subst x;
    repeat destruct Hys as [-> | Hys]; try subst y; reflexivity.
Qed.

(** Two-digit numbers compare as their texts do, and the comparison goes on
    into what follows when they are equal. *)
Lemma two_digits_compare (a b : Z) (s t : string) :
  0 ≤ a < 100 → 0 ≤ b < 100 →
  String.compare (two_digits a +:+ s) (two_digits b +:+ t)
  = match a ?= b with Eq => String.compare s t | c => c end.
Proof.
  intros Ha Hb. unfold two_digits.
  change (String ?x (String ?y EmptyString) +:+ ?r) with (String x (String y r)).
  cbn [String.compare].
  rewrite !digit_compare by (Z.div_mod_to_equations; lia).
  destruct (Z.compare_spec (a / 10) (b / 10)) as [Hq | Hq | Hq].
  - destruct (Z.compare_spec (a mod 10) (b mod 10)) as [Hr | Hr | Hr];
      destruct (Z.compare_spec a b); try reflexivity;
      Z.div_mod_to_equations; lia.
  - destruct (Z.compare_spec a b); try reflexivity; Z.div_mod_to_equations; lia.
  - destruct (Z.compare_spec a b); try reflexivity; Z.div_mod_to_equations; lia.
Qed.

Lemma valid_time_bounds (t : time) :
  valid_time t = true ↔
  0 ≤ time_hour t < 24 ∧ 0 ≤ time_minute t < 60 ∧ 0 ≤ time_second t < 60.
Proof.
  unfold valid_time. rewrite !andb_true_iff, !Z.leb_le, !Z.ltb_lt. tauto.
Qed.

(** The texts of two times of day compare as the times do. *)
Lemma strftime_compare (a b : time) :
  valid_time a = true → valid_time b = true →
  String.compare (strftime_HMS a) (strftime_HMS b) = time_compare a b.
Proof.
  rewrite !valid_time_bounds. intros (Hh & Hm & Hs) (Hh' & Hm' & Hs').
  unfold strftime_HMS, time_compare.
  rewrite two_digits_compare by lia.
  destruct (time_hour a ?= time_hour b); try reflexivity.
  change (":" +:+ ?r) with (String ":" r). cbn [String.compare].
  change (Ascii.compare ":" ":") with Eq. cbv iota.
  rewrite two_digits_compare by lia.
  destruct (time_minute a ?= time_minute b); try reflexivity.
  change (":" +:+ ?r) with (String ":" r). cbn [String.compare].
  change (Ascii.compare ":" ":") with Eq. cbv iota.
  rewrite <- (append_empty_r (two_digits (time_second a))),
          <- (append_empty_r (two_digits (time_second b))).
  rewrite two_digits_compare by lia.
  destruct (time_second a ?= time_second b); reflexivity.
Qed.

Lemma str_gt_strftime (a b : time) :
  valid_time a = true → valid_time b = true →
  str_gt (strftime_HMS a) (strftime_HMS b) = later a b.
Proof. intros Ha Hb. unfold str_gt, later. rewrite strftime_compare by assumption. reflexivity. Qed.

End Clock.

Section BeatProperties.
Import Beat.
Context {K : Type} `{EqDecision K}.
Context (DAILY WEEKLY MONTHLY : K) (repr : K → string).
Context (env : Services (K := K)).

Lemma frequency_map_known (now : datetime) (k : K) :
  DAILY ≠ WEEKLY → DAILY ≠ MONTHLY → WEEKLY ≠ MONTHLY →
  dict_get (frequency_map DAILY WEEKLY MONTHLY now) k
  = if decide (k = DAILY) then Some (mk_options 0 (days 1))
    else if decide (k = WEEKLY) then Some (mk_options (isoweekday (date_of now)) (weeks 1))
    else if decide (k = MONTHLY) then Some (mk_options (day now) (months 1))
    else None.
Proof.
  intros H1 H2 H3. unfold frequency_map. cbn [dict_get].
  repeat case_decide; subst; congruence.
Qed.

Lemma frequency_map_unknown (now : datetime) (k : K) :
  known DAILY WEEKLY MONTHLY k = false →
  dict_get (frequency_map DAILY WEEKLY MONTHLY now) k = None.
Proof.
  unfold known. rewrite bool_decide_eq_false, !elem_of_cons, elem_of_nil.
  intros Hk. unfold frequency_map. cbn [dict_get].
  repeat case_decide; subst; tauto.
Qed.

Lemma start_day_flip (x : Z) (y : option Z) :
  bool_decide (Some x = y) = bool_decide (y = Some x).
Proof. apply bool_decide_ext. split; congruence. Qed.

(** One schedule with a known frequency, on a valid clock and a queue that
    accepts the call. *)
Lemma try_schedule_known (s : Schedule) (w : world) :
  DAILY ≠ WEEKLY → DAILY ≠ MONTHLY → WEEKLY ≠ MONTHLY →
  valid_date (date_of (now env)) = true → 1 < year (now env) →
  valid_time (time_of (now env)) = true →
  valid_time (start_time s) = true →
  known DAILY WEEKLY MONTHLY (frequency s) = true →
  (∀ call, ∃ u, apply_async env call = Py.Done u) →
  try_schedule DAILY WEEKLY MONTHLY repr env (now env) s w
  = (Py.Done tt,
     if due_day DAILY WEEKLY (now env) s
     then if later (start_time s) (time_of (now env)) then w
          else mk_world (dispatched w ++ [call_for DAILY WEEKLY env s])%list (log w)
     else mk_world (dispatched w) (log w ++ [skip_record s])%list).
Proof.
  intros H1 H2 H3 Hdate Hyear Hclock Htime Hknown Hqueue.
  destruct (days_range_by_delta (date_of (now env)) Hdate Hyear)
    as ((d1 & Hd1 & Hr1) & (d7 & Hd7 & Hr7) & (dm & Hdm & Hrm)).
  unfold known in Hknown. rewrite bool_decide_eq_true, !elem_of_cons, elem_of_nil in Hknown.
  unfold try_schedule. rewrite (frequency_map_known _ _ H1 H2 H3).
  rewrite (str_gt_strftime _ _ Htime Hclock).
  unfold due_day, call_for, days_range_for, skip_record, info.
  destruct (decide (frequency s = DAILY)) as [Hd | Hd];
    [|destruct (decide (frequency s = WEEKLY)) as [Hw | Hw];
      [|destruct (decide (frequency s = MONTHLY)) as [Hm | Hm]; [|tauto]]];
    cbn [o_start_day o_delta]; rewrite start_day_flip;
    (case_bool_decide; cbn [negb]; [|reflexivity]);
    rewrite ?Hd1, ?Hd7, ?Hdm, ?Hr1, ?Hr7, ?Hrm;
    (destruct (later _ _); [reflexivity|]);
    match goal with
    | |- context [apply_async env ?c] => destruct (Hqueue c) as [[] ->]
    end; reflexivity.
Qed.

Lemma for_each_known (schedulers : list Schedule) (w : world) :
  DAILY ≠ WEEKLY → DAILY ≠ MONTHLY → WEEKLY ≠ MONTHLY →
  valid_date (date_of (now env)) = true → 1 < year (now env) →
  valid_time (time_of (now env)) = true →
  forallb (λ s, valid_time (start_time s) && known DAILY WEEKLY MONTHLY (frequency s))
    schedulers = true →
  (∀ call, ∃ u, apply_async env call = Py.Done u) →
  for_each DAILY WEEKLY MONTHLY repr env (now env) schedulers w
  = (Py.Done tt,
     mk_world
       (dispatched w
        ++ (call_for DAILY WEEKLY env
              <$> filter (λ s, due DAILY WEEKLY (now env) s = true) schedulers))%list
       (log w
        ++ (skip_record
              <$> filter (λ s, due_day DAILY WEEKLY (now env) s = false)
                    schedulers))%list).
Proof.
  intros H1 H2 H3 Hdate Hyear Hclock Hall Hqueue. revert w.
  induction schedulers as [|s rest IH]; intros w.
  - cbn. rewrite !app_nil_r. destruct w; reflexivity.
  - cbn [forallb] in Hall. apply andb_true_iff in Hall as [Hs Hrest].
    apply andb_true_iff in Hs as [Htime Hknown].
    cbn [for_each].
    rewrite (try_schedule_known s w H1 H2 H3 Hdate Hyear Hclock Htime Hknown Hqueue).
    cbn [log_and_raise]. rewrite (IH Hrest). rewrite !filter_cons. unfold due.
    destruct (due_day DAILY WEEKLY (now env) s) eqn:Hday; cbn [andb].
    + destruct (later (start_time s) (time_of (now env))); cbn [negb].
      * rewrite decide_False by discriminate. rewrite decide_False by discriminate.
        reflexivity.
      * rewrite decide_True by reflexivity. rewrite decide_False by discriminate.
        cbn [dispatched log fmap list_fmap]. rewrite <- app_assoc. reflexivity.
    + rewrite decide_False by discriminate. rewrite decide_True by reflexivity.
      cbn [dispatched log fmap list_fmap]. rewrite <- app_assoc. reflexivity.
Qed.

(** X28.  On a valid clock, with the three frequencies distinct, every
    started schedule of a known frequency and a queue that accepts every
    call, the task returns, and it has dispatched, in the order of the
    schedules, exactly those whose start day is today's for their frequency
    (0 for a daily schedule, the ISO weekday for a weekly one, the day of the
    month for a monthly one) and whose start time is not later than the time
    of day, compared as numbers; each call asks for 1 day (daily), 7 days
    (weekly) or, for a monthly schedule, the larger of the day of the month
    and the length of the month before; a schedule of another day is logged
    as skipped, one whose time has not come is passed over silently. *)
Theorem fetch_dispatches_due_schedules (schedulers : list Schedule) (w : world) :
  DAILY ≠ WEEKLY → DAILY ≠ MONTHLY → WEEKLY ≠ MONTHLY →
  valid_date (date_of (now env)) = true → 1 < year (now env) →
  valid_time (time_of (now env)) = true →
  started env = Py.Done schedulers →
  forallb (λ s, valid_time (start_time s) && known DAILY WEEKLY MONTHLY (frequency s))
    schedulers = true →
  (∀ call, ∃ u, apply_async env call = Py.Done u) →
  fetch_data_task DAILY WEEKLY MONTHLY repr env w
  = (Py.Done tt,
     mk_world
       (dispatched w
        ++ (call_for DAILY WEEKLY env
              <$> filter (λ s, due DAILY WEEKLY (now env) s = true) schedulers))%list
       (log w
        ++ INFO "Starting scrapping task"
           :: (skip_record
                 <$> filter (λ s, due_day DAILY WEEKLY (now env) s = false)
                       schedulers))%list).
Proof.
  intros H1 H2 H3 Hdate Hyear Hclock Hstarted Hall Hqueue.
  unfold fetch_data_task. rewrite Hstarted.
  rewrite (for_each_known _ _ H1 H2 H3 Hdate Hyear Hclock Hall Hqueue).
  cbn [log_and_raise info dispatched log]. rewrite <- app_assoc. reflexivity.
Qed.

Lemma for_each_app (now : datetime) (before after : list Schedule) (w w1 : world) :
  for_each DAILY WEEKLY MONTHLY repr env now before w = (Py.Done tt, w1) →
  for_each DAILY WEEKLY MONTHLY repr env now (before ++ after) w
  = for_each DAILY WEEKLY MONTHLY repr env now after w1.
Proof.
  revert w. induction before as [|s before IH]; intros w.
  - intros [= <-]. reflexivity.
  - cbn [app for_each].
    destruct (log_and_raise _) as [[[]|e] w']; [apply IH | discriminate].
Qed.

(** X29.  The first schedule that fails stops the task: when the schedules
    before it have been gone through, a schedule whose frequency is none of
    the three makes the task raise [KeyError] with the frequency, and any
    other failure on a schedule (the date arithmetic, the queue) is raised as
    it is; the failure is logged twice, by the inner and by the outer
    handler; the calls dispatched before stay dispatched and the schedules
    after it are never looked at. *)
Theorem fetch_stops_at_first_failure (before after : list Schedule) (s : Schedule)
    (w w1 : world) :
  started env = Py.Done (before ++ s :: after)%list →
  for_each DAILY WEEKLY MONTHLY repr env (now env) before
    (info "Starting scrapping task" w) = (Py.Done tt, w1) →
  let logged e := EXCEPTION ("An error occurred while fetching data: " +:+ Py.str e) in
  (known DAILY WEEKLY MONTHLY (frequency s) = false →
   fetch_data_task DAILY WEEKLY MONTHLY repr env w
   = (Py.Fail (Py.KeyError (repr (frequency s))),
      mk_world (dispatched w1)
        (log w1 ++ [logged (Py.KeyError (repr (frequency s)));
                    logged (Py.KeyError (repr (frequency s)))])%list))
  ∧ (∀ e w2,
       try_schedule DAILY WEEKLY MONTHLY repr env (now env) s w1 = (Py.Fail e, w2) →
       fetch_data_task DAILY WEEKLY MONTHLY repr env w
       = (Py.Fail e, mk_world (dispatched w2) (log w2 ++ [logged e; logged e])%list)).
Proof.
  intros Hstarted Hbefore logged.
  assert (∀ e w2,
            try_schedule DAILY WEEKLY MONTHLY repr env (now env) s w1 = (Py.Fail e, w2) →
            fetch_data_task DAILY WEEKLY MONTHLY repr env w
            = (Py.Fail e, mk_world (dispatched w2) (log w2 ++ [logged e; logged e])%list))
    as Hgeneral.
  { intros e w2 Hs. unfold fetch_data_task. rewrite Hstarted.
    rewrite (for_each_app _ _ _ _ _ Hbefore). cbn [for_each]. rewrite Hs.
    cbn [log_and_raise]. unfold exception. cbn [dispatched log]. rewrite <- app_assoc. reflexivity. }
  split; [|exact Hgeneral].
  intros Hunknown. apply Hgeneral. unfold try_schedule.
  rewrite (frequency_map_unknown _ _ Hunknown). reflexivity.
Qed.

End BeatProperties.


(** * Concrete runs

    The properties above, and the inputs on which two statements of the
    specification fail, evaluated with the reference built-ins. *)

#[local] Existing Instance ascii_builtins.

Example strptime_default_format :
  strptime_ascii "2024-03-05T23:59:00.000000Z" FilterDateField_FORMAT
  = Some (mk_datetime 2024 3 5 23 59 0 0).
Proof. vm_compute. reflexivity. Qed.

Example strptime_malformed :
  strptime_ascii "05/03/2024" FilterDateField_FORMAT = None.
Proof. vm_compute. reflexivity. Qed.

Example int_literal_examples :
  int_literal "42" = Some 42 ∧ int_literal " -7 " = Some (-7)
  ∧ int_literal "abc" = None ∧ int_literal EmptyString = None.
Proof. vm_compute. repeat split. Qed.

(** A malformed date does not cast, yet the empty check goes through. *)
Example is_empty_with_malformed_date :
  FilterDateField__cast (VStr "05/03/2024")
    {[ "format" := VStr FilterDateField_FORMAT ]}
  = Raise (UnsupportedFilterType
             "Value is not a valid date or has not appropriate format.")
  ∧ query_filter FilterDateField people "created" (VStr "05/03/2024") "after" ∅
    = Raise (UnsupportedFilterType
               "Value is not a valid date or has not appropriate format.")
  ∧ ops <$> query_filter FilterDateField people "created" (VStr "05/03/2024")
              "isEmpty" ∅
    = Ok [ OpAnnotate "df" (DjangoCast "created" DateField);
           OpFilter (QLookup "df__isnull" (VBool true)) ].
Proof. vm_compute. repeat split. Qed.

(** Under a runtime that parses nothing the integer cast rejects every
    string, and the empty check still returns the same plan. *)
Example is_empty_without_parsers :
  @query_filter rejecting_builtins FilterIntegerField people "age" (VStr "42") "eq" ∅
  = Raise (UnsupportedFilterType "Value is not a valid integer")
  ∧ @query_filter rejecting_builtins FilterIntegerField people "age" (VStr "42")
      "isNotEmpty" ∅
    = Ok (qs_exclude "age__isnull" (VBool true) people).
Proof. vm_compute. repeat split. Qed.

(** The operator [queryset] names no operator handler and is no key of the
    operator map, so the two-tier rule of the specification sends it to
    [eq]; the code finds the instance attribute [_queryset], keeps the raw
    operator, and calling the collection as a handler is a [TypeError]. *)
Lemma map_operator_queryset_counterexample :
  is_handler FilterIntegerField "_queryset" = false
  ∧ OPERATORS_MAP FilterIntegerField !! "queryset" = None
  ∧ spec_map_operator FilterIntegerField "queryset" = "eq"
  ∧ AbstractFilter__map_operator FilterIntegerField "queryset" = "queryset"
  ∧ AbstractFilter__map_operator FilterIntegerField "queryset"
    ≠ spec_map_operator FilterIntegerField "queryset"
  ∧ query_filter FilterIntegerField people "age" (VInt 1) "queryset" ∅
    = Raise TypeError.
Proof. vm_compute. repeat split. discriminate. Qed.

(** The same happens with the name of any other method, such as [_cast]. *)
Example map_operator_cast :
  is_handler FilterIntegerField "_cast" = false
  ∧ AbstractFilter__map_operator FilterIntegerField "cast" = "cast"
  ∧ spec_map_operator FilterIntegerField "cast" = "eq"
  ∧ query_filter FilterIntegerField people "age" (VInt 1) "cast" ∅ = Raise TypeError.
Proof. vm_compute. repeat split. Qed.

(** An operator known to neither tier does fall back to [eq]. *)
Example map_operator_unknown :
  AbstractFilter__map_operator FilterIntegerField "between" = "eq"
  ∧ AbstractFilter__map_operator FilterCharField "isAnyOf" = "in"
  ∧ AbstractFilter__map_operator FilterBooleanField "in" = "in".
Proof. vm_compute. repeat split. Qed.

Example integer_gte_on_age :
  query_filter FilterIntegerField people "age" (VInt 18) ">=" ∅ = Raise AttributeError
  ∧ ops <$> query_filter FilterIntegerField people "age" (VInt 18) ">" ∅
    = Ok [ OpFilter (QLookup "age__gt" (VInt 18)) ]
  ∧ ops <$> query_filter FilterDateField people "created"
              (VStr "2024-03-05T00:00:00.000000Z") "onOrAfter" ∅
    = Ok [ OpAnnotate "df" (DjangoCast "created" DateField);
           OpFilter (QLookup "df__gte" (VDateTime (mk_datetime 2024 3 5 0 0 0 0))) ].
Proof. vm_compute. repeat split. Qed.

Example integer_null_value :
  query_filter FilterIntegerField people "age" VNone "eq" ∅ = Raise TypeError
  ∧ query_filter FilterIntegerField people "age" (VStr "abc") "eq" ∅
    = Raise (UnsupportedFilterType "Value is not a valid integer").
Proof. vm_compute. repeat split. Qed.

Lemma to_bool_spec_witness :
  is_bool (VStr "TRUE") = false
  ∧ str_lower (py_str (VStr "TRUE")) = "true"
  ∧ Cast_to_bool (VStr "TRUE") = Ok (VBool true).
Proof.
  split; [reflexivity|]. split; [reflexivity|].
  apply (proj1 (proj2 (to_bool_spec (VStr "TRUE")) eq_refl)).
  left. reflexivity.
Defined.

Example to_bool_examples :
  Cast_to_bool (VBool false) = Ok (VBool false)
  ∧ Cast_to_bool (VInt 1) = Ok (VBool true)
  ∧ Cast_to_bool (VStr "False") = Ok (VBool false)
  ∧ Cast_to_bool (VStr "0") = Ok (VBool false)
  ∧ Cast_to_bool (VStr "yes") = Raise (UnsupportedFilterType "Value is not boolean")
  ∧ Cast_to_bool (VInt 2) = Raise (UnsupportedFilterType "Value is not boolean")
  ∧ Cast_to_bool VNone = Raise (UnsupportedFilterType "Value is not boolean").
Proof. vm_compute. repeat split. Qed.

Lemma text_matching_ignores_case_witness :
  (FilterCharField = FilterCharField ∨ FilterCharField = FilterTextField)
  ∧ str_lower "Bob" = str_lower "bob"
  ∧ narrow (query_filter FilterCharField people "name" (VStr "Bob") "eq" ∅) people_table
    = narrow (query_filter FilterCharField people "name" (VStr "bob") "eq" ∅) people_table.
Proof.
  assert (str_lower "Bob" = str_lower "bob") as Hcase by reflexivity.
  split; [left; reflexivity|]. split; [exact Hcase|].
  apply (proj1 (proj2 (text_matching_ignores_case FilterCharField "Bob" "bob"
                         people "name" ∅ people_table (or_introl eq_refl) Hcase))).
  right; left; reflexivity.
Defined.

(** Both spellings match the record whose name is stored in capitals. *)
Example bob_matches_in_capitals :
  (map (λ r, r !! "name")
     <$> narrow (query_filter FilterCharField people "name" (VStr "Bob") "eq" ∅)
           people_table) = Ok [ Some (VStr "BOB") ]
  ∧ (map (λ r, r !! "name")
       <$> narrow (query_filter FilterTextField people "name" (VStr "bob") "isAnyOf" ∅)
             people_table) = Ok [ Some (VStr "BOB") ].
Proof. vm_compute. repeat split. Qed.

Lemma in_scalar_is_singleton_witness :
  is_list_or_tuple (VInt 7) = false
  ∧ narrow (call_handler FilterIntegerField "_in" people "age" (VInt 7) ∅) people_table
    = narrow (call_handler FilterIntegerField "_in" people "age" (VList [VInt 7]) ∅)
        people_table.
Proof.
  split; [reflexivity|].
  apply (proj1 (proj2 (in_scalar_is_singleton FilterIntegerField (VInt 7) people "age"
                         ∅ people_table eq_refl))).
Defined.

Lemma unknown_field_fails_at_dispatch_witness :
  CUSTOM_FIELDS plain_dispatcher !! "nonexistent_xyz" = None
  ∧ get_field people !! "nonexistent_xyz" = None
  ∧ Filter_filter_multiple plain_dispatcher people
      [ mk_descriptor (Some "nonexistent_xyz") (Some (VStr "x")) (Some "eq") ∅ ]
    = Raise (UnsupportedFilterType "Field does not exist").
Proof.
  assert (CUSTOM_FIELDS plain_dispatcher !! "nonexistent_xyz" = None) as Hcustom
    by reflexivity.
  assert (get_field people !! "nonexistent_xyz" = None) as Hschema
    by (vm_compute; reflexivity).
  split; [exact Hcustom|]. split; [exact Hschema|].
  apply (proj1 (proj2 (unknown_field_fails_at_dispatch plain_dispatcher people
                         "nonexistent_xyz" Hcustom Hschema))
           (subclass_query_filter plain_dispatcher)).
Defined.

Lemma date_filters_compare_annotation_witness :
  (FilterDateField = FilterDateField ∨ FilterDateField = FilterDateTimeField)
  ∧ query_filter FilterDateField people "created"
      (VStr "2024-03-05T00:00:00.000000Z") "onOrAfter" ∅
    = Ok (mk_queryset people_schema
            [ OpAnnotate "df" (DjangoCast "created" DateField);
              OpFilter (QLookup "df__gte"
                          (VDateTime (mk_datetime 2024 3 5 0 0 0 0))) ])
  ∧ ∃ o, ops (mk_queryset people_schema
              [ OpAnnotate "df" (DjangoCast "created" DateField);
                OpFilter (QLookup "df__gte"
                            (VDateTime (mk_datetime 2024 3 5 0 0 0 0))) ])
       = (ops people ++ [ OpAnnotate "df" (DjangoCast "created" DateField); o ])%list
       ∧ targets "df" o = true.
Proof.
  assert (query_filter FilterDateField people "created"
            (VStr "2024-03-05T00:00:00.000000Z") "onOrAfter" ∅
          = Ok (mk_queryset people_schema
                  [ OpAnnotate "df" (DjangoCast "created" DateField);
                    OpFilter (QLookup "df__gte"
                                (VDateTime (mk_datetime 2024 3 5 0 0 0 0))) ])) as Hrun
    by (vm_compute; reflexivity).
  split; [left; reflexivity|]. split; [exact Hrun|].
  destruct (date_filters_compare_annotation FilterDateField people "created"
              (VStr "2024-03-05T00:00:00.000000Z") "onOrAfter" ∅ _
              (or_introl eq_refl) Hrun) as (o & Hops & Ho & _).
  exists o. split; assumption.
Defined.


(** * Concrete runs of the further properties *)

Lemma query_filter_extends_plan_witness :
  is_handler FilterCharField ("_" +:+ AbstractFilter__map_operator FilterCharField "isAnyOf")
  = true
  ∧ query_filter FilterCharField people "name" (VStr "Bob") "isAnyOf" ∅
    = Ok (mk_queryset people_schema
            [ OpAnnotate "lower" (Lower "name");
              OpFilter (QLookup "lower__in" (VList [VStr "bob"])) ])
  ∧ ∀ table,
      (length (run (mk_queryset people_schema
                      [ OpAnnotate "lower" (Lower "name");
                        OpFilter (QLookup "lower__in" (VList [VStr "bob"])) ]) table)
       ≤ length (run people table))%nat.
Proof.
  assert (query_filter FilterCharField people "name" (VStr "Bob") "isAnyOf" ∅
          = Ok (mk_queryset people_schema
                  [ OpAnnotate "lower" (Lower "name");
                    OpFilter (QLookup "lower__in" (VList [VStr "bob"])) ])) as Hrun
    by (vm_compute; reflexivity).
  assert (is_handler FilterCharField
            ("_" +:+ AbstractFilter__map_operator FilterCharField "isAnyOf") = true)
    as Hhandler by (vm_compute; reflexivity).
  split; [exact Hhandler|]. split; [exact Hrun|].
  apply (query_filter_extends_plan FilterCharField people "name" (VStr "Bob")
           "isAnyOf" ∅ _ Hhandler Hrun).
Defined.

(** An operator that resolves to a member inherited from [object] reaches no
    handler. *)
Example inherited_member_is_no_handler :
  AbstractFilter__map_operator FilterCharField "_setattr__" = "_setattr__"
  ∧ is_handler FilterCharField "__setattr__" = false
  ∧ query_filter FilterCharField people "name" (VStr "Bob") "_setattr__" ∅
    = Raise NotAFilter.
Proof. vm_compute. repeat split. Qed.

Lemma negated_operators_complement_witness :
  In ("eq", "not") (opposite_operators FilterDateField)
  ∧ parse_key "created" = ("created", LExact)
  ∧ splits (run (prepared FilterDateField people "created") people_table)
      (λ r, negb (is_empty_check "eq")
            && null_annotation (annotated (ops (prepared FilterDateField people "created")))
                 (target_field FilterDateField "created") r)
      (narrow (query_filter FilterDateField people "created"
                 (VStr "2024-03-05T00:00:00.000000Z") "eq" ∅) people_table)
      (narrow (query_filter FilterDateField people "created"
                 (VStr "2024-03-05T00:00:00.000000Z") "not" ∅) people_table).
Proof.
  assert (In ("eq", "not") (opposite_operators FilterDateField))
    as Hin by (cbn; tauto).
  assert (parse_key "created" = ("created", LExact)) as Hkey
    by (vm_compute; reflexivity).
  split; [exact Hin|]. split; [exact Hkey|].
  apply (negated_operators_complement FilterDateField "eq" "not"
           people "created" (VStr "2024-03-05T00:00:00.000000Z") ∅ people_table Hin Hkey).
Defined.

(** A row without a date is in neither result: no row of the table has one,
    and both the equality and its negation select nothing, while the two
    empty checks split the table. *)
Example null_date_in_neither_result :
  length <$> narrow (query_filter FilterDateField people "created"
                       (VStr "2024-03-05T00:00:00.000000Z") "eq" ∅) people_table
  = Ok 0%nat
  ∧ length <$> narrow (query_filter FilterDateField people "created"
                         (VStr "2024-03-05T00:00:00.000000Z") "not" ∅) people_table
    = Ok 0%nat
  ∧ length <$> narrow (query_filter FilterDateField people "created" VNone "isEmpty" ∅)
                 people_table
    = Ok 2%nat
  ∧ length <$> narrow (query_filter FilterDateField people "created" VNone "isNotEmpty" ∅)
                 people_table
    = Ok 0%nat.
Proof. vm_compute. repeat split. Qed.

(** On a column of the model the negation keeps the rows the equality
    drops. *)
Example age_equality_and_negation :
  (map (λ r, r !! "name")
     <$> narrow (query_filter FilterIntegerField people "age" (VInt 20) "eq" ∅)
           people_table) = Ok [ Some (VStr "BOB") ]
  ∧ (map (λ r, r !! "name")
       <$> narrow (query_filter FilterIntegerField people "age" (VInt 20) "not" ∅)
             people_table) = Ok [ Some (VStr "alice") ].
Proof. vm_compute. repeat split. Qed.

Lemma plain_filters_commute_witness :
  (FilterIntegerField = FilterIntegerField ∨ FilterIntegerField = FilterBooleanField)
  ∧ is_ok (query_filter FilterIntegerField people "age" (VInt 18) ">" ∅
           ≫= λ qs', query_filter FilterIntegerField qs' "age" (VInt 30) "<" ∅)
    = is_ok (query_filter FilterIntegerField people "age" (VInt 30) "<" ∅
             ≫= λ qs', query_filter FilterIntegerField qs' "age" (VInt 18) ">" ∅).
Proof.
  split; [left; reflexivity|].
  apply (plain_filters_commute FilterIntegerField people
           "age" (VInt 18) ">" ∅ "age" (VInt 30) "<" ∅ (or_introl eq_refl)).
Defined.

(** The two orders of the age filters select the one row in between. *)
Example age_between_either_order :
  (map (λ r, r !! "name")
     <$> narrow (query_filter FilterIntegerField people "age" (VInt 18) ">" ∅
                 ≫= λ qs', query_filter FilterIntegerField qs' "age" (VInt 30) "<" ∅)
           people_table) = Ok [ Some (VStr "BOB") ]
  ∧ (map (λ r, r !! "name")
       <$> narrow (query_filter FilterIntegerField people "age" (VInt 30) "<" ∅
                   ≫= λ qs', query_filter FilterIntegerField qs' "age" (VInt 18) ">" ∅)
             people_table) = Ok [ Some (VStr "BOB") ].
Proof. vm_compute. repeat split. Qed.

Lemma boolean_filter_has_no_aliases_witness :
  hasattr FilterBooleanField ("_" +:+ "isEmpty") = false
  ∧ query_filter FilterBooleanField people "active" (VStr "maybe") "isEmpty" ∅
    = call_handler FilterBooleanField "_eq" people "active" (VStr "maybe") ∅.
Proof.
  assert (hasattr FilterBooleanField ("_" +:+ "isEmpty") = false) as Hattr
    by reflexivity.
  split; [exact Hattr|].
  apply (proj2 (proj2 (boolean_filter_has_no_aliases people "active" (VStr "maybe")
                         "isEmpty" ∅ Hattr))).
Defined.

(** An alias of another filter goes through the cast first. *)
Example boolean_alias_is_cast :
  query_filter FilterBooleanField people "active" (VStr "maybe") "contains" ∅
  = Raise (UnsupportedFilterType "Value is not boolean")
  ∧ query_filter FilterBooleanField people "active" (VStr "True") "contains" ∅
    = call_handler FilterBooleanField "_eq" people "active" (VBool true) ∅.
Proof. vm_compute. repeat split. Qed.

Lemma boolean_cast_outcomes_witness :
  is_empty_check "in" = false
  ∧ is_list_or_tuple (VList [VBool true]) = true
  ∧ query_filter FilterBooleanField people "active" (VList [VBool true]) "in" ∅
    = Raise (UnsupportedFilterType "Value must be a boolean").
Proof.
  split; [reflexivity|]. split; [reflexivity|].
  apply (proj2 (boolean_cast_outcomes (VList [VBool true]) ∅) people "active" "in" ∅
           eq_refl eq_refl).
Defined.

Lemma integer_cast_idempotent_witness :
  FilterIntegerField__cast (VTuple [VStr "7"; VBool true]) ∅ = Ok (VList [VInt 7; VInt 1])
  ∧ FilterIntegerField__cast (VList [VInt 7; VInt 1]) ∅ = Ok (VList [VInt 7; VInt 1]).
Proof.
  assert (FilterIntegerField__cast (VTuple [VStr "7"; VBool true]) ∅
          = Ok (VList [VInt 7; VInt 1])) as Hcast by (vm_compute; reflexivity).
  split; [exact Hcast|].
  apply (proj1 (integer_cast_idempotent (VTuple [VStr "7"; VBool true])
                  (VList [VInt 7; VInt 1]) ∅ Hcast)).
Defined.

Lemma sequence_casts_all_or_nothing_witness :
  forallb (λ x, is_ok (Cast_to_int x)) [VInt 1] = true
  ∧ Cast_to_int VNone = Raise TypeError
  ∧ FilterIntegerField__cast (VList [VInt 1; VNone; VStr "x"]) ∅ = Raise TypeError.
Proof.
  split; [reflexivity|]. split; [reflexivity|].
  apply (proj2 (proj2 (proj1 (sequence_casts_all_or_nothing
                                [VInt 1; VNone; VStr "x"] ∅)))
           [VInt 1] VNone [VStr "x"] TypeError eq_refl eq_refl eq_refl).
Defined.

Lemma date_format_option_witness :
  (FilterDateField = FilterDateField ∨ FilterDateField = FilterDateTimeField)
  ∧ is_empty_check "after" = false
  ∧ query_filter FilterDateField people "created" (VStr "2024-03-05") "after"
      {[ "format" := VStr "%Y-%m-%d" ]}
    = Ok (mk_queryset people_schema
            [ OpAnnotate "df" (DjangoCast "created" DateField);
              OpFilter (QLookup "df__gt" (VDateTime (mk_datetime 2024 3 5 0 0 0 0))) ]).
Proof.
  split; [left; reflexivity|]. split; [reflexivity|].
  rewrite (date_format_option FilterDateField people "created" "2024-03-05" "after"
             {[ "format" := VStr "%Y-%m-%d" ]} (or_introl eq_refl) eq_refl).
  vm_compute. reflexivity.
Defined.

(** A format that repeats a directive: the error of the regular expression
    is not the typed error. *)
Example repeated_directive_escapes :
  query_filter FilterDateField people "created" (VStr "2024-2024") "after"
    {[ "format" := VStr "%Y-%Y" ]} = Raise ReError
  ∧ query_filter FilterDateField people "created" (VStr "2024") "after"
      {[ "format" := VStr "%Y-%m" ]}
    = Raise (UnsupportedFilterType
               "Value is not a valid date or has not appropriate format.").
Proof. vm_compute. repeat split. Qed.

Lemma date_filter_needs_text_witness :
  (FilterDateField = FilterDateField ∨ FilterDateField = FilterDateTimeField)
  ∧ is_empty_check "eq" = false
  ∧ is_list_or_tuple VNone = false
  ∧ query_filter FilterDateField people "created" VNone "eq" ∅ = Raise TypeError.
Proof.
  split; [left; reflexivity|]. split; [reflexivity|]. split; [reflexivity|].
  apply (date_filter_needs_text FilterDateField people "created" VNone "eq" ∅
           (or_introl eq_refl) eq_refl eq_refl).
  intros text. discriminate.
Defined.

Lemma integer_in_set_rows_witness :
  ("isAnyOf" = "in" ∨ "isAnyOf" = "isAnyOf")
  ∧ narrow (query_filter FilterIntegerField people "age"
              (VList (VInt <$> [20; 30])) "isAnyOf" ∅) people_table
    = Ok (filter (λ r, existsb (λ z, val_eqb (stored_in r "age") (VInt z)) [20; 30] = true)
            (run people people_table)).
Proof.
  split; [right; reflexivity|].
  apply (integer_in_set_rows people "age" [20; 30] "isAnyOf" ∅ people_table
           (or_intror eq_refl)).
Defined.

Lemma empty_check_rows_witness :
  (FilterCharField = FilterCharField ∨ FilterCharField = FilterTextField
   ∨ FilterCharField = FilterIntegerField)
  ∧ narrow (query_filter FilterCharField people "name" (VInt 5) "isEmpty" ∅) people_table
    = Ok (filter (λ r, is_blank FilterCharField (stored_in r "name") = true)
            (run people people_table)).
Proof.
  split; [left; reflexivity|].
  apply (proj1 (empty_check_rows FilterCharField people "name" (VInt 5) ∅ people_table
                  (or_introl eq_refl))).
Defined.

Lemma dispatcher_resolves_field_witness :
  FILTERS_MAP !! "first_name" = None
  ∧ CUSTOM_FIELDS (mk_FilterSubclass {[ "first_name" := "charfield" ]}
                     (subclass_query_filter plain_dispatcher)) !! "first_name"
    = Some "charfield"
  ∧ Filter___init__ (mk_FilterSubclass {[ "first_name" := "charfield" ]}
                       (subclass_query_filter plain_dispatcher))
      people "first_name" (VStr "Bob") "eq"
    = Ok (mk_Filter people (VStr "Bob") "eq" "first_name" "charfield"
            (str_lower (without_char "_" "first_name"))).
Proof.
  assert (FILTERS_MAP !! "first_name" = None) as Hmap by (vm_compute; reflexivity).
  assert (CUSTOM_FIELDS (mk_FilterSubclass {[ "first_name" := "charfield" ]}
                           (subclass_query_filter plain_dispatcher)) !! "first_name"
          = Some "charfield") as Hcustom by (vm_compute; reflexivity).
  split; [exact Hmap|]. split; [exact Hcustom|].
  apply (proj1 (dispatcher_resolves_field _ people "first_name" (VStr "Bob") "eq" Hmap)
           "charfield" Hcustom).
  discriminate.
Defined.

Lemma filter_type_names_are_rejected_witness :
  In "charfield" [ "integerfield"; "datetimefield"; "datefield"; "booleanfield";
                   "charfield"; "textfield" ]
  ∧ Filter___init__ (mk_FilterSubclass {[ "charfield" := "charfield" ]}
                       (subclass_query_filter plain_dispatcher))
      (mk_queryset {[ "charfield" := mk_field "charfield" "CharField" ]} [])
      "charfield" (VStr "x") "eq"
    = Raise (UnsupportedFilterType "Field does not exist").
Proof.
  assert (In "charfield" [ "integerfield"; "datetimefield"; "datefield";
                           "booleanfield"; "charfield"; "textfield" ]) as Hin
    by (cbn; tauto).
  split; [exact Hin|].
  apply (filter_type_names_are_rejected _ _ "charfield" (VStr "x") "eq" Hin).
Defined.

Lemma pipeline_missing_key_witness :
  Filter_filter_multiple plain_dispatcher people [] = Ok people
  ∧ (d_field (mk_descriptor (Some "nonexistent_xyz") None None ∅) = None
     ∨ d_value (mk_descriptor (Some "nonexistent_xyz") None None ∅) = None)
  ∧ Filter_filter_multiple plain_dispatcher people
      ([] ++ [ mk_descriptor (Some "nonexistent_xyz") None None ∅ ])
    = Raise KeyError.
Proof.
  split; [reflexivity|]. split; [right; reflexivity|].
  apply (pipeline_missing_key plain_dispatcher people people []
           (mk_descriptor (Some "nonexistent_xyz") None None ∅) []
           eq_refl (or_intror eq_refl)).
Defined.

Lemma pipeline_strips_text_witness :
  str_strip (str_strip "  Bob ") = str_strip "  Bob "
  ∧ Filter_filter_multiple plain_dispatcher people
      [ mk_descriptor (Some "name") (Some (VStr "  Bob ")) None ∅ ]
    = Filter_filter_multiple plain_dispatcher people
        [ mk_descriptor (Some "name") (Some (VStr (str_strip "  Bob "))) None ∅ ].
Proof.
  assert (str_strip (str_strip "  Bob ") = str_strip "  Bob ") as Hidem
    by (vm_compute; reflexivity).
  split; [exact Hidem|].
  apply (pipeline_strips_text plain_dispatcher people (Some "name") "  Bob " None ∅ []
           Hidem).
Defined.

Section NotificationRuns.
Import Notifications.

Lemma send_never_reaches_client_witness :
  no_phone lead_with_phone = false
  ∧ is_Some (({[ "message" := NStr "hello" ]} : ndict) !! "message")
  ∧ is_done (SmsNotification_send echo_services SmsNotification lead_with_phone
               {[ "message" := NStr "hello" ]}) = true.
Proof.
  split; [reflexivity|].
  assert (is_Some (({[ "message" := NStr "hello" ]} : ndict) !! "message")) as Hmsg
    by (eexists; reflexivity).
  split; [exact Hmsg|].
  apply (proj2 (proj2 (send_never_reaches_client echo_services lead_with_phone
                         {[ "message" := NStr "hello" ]})) eq_refl Hmsg).
  intros d. reflexivity.
Defined.

(** The client of [echo_services] would return a message id; [send] reports
    a failure all the same. *)
Example send_reports_failure :
  meta_data <$> match SmsNotification_send echo_services SmsNotification lead_with_phone
                        {[ "message" := NStr "hello" ]} with
                | Py.Done r => Some r
                | Py.Fail _ => None
                end
  = Some (mk_MetaData (NStr "name 'to' is not defined") 500 Failed).
Proof. vm_compute. reflexivity. Qed.

Lemma send_checks_phone_then_message_witness :
  no_phone (mk_Lead 8 (Some EmptyString)) = true
  ∧ SmsNotification_send echo_services SmsNotification (mk_Lead 8 (Some EmptyString)) ∅
    = Py.Fail (Py.ValidationError "Invalid phone number format.").
Proof.
  split; [reflexivity|].
  apply (proj1 (send_checks_phone_then_message echo_services
                  (mk_Lead 8 (Some EmptyString)) ∅) eq_refl).
Defined.

Lemma email_endpoint_never_answers_witness :
  last_segment (request_path email_request) = "email"
  ∧ SmsView_post echo_services email_request []
    = Py.Fail (Py.TypeError "Can't instantiate abstract class").
Proof.
  assert (last_segment (request_path email_request) = "email") as Hpath
    by (vm_compute; reflexivity).
  split; [exact Hpath|].
  apply (proj2 (email_endpoint_never_answers echo_services email_request [] Hpath)
           lead_with_phone {[ "message" := NStr "hello" ]} eq_refl eq_refl).
Defined.

Lemma sms_endpoint_always_reports_failure_witness :
  last_segment (request_path sms_request) ≠ "email"
  ∧ ∃ saved response,
      SmsView_post echo_services sms_request [] = Py.Done (saved, response)
      ∧ response_status response = 500
      ∧ response_message response = NStr "name 'to' is not defined".
Proof.
  assert (last_segment (request_path sms_request) ≠ "email") as Hpath
    by (vm_compute; discriminate).
  split; [exact Hpath|].
  destruct (SmsView_post echo_services sms_request []) as [[saved response]|e] eqn:Hpost;
    [|vm_compute in Hpost; discriminate Hpost].
  exists saved, response. split; [reflexivity|].
  destruct (sms_endpoint_always_reports_failure echo_services sms_request [] saved
              response Hpath Hpost) as (Hstatus & Hmessage & _).
  split; assumption.
Defined.

End NotificationRuns.

Section TaskRuns.
Import Tasks.

Lemma handler_records_one_run_witness :
  ∃ w', handler one_schedule callback_kwargs empty_world = Py.Done w'
        ∧ length (history w') = 1%nat ∧ length (log w') = 1%nat.
Proof.
  destruct (handler one_schedule callback_kwargs empty_world) as [w'|e] eqn:Hrun;
    [|vm_compute in Hrun; discriminate Hrun].
  exists w'. split; [reflexivity|].
  destruct (handler_records_one_run one_schedule callback_kwargs empty_world w' Hrun)
    as (name & scheduler & record & line & _ & _ & -> & -> & _).
  split; reflexivity.
Defined.

Lemma error_callback_records_traceback_witness :
  callback_kwargs !! "name" = Some (VStr "nightly")
  ∧ one_schedule (VStr "nightly") = Py.Done "nightly"
  ∧ callback_kwargs !! "result" = None
  ∧ history <$> match error_callback_handler one_schedule VNone (VStr "boom")
                        (VStr "Traceback (most recent call last)") callback_kwargs
                        empty_world with
                | Py.Done w => Some w
                | Py.Fail _ => None
                end
    = Some [ mk_ScheduleRunHistory "nightly" 0 FAILED
               (Some "Traceback (most recent call last)") ].
Proof.
  assert (callback_kwargs !! "name" = Some (VStr "nightly")) as Hname
    by (vm_compute; reflexivity).
  assert (callback_kwargs !! "result" = None) as Hresult by (vm_compute; reflexivity).
  split; [exact Hname|]. split; [reflexivity|]. split; [exact Hresult|].
  rewrite (error_callback_records_traceback one_schedule VNone (VStr "boom")
             (VStr "Traceback (most recent call last)") callback_kwargs empty_world
             (VStr "nightly") "nightly" Hname eq_refl Hresult).
  reflexivity.
Defined.

Lemma success_callback_counts_breaches_witness :
  callback_kwargs !! "name" = Some (VStr "nightly")
  ∧ one_schedule (VStr "nightly") = Py.Done "nightly"
  ∧ callback_kwargs !! "exception" = None
  ∧ history <$> match success_callback_handler one_schedule
                        (VList [VStr "a"; VStr "b"; VStr "c"]) callback_kwargs
                        empty_world with
                | Py.Done w => Some w
                | Py.Fail _ => None
                end
    = Some [ mk_ScheduleRunHistory "nightly" 3 SUCCESS None ].
Proof.
  assert (callback_kwargs !! "name" = Some (VStr "nightly")) as Hname
    by (vm_compute; reflexivity).
  assert (callback_kwargs !! "exception" = None) as Hexc by (vm_compute; reflexivity).
  split; [exact Hname|]. split; [reflexivity|]. split; [exact Hexc|].
  rewrite (success_callback_counts_breaches one_schedule
             (VList [VStr "a"; VStr "b"; VStr "c"]) callback_kwargs empty_world
             (VStr "nightly") "nightly" Hname eq_refl Hexc).
  reflexivity.
Defined.

(** A result that is true but has no length: nothing is recorded. *)
Example success_callback_with_a_number :
  success_callback_handler one_schedule (VInt 3) callback_kwargs empty_world
  = Py.Fail (Py.TypeError "object of type 'int' has no len()").
Proof. vm_compute. reflexivity. Qed.

End TaskRuns.

Section BeatRuns.
Import Beat.

Lemma fetch_dispatches_due_schedules_witness :
  "daily" ≠ "weekly" ∧ "daily" ≠ "monthly" ∧ "weekly" ≠ "monthly"
  ∧ valid_date (date_of (mk_datetime 2024 3 5 12 0 0 0)) = true
  ∧ valid_time (time_of (mk_datetime 2024 3 5 12 0 0 0)) = true
  ∧ (λ call, (kw_name call, kw_days_range call))
      <$> dispatched
            (fetch_data_task "daily" "weekly" "monthly" Py.repr
               (beat_services [nightly; sunday; weekly_report; evening; monthly_report])
               quiet).2
    = [ ("nightly", 1); ("weekly-report", 7); ("monthly-report", 29) ].
Proof.
  assert ("daily" ≠ "weekly") as H1 by discriminate.
  assert ("daily" ≠ "monthly") as H2 by discriminate.
  assert ("weekly" ≠ "monthly") as H3 by discriminate.
  assert (valid_date (date_of (mk_datetime 2024 3 5 12 0 0 0)) = true) as Hdate
    by reflexivity.
  assert (valid_time (time_of (mk_datetime 2024 3 5 12 0 0 0)) = true) as Hclock
    by reflexivity.
  repeat (split; [assumption|]).
  rewrite (fetch_dispatches_due_schedules "daily" "weekly" "monthly" Py.repr
             (beat_services [nightly; sunday; weekly_report; evening; monthly_report])
             [nightly; sunday; weekly_report; evening; monthly_report] quiet
             H1 H2 H3 Hdate ltac:(reflexivity) Hclock eq_refl ltac:(vm_compute; reflexivity)
             (λ call, ex_intro _ tt eq_refl)).
  vm_compute. reflexivity.
Defined.

(** The same run logs the schedule of another day and nothing about the one
    whose time has not come. *)
Example fetch_logs_the_skipped_day :
  log (fetch_data_task "daily" "weekly" "monthly" Py.repr
         (beat_services [nightly; sunday; weekly_report; evening; monthly_report])
         quiet).2
  = [ INFO "Starting scrapping task";
      INFO "Skipping sunday as it is not scheduled for today." ].
Proof. vm_compute. reflexivity. Qed.

Lemma fetch_stops_at_first_failure_witness :
  known "daily" "weekly" "monthly" (frequency hourly) = false
  ∧ fetch_data_task "daily" "weekly" "monthly" Py.repr
      (beat_services [nightly; hourly; weekly_report]) quiet
    = (Py.Fail (Py.KeyError "'hourly'"),
       mk_world
         [ mk_Dispatch "nightly" 1 true
             [ ("name", "nightly"); ("task_name", "fetch_data") ]
             [ ("name", "nightly"); ("task_name", "fetch_data") ] ]
         [ INFO "Starting scrapping task";
           EXCEPTION "An error occurred while fetching data: 'hourly'";
           EXCEPTION "An error occurred while fetching data: 'hourly'" ]).
Proof.
  assert (known "daily" "weekly" "monthly" (frequency hourly) = false) as Hunknown
    by (vm_compute; reflexivity).
  split; [exact Hunknown|].
  set (w1 := mk_world
         [ mk_Dispatch "nightly" 1 true
             [ ("name", "nightly"); ("task_name", "fetch_data") ]
             [ ("name", "nightly"); ("task_name", "fetch_data") ] ]
         [ INFO "Starting scrapping task" ]).
  assert (started (beat_services [nightly; hourly; weekly_report])
          = Py.Done ([nightly] ++ hourly :: [weekly_report])%list) as Hstarted
    by reflexivity.
  assert (for_each "daily" "weekly" "monthly" Py.repr
            (beat_services [nightly; hourly; weekly_report])
            (now (beat_services [nightly; hourly; weekly_report])) [nightly]
            (info "Starting scrapping task" quiet) = (Py.Done tt, w1)) as Hbefore
    by (vm_compute; reflexivity).
  rewrite (proj1 (fetch_stops_at_first_failure "daily" "weekly" "monthly" Py.repr
                    (beat_services [nightly; hourly; weekly_report])
                    [nightly] [weekly_report] hourly quiet w1 Hstarted Hbefore)
             Hunknown).
  reflexivity.
Defined.

End BeatRuns.
